(** * ReGISTools: the record-mutation core

    A shallow embedding of the server side of the asset/records dashboard:
    the table declarations of [shared/schema.ts], the storage layer
    ([DatabaseStorage]) and the HTTP handlers of [server/routes.ts].

    - JavaScript objects (request bodies, rows returned by the store, audit
      snapshots) are finite maps from property names to values;
    - the relational store is a record of tables, sequences and the audit
      log, threaded through a state-and-exception monad;
    - everything the platform supplies (number parsing of [parseFloat], the
      PostGIS functions [ST_DWithin] and [ST_Distance], the conversion of a
      text to [numeric(12,2)], SQL [LIKE], [gen_random_uuid]) is an
      interface;
    - a string is the sequence of the bytes of its UTF-8 encoding. *)

From Stdlib Require Import QArith Qabs ZArith Ascii Sorted.
From stdpp Require Import gmap strings list fin_maps.

Open Scope string_scope.
Open Scope Z_scope.

(** ** JavaScript numbers

    A finite double is the rational it denotes: the handlers only compare
    numbers with constants, and comparison of doubles is exact. *)

Inductive number :=
| NaN
| PosInf
| NegInf
| Fin (q : Q).

Definition isNaN (n : number) : bool :=
  match n with NaN => true | _ => false end.

(** [a < b]; false as soon as one side is NaN. *)
Definition num_lt (a b : number) : bool :=
  match a, b with
  | Fin x, Fin y => negb (Qle_bool y x)
  | NegInf, Fin _ | NegInf, PosInf | Fin _, PosInf => true
  | _, _ => false
  end.

Definition num_gt (a b : number) : bool := num_lt b a.

(** [a <= b]; false as soon as one side is NaN. *)
Definition num_le (a b : number) : bool :=
  match a, b with
  | Fin x, Fin y => Qle_bool x y
  | NegInf, Fin _ | NegInf, PosInf | Fin _, PosInf => true
  | PosInf, PosInf | NegInf, NegInf => true
  | _, _ => false
  end.

Definition num_ge (a b : number) : bool := num_le b a.

Definition lit (z : Z) : number := Fin (inject_Z z).

(** The numbers that are falsy: NaN, +0 and -0. *)
Definition falsy (n : number) : bool :=
  match n with
  | NaN => true
  | Fin q => Qeq_bool q 0
  | _ => false
  end.

(** The nearest double of a natural number, ties to even; a number too
    large for a double gives Infinity. *)
Definition to_double (n : Z) : number :=
  if n <? 2 ^ 53 then lit n
  else
    let e := Z.log2 n - 52 in
    let q := n / 2 ^ e in
    let r := n mod 2 ^ e in
    let half := 2 ^ (e - 1) in
    let m := if (half <? r) || ((half =? r) && Z.odd q) then q + 1 else q in
    if 2 ^ 1024 <=? m * 2 ^ e then PosInf else lit (m * 2 ^ e).

Definition negate (n : number) : number :=
  match n with
  | NaN => NaN
  | PosInf => NegInf
  | NegInf => PosInf
  | Fin q => Fin (- q)
  end.

(** ** Values and objects *)

Inductive Val :=
| VNull
| VBool (b : bool)
| VNum (n : number)
| VStr (s : string)
| VDate (t : Z)               (* a Date / timestamp, milliseconds *)
| VStrs (l : list string)     (* text[] *)
| VGeom (lng lat : Q)         (* a PostGIS point, SRID 4326 *)
| VLngLat (lng lat : number)  (* the object { longitude, latitude } *)
| VGeoJSON (lng lat : Q)      (* ST_AsGeoJSON of a point *)
| VJson (doc : string).       (* any other JSON document *)

(** An object: a property that is [undefined] is an absent key. *)
Abbreviation Obj := (gmap string Val).
Abbreviation Row := (gmap string Val).

(** ** Tables of shared/schema.ts *)

Inductive Table := assets | staff | documents | workflows | workOrders.

#[global] Instance Table_eq_dec : EqDecision Table.
Proof. solve_decision. Defined.

Inductive ColType :=
| TVarchar
| TText
| TEnum (labels : list string)
| TInteger
| TDecimal
| TTimestamp
| TJsonb
| TTextArray
| TGeometry.

(** The DEFAULT clause of a column. *)
Inductive Default :=
| NoDefault
| DConst (v : Val)
| DNow                            (* defaultNow() *)
| DSeqId (prefix : string)        (* concat(prefix, to_char(nextval(seq), 'FM0000')) *)
| DUuid.                          (* gen_random_uuid() *)

Record Column := {
  col_name : string;
  col_type : ColType;
  col_notNull : bool;
  col_default : Default
}.

Definition col (n : string) (ty : ColType) : Column :=
  {| col_name := n; col_type := ty; col_notNull := false; col_default := NoDefault |}.
Definition notNull (c : Column) : Column :=
  {| col_name := col_name c; col_type := col_type c; col_notNull := true;
     col_default := col_default c |}.
Definition defaults_to (d : Default) (c : Column) : Column :=
  {| col_name := col_name c; col_type := col_type c; col_notNull := col_notNull c;
     col_default := d |}.
(** A primary key is NOT NULL. *)
Definition primaryKey (c : Column) : Column := notNull c.

Definition assetStatusEnum := ["active"; "inactive"; "maintenance"; "disposed"].
Definition assetCategoryEnum :=
  ["equipment"; "vehicle"; "it_equipment"; "furniture"; "building"; "infrastructure"].
Definition staffStatusEnum := ["active"; "inactive"; "on_leave"].
Definition workflowStatusEnum := ["pending"; "approved"; "rejected"; "completed"].
Definition workflowTypeEnum := ["purchase"; "transfer"; "disposal"; "maintenance"].
Definition documentTypeEnum :=
  ["contract"; "invoice"; "manual"; "certificate"; "report"; "other"].

Definition assets_columns : list Column := [
  defaults_to (DSeqId "AST-") (primaryKey (col "id" TVarchar));
  notNull (col "name" TText);
  col "description" TText;
  notNull (col "category" (TEnum assetCategoryEnum));
  col "serialNumber" TVarchar;
  defaults_to (DConst (VStr "active")) (col "status" (TEnum assetStatusEnum));
  defaults_to (DConst (VNum (lit 100))) (col "conditionScore" TInteger);
  col "purchaseDate" TTimestamp;
  col "purchaseValue" TDecimal;
  col "currentValue" TDecimal;
  col "warrantyExpiry" TTimestamp;
  col "custodianId" TVarchar;
  col "location" TGeometry;
  col "address" TText;
  defaults_to (DConst (VJson "{}")) (col "metadata" TJsonb);
  defaults_to (DConst (VStrs [])) (col "tags" TTextArray);
  col "createdBy" TVarchar;
  defaults_to DNow (col "createdAt" TTimestamp);
  defaults_to DNow (col "updatedAt" TTimestamp) ].

Definition staff_columns : list Column := [
  defaults_to DUuid (primaryKey (col "id" TVarchar));
  col "userId" TVarchar;
  col "employeeId" TVarchar;
  notNull (col "firstName" TVarchar);
  notNull (col "lastName" TVarchar);
  col "email" TVarchar;
  col "phone" TVarchar;
  notNull (col "role" TVarchar);
  notNull (col "department" TVarchar);
  col "managerId" TVarchar;
  defaults_to (DConst (VStr "active")) (col "status" (TEnum staffStatusEnum));
  col "startDate" TTimestamp;
  col "endDate" TTimestamp;
  col "officeLocation" TGeometry;
  col "officeAddress" TText;
  defaults_to (DConst (VStrs [])) (col "certifications" TTextArray);
  defaults_to (DConst (VStrs [])) (col "skills" TTextArray);
  defaults_to DNow (col "createdAt" TTimestamp);
  defaults_to DNow (col "updatedAt" TTimestamp) ].

Definition documents_columns : list Column := [
  defaults_to (DSeqId "DOC-") (primaryKey (col "id" TVarchar));
  notNull (col "title" TText);
  col "description" TText;
  notNull (col "type" (TEnum documentTypeEnum));
  notNull (col "filename" TVarchar);
  col "fileSize" TInteger;
  col "mimeType" TVarchar;
  notNull (col "filePath" TText);
  col "linkedEntityType" TVarchar;
  col "linkedEntityId" TVarchar;
  col "retentionPolicy" TVarchar;
  col "retentionExpiry" TTimestamp;
  defaults_to (DConst (VStrs [])) (col "tags" TTextArray);
  col "uploadedBy" TVarchar;
  defaults_to DNow (col "uploadedAt" TTimestamp);
  defaults_to DNow (col "updatedAt" TTimestamp) ].

Definition workflows_columns : list Column := [
  defaults_to (DSeqId "WFL-") (primaryKey (col "id" TVarchar));
  notNull (col "type" (TEnum workflowTypeEnum));
  notNull (col "title" TText);
  col "description" TText;
  defaults_to (DConst (VStr "pending")) (col "status" (TEnum workflowStatusEnum));
  defaults_to (DConst (VStr "medium")) (col "priority" TVarchar);
  col "requestedBy" TVarchar;
  col "assignedTo" TVarchar;
  col "assetId" TVarchar;
  defaults_to (DConst (VJson "{}")) (col "relatedData" TJsonb);
  col "approvalThreshold" TDecimal;
  col "estimatedCost" TDecimal;
  col "actualCost" TDecimal;
  col "scheduledDate" TTimestamp;
  col "completedDate" TTimestamp;
  col "comments" TText;
  defaults_to DNow (col "createdAt" TTimestamp);
  defaults_to DNow (col "updatedAt" TTimestamp) ].

Definition workOrders_columns : list Column := [
  defaults_to (DSeqId "WO-") (primaryKey (col "id" TVarchar));
  col "assetId" TVarchar;
  notNull (col "title" TText);
  col "description" TText;
  notNull (col "type" TVarchar);
  defaults_to (DConst (VStr "medium")) (col "priority" TVarchar);
  defaults_to (DConst (VStr "open")) (col "status" TVarchar);
  col "assignedTo" TVarchar;
  col "createdBy" TVarchar;
  col "scheduledDate" TTimestamp;
  col "completedDate" TTimestamp;
  col "estimatedCost" TDecimal;
  col "actualCost" TDecimal;
  col "notes" TText;
  defaults_to (DConst (VStrs [])) (col "attachments" TTextArray);
  defaults_to DNow (col "createdAt" TTimestamp);
  defaults_to DNow (col "updatedAt" TTimestamp) ].

Definition columns (t : Table) : list Column :=
  match t with
  | assets => assets_columns
  | staff => staff_columns
  | documents => documents_columns
  | workflows => workflows_columns
  | workOrders => workOrders_columns
  end.

(** ** Insert schemas (drizzle-zod over the table declarations)

    [createInsertSchema] turns each column into a field: the field is
    nullable unless the column is NOT NULL, and optional when it is nullable
    or has a default.  Parsing keeps the declared keys of the input and
    strips the others; it reports every offending field. *)

Record Field := {
  f_name : string;
  f_type : ColType;
  f_nullable : bool;
  f_optional : bool
}.

Abbreviation Schema := (list Field).

Definition has_default (c : Column) : bool :=
  match col_default c with NoDefault => false | _ => true end.

Definition createInsertSchema (t : Table) : Schema :=
  map (fun c => {| f_name := col_name c; f_type := col_type c;
                   f_nullable := negb (col_notNull c);
                   f_optional := negb (col_notNull c) || has_default c |})
      (columns t).

Definition omit (keys : list string) (s : Schema) : Schema :=
  filter (fun f => f_name f ∉ keys) s.

Definition partial (s : Schema) : Schema :=
  map (fun f => {| f_name := f_name f; f_type := f_type f;
                   f_nullable := f_nullable f; f_optional := true |}) s.

Definition insertAssetSchema : Schema :=
  omit ["id"; "createdAt"; "updatedAt"] (createInsertSchema assets).
Definition insertStaffSchema : Schema :=
  omit ["id"; "createdAt"; "updatedAt"] (createInsertSchema staff).
Definition insertDocumentSchema : Schema :=
  omit ["id"; "uploadedAt"; "updatedAt"] (createInsertSchema documents).
Definition insertWorkflowSchema : Schema :=
  omit ["id"; "createdAt"; "updatedAt"] (createInsertSchema workflows).
Definition insertWorkOrderSchema : Schema :=
  omit ["id"; "createdAt"; "updatedAt"] (createInsertSchema workOrders).

Definition is_integer (q : Q) : bool := (Qden (Qred q) =? 1)%positive.

(** The bounds drizzle-zod gives an [integer] column: those of int4. *)
Definition int4_min : Z := -2147483648.
Definition int4_max : Z := 2147483647.

(** The value schema of a column type: strings for varchar, text and
    decimal, the labels of an enum, an integer number within int4, a Date
    for a timestamp, a string array, a point, and for jsonb any JSON value
    (a string, a number that is not NaN, a boolean, an array or an
    object; not a Date). *)
Definition accepts (ty : ColType) (v : Val) : bool :=
  match ty, v with
  | TVarchar, VStr _ | TText, VStr _ | TDecimal, VStr _ => true
  | TEnum labels, VStr s => bool_decide (s ∈ labels)
  | TInteger, VNum (Fin q) =>
      is_integer q && Qle_bool (inject_Z int4_min) q && Qle_bool q (inject_Z int4_max)
  | TTimestamp, VDate _ => true
  | TTextArray, VStrs _ => true
  | TGeometry, VGeom _ _ => true
  | TJsonb, VDate _ => false
  | TJsonb, VNum n => negb (isNaN n)
  | TJsonb, _ => true
  | _, _ => false
  end.

Definition field_ok (f : Field) (input : Obj) : bool :=
  match input !! f_name f with
  | None => f_optional f
  | Some VNull => f_nullable f
  | Some v => accepts (f_type f) v
  end.

Definition zod_issues (s : Schema) (input : Obj) : list string :=
  f_name <$> filter (fun f => field_ok f input = false) s.

Definition zod_output (s : Schema) (input : Obj) : Obj :=
  foldr (fun f acc => match input !! f_name f with
                      | Some v => <[f_name f := v]> acc
                      | None => acc
                      end) ∅ s.

(** [schema.parse(input)]: the parsed object, or the offending fields. *)
Definition zod_parse (s : Schema) (input : Obj) : list string + Obj :=
  match zod_issues s input with
  | [] => inr (zod_output s input)
  | issues => inl issues
  end.

(** ** Identifiers: sequences and to_char(_, 'FM0000') *)

Definition digit (d : Z) : ascii := ascii_of_nat (48 + Z.to_nat d).

(** Four digit positions that are never dropped; a number that needs more
    positions than the pattern has is printed as a run of [#]. *)
Definition to_char_digits (m : Z) : string :=
  if m <? 10000
  then String (digit (m / 1000)) (String (digit (m / 100 mod 10))
         (String (digit (m / 10 mod 10)) (String (digit (m mod 10)) "")))
  else "####".

Definition to_char_FM0000 (n : Z) : string :=
  if n <? 0 then "-" +:+ to_char_digits (- n) else to_char_digits n.

(** CREATE SEQUENCE IF NOT EXISTS ..._seq START 1000 *)
Definition sequence_start : Z := 1000.

(** ** Audit records *)

(** The argument of [storage.createAuditLog]. *)
Record AuditEntry := {
  entityType : string;
  entityId : string;
  action : string;
  userId : string;
  changeSummary : option Obj;
  oldValues : option Obj;
  newValues : option Obj;
  ipAddress : option string;
  userAgent : option string
}.

(** A row of audit_logs: the entry with its serial id and its timestamp. *)
Record AuditLog := {
  log_id : Z;
  log_entry : AuditEntry;
  log_timestamp : Z
}.

(** ** The store *)

Inductive StoreCall :=
| SelectById (t : Table) (id : string)
| SelectPage (t : Table) (limit offset : number) (filter : option string)
| SelectAuditPage (limit offset : number)
| SelectNear (t : Table) (lng lat radius : number)
| InsertRow (t : Table) (values : Row)
| UpdateRow (t : Table) (id : string) (set : Row)
| DeleteRow (t : Table) (id : string)
| InsertAudit (entry : AuditEntry).

Record World := {
  rows : Table -> gmap string Row;   (* the tables, by primary key *)
  seqs : Table -> Z;                 (* next value of the table's sequence *)
  uuid_next : nat;                   (* draws of gen_random_uuid so far *)
  auditLogs : list AuditLog;         (* audit_logs, oldest first *)
  audit_serial : Z;                  (* next value of audit_logs.id *)
  clock : Z;                         (* new Date() and now() *)
  fault : StoreCall -> bool;         (* calls the store refuses: connectivity,
                                        time-outs, foreign-key, unique and
                                        NOT NULL constraints, a value out of
                                        the range of its column *)
  trace : list StoreCall             (* storage calls made, oldest first *)
}.

Definition log_call (c : StoreCall) (w : World) : World :=
  {| rows := rows w; seqs := seqs w; uuid_next := uuid_next w;
     auditLogs := auditLogs w; audit_serial := audit_serial w; clock := clock w;
     fault := fault w; trace := trace w ++ [c] |}.

Definition set_table (t : Table) (m : gmap string Row) (w : World) : World :=
  {| rows := fun t' => if decide (t' = t) then m else rows w t';
     seqs := seqs w; uuid_next := uuid_next w;
     auditLogs := auditLogs w; audit_serial := audit_serial w; clock := clock w;
     fault := fault w; trace := trace w |}.

Definition nextval (t : Table) (w : World) : World :=
  {| rows := rows w;
     seqs := fun t' => if decide (t' = t) then seqs w t + 1 else seqs w t';
     uuid_next := uuid_next w;
     auditLogs := auditLogs w; audit_serial := audit_serial w; clock := clock w;
     fault := fault w; trace := trace w |}.

Definition draw_uuid (w : World) : World :=
  {| rows := rows w; seqs := seqs w; uuid_next := S (uuid_next w);
     auditLogs := auditLogs w; audit_serial := audit_serial w; clock := clock w;
     fault := fault w; trace := trace w |}.

(** nextval of the serial of audit_logs.id *)
Definition draw_serial (w : World) : World :=
  {| rows := rows w; seqs := seqs w; uuid_next := uuid_next w;
     auditLogs := auditLogs w; audit_serial := audit_serial w + 1; clock := clock w;
     fault := fault w; trace := trace w |}.

Definition append_audit (e : AuditEntry) (w : World) : World :=
  {| rows := rows w; seqs := seqs w; uuid_next := uuid_next w;
     auditLogs := auditLogs w ++
       [{| log_id := audit_serial w; log_entry := e; log_timestamp := clock w |}];
     audit_serial := audit_serial w + 1; clock := clock w;
     fault := fault w; trace := trace w |}.

(** The store before any request: empty tables, sequences at their START. *)
Definition empty_world (now : Z) : World :=
  {| rows := fun _ => ∅; seqs := fun _ => sequence_start; uuid_next := 0%nat;
     auditLogs := []; audit_serial := 1; clock := now;
     fault := fun _ => false; trace := [] |}.

(** ** The monad of handlers: state and exceptions *)

Inductive Exn :=
| ZodError (issues : list string)
| TypeError
| StoreError.

Inductive Result (A : Type) :=
| Ok (a : A)
| Throw (e : Exn).
Arguments Ok {A} a.
Arguments Throw {A} e.

Definition M (A : Type) : Type := World -> Result A * World.

#[global] Instance M_ret : MRet M := fun A a w => (Ok a, w).
#[global] Instance M_bind : MBind M := fun A B f m w =>
  match m w with
  | (Ok a, w') => f a w'
  | (Throw e, w') => (Throw e, w')
  end.

Definition throw {A} (e : Exn) : M A := fun w => (Throw e, w).
Definition get_world : M World := fun w => (Ok w, w).
Definition modify (f : World -> World) : M unit := fun w => (Ok (), f w).

(** try { body } catch (error) { handler(error) } *)
Definition try_catch {A} (body : M A) (handler : Exn -> M A) : M A := fun w =>
  match body w with
  | (Ok a, w') => (Ok a, w')
  | (Throw e, w') => handler e w'
  end.

(** Every storage call is recorded, and the store may refuse it. *)
Definition call (c : StoreCall) : M unit := fun w =>
  if fault w c then (Throw StoreError, log_call c w) else (Ok (), log_call c w).

(** ** The platform *)

Abbreviation Point := (Q * Q)%type.

Class Platform := {
  parseFloat : string -> number;           (* ECMAScript parseFloat *)
  ST_DWithin : Point -> Point -> Q -> bool;
                                           (* ST_DWithin(a::geography, b::geography, r) *)
  ST_Distance : Point -> Point -> Q;       (* ST_Distance(a::geography, b::geography),
                                              metres, as PostGIS reports it *)
  numeric : string -> string;              (* what a numeric(12,2) column holds
                                              for a text it accepts *)
  like : Val -> string -> bool;            (* column LIKE pattern *)
  gen_random_uuid : nat -> string          (* the n-th draw *)
}.

(** ** The storage layer (DatabaseStorage) *)

Section Storage.
Context `{Platform}.

Definition table_rows (w : World) (t : Table) : list Row :=
  (map_to_list (rows w t)).*2.

(** What a column holds once a value is written to it: a decimal column
    is numeric(12,2), which keeps a number at scale 2 whatever the text
    that wrote it; the other columns give back what was written. *)
Definition column_holds (ty : ColType) (v : Val) : Val :=
  match ty, v with
  | TDecimal, VStr s => VStr (numeric s)
  | _, _ => v
  end.

(** The value a new row gets in column [c]: the one supplied, else the
    column default, else NULL. *)
Definition column_value (t : Table) (w : World) (values : Row) (c : Column) : Val :=
  match values !! col_name c with
  | Some v => column_holds (col_type c) v
  | None =>
      match col_default c with
      | NoDefault => VNull
      | DConst v => v
      | DNow => VDate (clock w)
      | DSeqId prefix => VStr (prefix +:+ to_char_FM0000 (seqs w t))
      | DUuid => VStr (gen_random_uuid (uuid_next w))
      end
  end.

Definition new_row (t : Table) (w : World) (values : Row) : Row :=
  foldr (fun c acc => <[col_name c := column_value t w values c]> acc) ∅ (columns t).

(** Evaluating a default consumes the sequence value or the uuid draw,
    whether or not the insert goes through afterwards. *)
Definition draw_defaults (t : Table) (values : Row) (w : World) : World :=
  foldr (fun c w' => match col_default c, values !! col_name c with
                     | DSeqId _, None => nextval t w'
                     | DUuid, None => draw_uuid w'
                     | _, _ => w'
                     end) w (columns t).

(** db.insert(t).values(values).returning() *)
Definition db_insert (t : Table) (values : Row) : M Row :=
  call (InsertRow t values);;
  w ← get_world;
  let row := new_row t w values in
  modify (draw_defaults t values);;
  match row !! "id" with
  | Some (VStr id) =>
      match rows w t !! id with
      | Some _ => throw StoreError            (* duplicate primary key *)
      | None => modify (set_table t (<[id := row]> (rows w t)));; mret row
      end
  | _ => throw StoreError
  end.

(** const [row] = await db.select().from(t).where(eq(t.id, id)) *)
Definition db_select_by_id (t : Table) (id : string) : M (option Row) :=
  call (SelectById t id);;
  w ← get_world;
  mret (rows w t !! id).

(** The SET list of an update: one assignment for each column of the table
    that the object has a property for; other properties are left out. *)
Definition assignments (t : Table) (set : Row) : Row :=
  foldr (fun c acc => match set !! col_name c with
                      | Some v => <[col_name c := column_holds (col_type c) v]> acc
                      | None => acc
                      end) ∅ (columns t).

(** const [row] = await db.update(t).set(set).where(eq(t.id, id)).returning().
    The primary key is never in the SET list: every caller builds it from a
    schema that omits [id]. *)
Definition db_update (t : Table) (id : string) (set : Row) : M (option Row) :=
  call (UpdateRow t id set);;
  w ← get_world;
  match rows w t !! id with
  | Some old =>
      let row := assignments t set ∪ old in
      modify (set_table t (<[id := row]> (rows w t)));; mret (Some row)
  | None => mret None
  end.

(** await db.delete(t).where(eq(t.id, id)) *)
Definition db_delete (t : Table) (id : string) : M unit :=
  call (DeleteRow t id);;
  w ← get_world;
  modify (set_table t (delete id (rows w t))).

Definition now : M Z := fun w => (Ok (clock w), w).

(** { ...patch, updatedAt: new Date() } *)
Definition touch (patch : Obj) : M Obj :=
  t ← now; mret (<["updatedAt" := VDate t]> patch).

Definition getAsset (id : string) := db_select_by_id assets id.
Definition createAsset (asset : Obj) := db_insert assets asset.
Definition updateAsset (id : string) (asset : Obj) :=
  set ← touch asset; db_update assets id set.
Definition deleteAsset (id : string) := db_delete assets id.

Definition getStaffMember (id : string) := db_select_by_id staff id.
Definition createStaffMember (staffData : Obj) := db_insert staff staffData.
Definition updateStaffMember (id : string) (staffData : Obj) :=
  set ← touch staffData; db_update staff id set.
Definition deleteStaffMember (id : string) := db_delete staff id.

Definition createDocument (document : Obj) := db_insert documents document.

Definition getWorkflow (id : string) := db_select_by_id workflows id.
Definition createWorkflow (workflow : Obj) := db_insert workflows workflow.
Definition updateWorkflow (id : string) (workflow : Obj) :=
  set ← touch workflow; db_update workflows id set.

Definition createWorkOrder (workOrder : Obj) := db_insert workOrders workOrder.

(** await db.insert(auditLogs).values(log).  An insert that the store
    refuses has drawn its serial number all the same: nextval is not undone
    when the statement fails. *)
Definition storage_createAuditLog (log : AuditEntry) : M unit := fun w =>
  let w1 := log_call (InsertAudit log) w in
  if fault w (InsertAudit log) then (Throw StoreError, draw_serial w1)
  else (Ok (), append_audit log w1).

(** *** Listing *)

Fixpoint insert_sorted {A} (leb : A -> A -> bool) (x : A) (l : list A) : list A :=
  match l with
  | [] => [x]
  | y :: l' => if leb x y then x :: l else y :: insert_sorted leb x l'
  end.

(** ORDER BY, as an insertion sort. *)
Definition order_by {A} (leb : A -> A -> bool) (l : list A) : list A :=
  foldr (insert_sorted leb) [] l.

Definition timestamp_of (column : string) (r : Row) : option Z :=
  match r !! column with Some (VDate t) => Some t | _ => None end.

(** DESC: later first, NULL before everything. *)
Definition desc (a b : option Z) : bool :=
  match a, b with
  | None, _ => true
  | Some _, None => false
  | Some x, Some y => y <=? x
  end.

(** The parameter of a LIMIT or an OFFSET clause is a bigint: the store
    refuses a number that is not an integer of 64 bits (Infinity, a
    fraction, 2^63 and more). *)
Definition bigint (n : number) : option Z :=
  match n with
  | Fin q =>
      if is_integer q && Qle_bool (inject_Z (- 2 ^ 63)) q
         && negb (Qle_bool (inject_Z (2 ^ 63)) q)
      then Some (Qnum (Qred q)) else None
  | _ => None
  end.

(** OFFSET offset: the query builder writes the clause when [offset] is
    truthy, and the store refuses a negative offset ([None]). *)
Definition skip {A} (offset : number) (l : list A) : option (list A) :=
  if falsy offset then Some l
  else match bigint offset with
       | Some k => if k <? 0 then None else Some (drop (Z.to_nat k) l)
       | None => None
       end.

(** LIMIT limit: the query builder writes the clause when [limit] is a
    number and [limit >= 0]; a negative limit is left out, and every row
    is returned. *)
Definition cut {A} (limit : number) (l : list A) : option (list A) :=
  if num_ge limit (lit 0)
  then match bigint limit with
       | Some k => Some (take (Z.to_nat k) l)
       | None => None
       end
  else Some l.

(** .limit(limit).offset(offset) *)
Definition limit_offset {A} (limit offset : number) (l : list A) : M (list A) :=
  match skip offset l ≫= cut limit with
  | Some page => mret page
  | None => throw StoreError
  end.

Definition select_page (t : Table) (conditions : Row -> bool) (order_column : string)
    (limit offset : number) : M (list Row * Z) :=
  w ← get_world;
  let matching := List.filter conditions (table_rows w t) in
  let ordered :=
    order_by (fun a b => desc (timestamp_of order_column a) (timestamp_of order_column b))
             matching in
  items ← limit_offset limit offset ordered;
  mret (items, Z.of_nat (length matching)).

Definition truthy_string (s : option string) : option string :=
  match s with Some "" => None | _ => s end.

(** search ? or(like(c1, `%${search}%`), ...) : undefined *)
Definition search_conditions (cols : list string) (search : option string) (r : Row) : bool :=
  match truthy_string search with
  | Some s => existsb (fun c => match r !! c with
                               | Some v => like v ("%" +:+ s +:+ "%")
                               | None => false
                               end) cols
  | None => true
  end.

Definition getAssets (limit offset : number) (search : option string) :=
  call (SelectPage assets limit offset search);;
  select_page assets (search_conditions ["name"; "description"; "serialNumber"] search)
              "createdAt" limit offset.

Definition getStaffMembers (limit offset : number) (search : option string) :=
  call (SelectPage staff limit offset search);;
  select_page staff (search_conditions ["firstName"; "lastName"; "email"; "role"] search)
              "createdAt" limit offset.

Definition getDocuments (limit offset : number) (search : option string) :=
  call (SelectPage documents limit offset search);;
  select_page documents (search_conditions ["title"; "description"; "filename"] search)
              "uploadedAt" limit offset.

(** status ? eq(workflows.status, status) : undefined.  The column is of
    the enum type workflow_status: the store refuses the comparison with a
    text that is not one of its labels. *)
Definition getWorkflows (limit offset : number) (status : option string) :=
  call (SelectPage workflows limit offset status);;
  match truthy_string status with
  | Some s =>
      if bool_decide (s ∈ workflowStatusEnum)
      then select_page workflows
             (fun r => match r !! "status" with
                       | Some (VStr s') => bool_decide (s' = s)
                       | _ => false
                       end)
             "createdAt" limit offset
      else throw StoreError
  | None => select_page workflows (fun _ => true) "createdAt" limit offset
  end.

Definition getWorkOrders (limit offset : number) :=
  call (SelectPage workOrders limit offset None);;
  select_page workOrders (fun _ => true) "createdAt" limit offset.

Definition getAuditLogs (limit offset : number) : M (list AuditLog * Z) :=
  call (SelectAuditPage limit offset);;
  w ← get_world;
  logs ← limit_offset limit offset
           (order_by (fun a b => log_timestamp b <=? log_timestamp a) (auditLogs w));
  mret (logs, Z.of_nat (length (auditLogs w))).

(** *** Spatial operations *)

(** spatialUtils.withinDistance:
    ST_DWithin(column::geography,
               ST_SetSRID(ST_MakePoint(longitude, latitude), 4326)::geography,
               radiusMeters) *)
Definition withinDistance (p : Point) (longitude latitude radiusMeters : Q) : bool :=
  ST_DWithin p (longitude, latitude) radiusMeters.

Definition row_distance (r : Row) : option Q :=
  match r !! "distance" with Some (VNum (Fin d)) => Some d | _ => None end.

(** One row of the spatial select, when the row passes its WHERE clause:
    the geometry column IS NOT NULL and ST_DWithin holds.  The geometry is
    returned as GeoJSON, along with the distance that ST_Distance reports;
    the two are computed apart, and nothing in the query compares the
    reported distance with the radius. *)
Definition near_row (column : string) (longitude latitude radiusMeters : Q) (r : Row)
    : option Row :=
  match r !! column with
  | Some (VGeom x y) =>
      if withinDistance (x, y) longitude latitude radiusMeters
      then Some (<["distance" := VNum (Fin (ST_Distance (x, y) (longitude, latitude)))]>
                   (<[column := VGeoJSON x y]> r))
      else None
  | _ => None
  end.

Definition by_distance (a b : Row) : bool :=
  match row_distance a, row_distance b with
  | Some x, Some y => Qle_bool x y
  | None, _ => true
  | Some _, None => false
  end.

(** The query runs on finite coordinates only; the handlers let no other
    through. *)
Definition select_near (t : Table) (column : string)
    (longitude latitude radiusMeters : number) : M (list Row) :=
  call (SelectNear t longitude latitude radiusMeters);;
  w ← get_world;
  match longitude, latitude, radiusMeters with
  | Fin lng, Fin lat, Fin radius =>
      mret (order_by by_distance (omap (near_row column lng lat radius) (table_rows w t)))
  | _, _, _ => throw StoreError
  end.

Definition getAssetsNearLocation := select_near assets "location".
Definition getStaffNearLocation := select_near staff "officeLocation".

(** set({ location: ST_SetSRID(ST_MakePoint(lng, lat), 4326), updatedAt: new Date() }) *)
Definition update_location (t : Table) (column : string) (id : string)
    (longitude latitude : number) : M (option Row) :=
  match longitude, latitude with
  | Fin lng, Fin lat =>
      set ← touch {[ column := VGeom lng lat ]};
      db_update t id set
  | _, _ => throw StoreError
  end.

Definition updateAssetLocation := update_location assets "location".
Definition updateStaffLocation := update_location staff "officeLocation".

End Storage.

(** ** parseInt

    ECMAScript [parseInt] without a radix: leading white space is skipped,
    then a sign, then a hexadecimal prefix, then the longest run of digits;
    no digit at all gives NaN.  The result is a Number: the integer read,
    rounded to the nearest double. *)

(** StrWhiteSpaceChar in one byte: TAB, LF, VT, FF, CR and SP. *)
Definition is_white_space (c : ascii) : bool :=
  let n := nat_of_ascii c in
  ((9 <=? n) && (n <=? 13))%nat || (n =? 32)%nat.

(** In two bytes: U+00A0. *)
Definition is_white_space2 (c1 c2 : ascii) : bool :=
  ((nat_of_ascii c1 =? 194) && (nat_of_ascii c2 =? 160))%nat.

(** In three bytes: U+1680, U+2000 to U+200A, U+2028, U+2029, U+202F,
    U+205F, U+3000 and U+FEFF. *)
Definition is_white_space3 (c1 c2 c3 : ascii) : bool :=
  let a := nat_of_ascii c1 in
  let b := nat_of_ascii c2 in
  let c := nat_of_ascii c3 in
  ((a =? 225) && (b =? 154) && (c =? 128)
   || (a =? 226) && (b =? 128)
      && ((128 <=? c) && (c <=? 138) || (c =? 168) || (c =? 169) || (c =? 175))
   || (a =? 226) && (b =? 129) && (c =? 159)
   || (a =? 227) && (b =? 128) && (c =? 128)
   || (a =? 239) && (b =? 187) && (c =? 191))%nat.

Fixpoint skip_white_space (s : string) : string :=
  match s with
  | String c1 s1 =>
      if is_white_space c1 then skip_white_space s1
      else match s1 with
           | String c2 s2 =>
               if is_white_space2 c1 c2 then skip_white_space s2
               else match s2 with
                    | String c3 s3 =>
                        if is_white_space3 c1 c2 c3 then skip_white_space s3 else s
                    | "" => s
                    end
           | "" => s
           end
  | "" => ""
  end.

Definition digit_value (radix : Z) (c : ascii) : option Z :=
  let n := Z.of_nat (nat_of_ascii c) in
  let v := if (48 <=? n) && (n <=? 57) then Some (n - 48)
           else if (97 <=? n) && (n <=? 122) then Some (n - 87)
           else if (65 <=? n) && (n <=? 90) then Some (n - 55)
           else None in
  match v with
  | Some d => if d <? radix then Some d else None
  | None => None
  end.

(** The value of the longest prefix of digits, [acc] being what was read. *)
Fixpoint read_digits (radix : Z) (acc : option Z) (s : string) : option Z :=
  match s with
  | String c s' =>
      match digit_value radix c with
      | Some d => read_digits radix (Some (default 0 acc * radix + d)) s'
      | None => acc
      end
  | "" => acc
  end.

Definition read_unsigned (s : string) : number :=
  let mathInt :=
    match s with
    | String "0"%char (String "x"%char s') | String "0"%char (String "X"%char s') =>
        read_digits 16 None s'
    | _ => read_digits 10 None s
    end in
  match mathInt with
  | Some n => to_double n
  | None => NaN
  end.

Definition parseInt_string (s : string) : number :=
  match skip_white_space s with
  | String "-"%char s' => negate (read_unsigned s')
  | String "+"%char s' => read_unsigned s'
  | s' => read_unsigned s'
  end.

(** A query parameter that is absent is [undefined], which parses as NaN. *)
Definition parseInt (param : option string) : number :=
  match param with
  | Some s => parseInt_string s
  | None => NaN
  end.

(** [n || d] *)
Definition or_default (n : number) (d : Z) : number :=
  if falsy n then lit d else n.

(** ** Requests and responses *)

Record Claims := {
  sub : string;
  email : option string;
  first_name : option string;
  last_name : option string
}.

Record AuthUser := { claims : Claims }.

Record Request := {
  user : option AuthUser;          (* set by the authentication layer *)
  params_id : string;              (* req.params.id *)
  query : gmap string string;      (* req.query *)
  body : Obj;                      (* req.body *)
  ip : option string;              (* req.ip *)
  user_agent : option string       (* req.get('User-Agent') *)
}.

Inductive Payload :=
| Message (message : string)                 (* { message } *)
| Invalid (errors : list string)             (* { message: "Invalid data", errors } *)
| Entity (row : option Row)
| Entities (items : list Row)
| Page (items : list Row) (total : Z)
| LogsPage (logs : list AuditLog) (total : Z)
| Empty.

Record Response := { status : Z; payload : Payload }.

Definition respond (code : Z) (p : Payload) : M Response :=
  mret {| status := code; payload := p |}.

(** ** The routes (registerRoutes) *)

Section Routes.
Context `{Platform}.

(** req.user?.claims?.sub, when truthy *)
Definition actor (req : Request) : option string :=
  match user req with
  | Some u => truthy_string (Some (sub (claims u)))
  | None => None
  end.

(** authReq.user!.claims.sub *)
Definition user_sub (req : Request) : M string :=
  match user req with
  | Some u => mret (sub (claims u))
  | None => throw TypeError
  end.

(** The object handed to storage.createAuditLog. *)
Definition audit_entry (entityType entityId action sub : string) (req : Request)
    (oldValues newValues : option Obj) : AuditEntry :=
  {| entityType := entityType;
     entityId := entityId;
     action := action;
     userId := sub;
     changeSummary := Some {[ "action" := VStr action;
                              "entityType" := VStr entityType;
                              "entityId" := VStr entityId ]};
     oldValues := oldValues;
     newValues := newValues;
     ipAddress := ip req;
     userAgent := user_agent req |}.

(** Helper function to create audit log *)
Definition createAuditLog (entityType entityId action : string) (req : Request)
    (oldValues newValues : option Obj) : M unit :=
  match actor req with
  | Some sub =>
      storage_createAuditLog (audit_entry entityType entityId action sub req oldValues newValues)
  | None => mret ()
  end.

Definition parse (s : Schema) (input : Obj) : M Obj :=
  match zod_parse s input with
  | inr data => mret data
  | inl issues => throw (ZodError issues)
  end.

(** The catch block of a handler that validates a body. *)
Definition on_error (failure : string) (error : Exn) : M Response :=
  match error with
  | ZodError errors => respond 400 (Invalid errors)
  | _ => respond 500 (Message failure)
  end.

(** The catch block of the other handlers. *)
Definition on_failure (failure : string) (error : Exn) : M Response :=
  respond 500 (Message failure).

(** asset.id! *)
Definition row_id (r : Row) : string :=
  match r !! "id" with Some (VStr id) => id | _ => "" end.

(** column !== userId *)
Definition differs (v : option Val) (userId : string) : bool :=
  match v with
  | Some (VStr s) => negb (bool_decide (s = userId))
  | _ => true
  end.

(** { [column]: row[column] } *)
Definition snapshot (column : string) (r : Row) : Obj :=
  match r !! column with
  | Some v => {[ column := v ]}
  | None => ∅
  end.

(** *** Spatial search *)

(** GET /api/spatial/assets and GET /api/spatial/staff: the two handlers
    differ in the storage method and in the failure message. *)
Definition spatial_search (near : number -> number -> number -> M (list Row))
    (failure : string) (req : Request) : M Response :=
  try_catch
    (match truthy_string (query req !! "lng"),
           truthy_string (query req !! "lat"),
           truthy_string (query req !! "radius") with
     | Some lng, Some lat, Some radius =>
         let longitude := parseFloat lng in
         let latitude := parseFloat lat in
         let radiusMeters := parseFloat radius in
         if isNaN longitude || isNaN latitude || isNaN radiusMeters then
           respond 400 (Message "Invalid coordinate or radius values")
         else if num_lt longitude (lit (-180)) || num_gt longitude (lit 180) then
           respond 400 (Message "Longitude must be between -180 and 180")
         else if num_lt latitude (lit (-90)) || num_gt latitude (lit 90) then
           respond 400 (Message "Latitude must be between -90 and 90")
         else if num_le radiusMeters (lit 0) || num_gt radiusMeters (lit 100000) then
           respond 400 (Message "Radius must be between 0 and 100,000 meters")
         else
           nearby ← near longitude latitude radiusMeters;
           respond 200 (Entities nearby)
     | _, _, _ => respond 400 (Message "longitude, latitude, and radius are required")
     end)
    (on_failure failure).

Definition get_spatial_assets :=
  spatial_search getAssetsNearLocation "Failed to find nearby assets".
Definition get_spatial_staff :=
  spatial_search getStaffNearLocation "Failed to find nearby staff".

(** z.number().min(lo).max(hi) *)
Definition bounded_number (lo hi : Z) (v : option Val) : option number :=
  match v with
  | Some (VNum n) =>
      if negb (isNaN n) && num_ge n (lit lo) && num_le n (lit hi) then Some n else None
  | _ => None
  end.

(** locationSchema.parse(req.body) *)
Definition parse_location (input : Obj) : M (number * number) :=
  match bounded_number (-180) 180 (input !! "longitude"),
        bounded_number (-90) 90 (input !! "latitude") with
  | Some longitude, Some latitude => mret (longitude, latitude)
  | None, Some _ => throw (ZodError ["longitude"])
  | Some _, None => throw (ZodError ["latitude"])
  | None, None => throw (ZodError ["longitude"; "latitude"])
  end.

(** PUT /api/assets/:id/location *)
Definition put_asset_location (req : Request) : M Response :=
  try_catch
    ('(longitude, latitude) ← parse_location (body req);
     existingAsset ← getAsset (params_id req);
     match existingAsset with
     | None => respond 404 (Message "Asset not found")
     | Some existingAsset =>
         userId ← user_sub req;
         if differs (existingAsset !! "custodianId") userId
            && differs (existingAsset !! "createdBy") userId
         then respond 403
                (Message "You don't have permission to update this asset's location")
         else
           asset ← updateAssetLocation (params_id req) longitude latitude;
           createAuditLog "asset" (params_id req) "location_update" req
             (Some (snapshot "location" existingAsset))
             (Some {[ "location" := VLngLat longitude latitude ]});;
           respond 200 (Entity asset)
     end)
    (on_error "Failed to update asset location").

(** PUT /api/staff/:id/location *)
Definition put_staff_location (req : Request) : M Response :=
  try_catch
    ('(longitude, latitude) ← parse_location (body req);
     existingStaff ← getStaffMember (params_id req);
     match existingStaff with
     | None => respond 404 (Message "Staff member not found")
     | Some existingStaff =>
         userId ← user_sub req;
         if differs (existingStaff !! "userId") userId
         then respond 403 (Message "You can only update your own office location")
         else
           staff ← updateStaffLocation (params_id req) longitude latitude;
           createAuditLog "staff" (params_id req) "location_update" req
             (Some (snapshot "officeLocation" existingStaff))
             (Some {[ "officeLocation" := VLngLat longitude latitude ]});;
           respond 200 (Entity staff)
     end)
    (on_error "Failed to update staff location").

(** *** Assets *)

(** GET /api/assets *)
Definition get_assets (req : Request) : M Response :=
  try_catch
    (let limit := or_default (parseInt (query req !! "limit")) 20 in
     let offset := or_default (parseInt (query req !! "offset")) 0 in
     let search := query req !! "search" in
     '(items, total) ← getAssets limit offset search;
     respond 200 (Page items total))
    (on_failure "Failed to fetch assets").

(** POST /api/assets *)
Definition post_assets (req : Request) : M Response :=
  try_catch
    (createdBy ← user_sub req;
     validatedData ← parse insertAssetSchema (<["createdBy" := VStr createdBy]> (body req));
     asset ← createAsset validatedData;
     createAuditLog "asset" (row_id asset) "create" req None (Some asset);;
     respond 201 (Entity (Some asset)))
    (on_error "Failed to create asset").

(** PUT /api/assets/:id *)
Definition put_asset (req : Request) : M Response :=
  try_catch
    (oldAsset ← getAsset (params_id req);
     match oldAsset with
     | None => respond 404 (Message "Asset not found")
     | Some oldAsset =>
         validatedData ← parse (partial insertAssetSchema) (body req);
         updatedAsset ← updateAsset (params_id req) validatedData;
         createAuditLog "asset" (params_id req) "update" req (Some oldAsset) updatedAsset;;
         respond 200 (Entity updatedAsset)
     end)
    (on_error "Failed to update asset").

(** DELETE /api/assets/:id *)
Definition delete_asset (req : Request) : M Response :=
  try_catch
    (asset ← getAsset (params_id req);
     match asset with
     | None => respond 404 (Message "Asset not found")
     | Some asset =>
         deleteAsset (params_id req);;
         createAuditLog "asset" (params_id req) "delete" req (Some asset) None;;
         respond 204 Empty
     end)
    (on_failure "Failed to delete asset").

(** *** Staff *)

(** GET /api/staff *)
Definition get_staff (req : Request) : M Response :=
  try_catch
    (let limit := or_default (parseInt (query req !! "limit")) 20 in
     let offset := or_default (parseInt (query req !! "offset")) 0 in
     let search := query req !! "search" in
     '(items, total) ← getStaffMembers limit offset search;
     respond 200 (Page items total))
    (on_failure "Failed to fetch staff").

(** POST /api/staff *)
Definition post_staff (req : Request) : M Response :=
  try_catch
    (validatedData ← parse insertStaffSchema (body req);
     staffMember ← createStaffMember validatedData;
     createAuditLog "staff" (row_id staffMember) "create" req None (Some staffMember);;
     respond 201 (Entity (Some staffMember)))
    (on_error "Failed to create staff member").

(** PUT /api/staff/:id *)
Definition put_staff (req : Request) : M Response :=
  try_catch
    (oldStaff ← getStaffMember (params_id req);
     match oldStaff with
     | None => respond 404 (Message "Staff member not found")
     | Some oldStaff =>
         validatedData ← parse (partial insertStaffSchema) (body req);
         updatedStaff ← updateStaffMember (params_id req) validatedData;
         createAuditLog "staff" (params_id req) "update" req (Some oldStaff) updatedStaff;;
         respond 200 (Entity updatedStaff)
     end)
    (on_error "Failed to update staff member").

(** DELETE /api/staff/:id *)
Definition delete_staff (req : Request) : M Response :=
  try_catch
    (staffMember ← getStaffMember (params_id req);
     match staffMember with
     | None => respond 404 (Message "Staff member not found")
     | Some staffMember =>
         deleteStaffMember (params_id req);;
         createAuditLog "staff" (params_id req) "delete" req (Some staffMember) None;;
         respond 204 Empty
     end)
    (on_failure "Failed to delete staff member").

(** *** Documents *)

(** GET /api/documents *)
Definition get_documents (req : Request) : M Response :=
  try_catch
    (let limit := or_default (parseInt (query req !! "limit")) 20 in
     let offset := or_default (parseInt (query req !! "offset")) 0 in
     let search := query req !! "search" in
     '(items, total) ← getDocuments limit offset search;
     respond 200 (Page items total))
    (on_failure "Failed to fetch documents").

(** POST /api/documents *)
Definition post_documents (req : Request) : M Response :=
  try_catch
    (uploadedBy ← user_sub req;
     validatedData ← parse insertDocumentSchema
                       (<["uploadedBy" := VStr uploadedBy]> (body req));
     document ← createDocument validatedData;
     createAuditLog "document" (row_id document) "create" req None (Some document);;
     respond 201 (Entity (Some document)))
    (on_error "Failed to create document").

(** *** Workflows *)

(** GET /api/workflows *)
Definition get_workflows (req : Request) : M Response :=
  try_catch
    (let limit := or_default (parseInt (query req !! "limit")) 20 in
     let offset := or_default (parseInt (query req !! "offset")) 0 in
     let status := query req !! "status" in
     '(items, total) ← getWorkflows limit offset status;
     respond 200 (Page items total))
    (on_failure "Failed to fetch workflows").

(** POST /api/workflows *)
Definition post_workflows (req : Request) : M Response :=
  try_catch
    (requestedBy ← user_sub req;
     validatedData ← parse insertWorkflowSchema
                       (<["requestedBy" := VStr requestedBy]> (body req));
     workflow ← createWorkflow validatedData;
     createAuditLog "workflow" (row_id workflow) "create" req None (Some workflow);;
     respond 201 (Entity (Some workflow)))
    (on_error "Failed to create workflow").

(** PUT /api/workflows/:id *)
Definition put_workflow (req : Request) : M Response :=
  try_catch
    (oldWorkflow ← getWorkflow (params_id req);
     match oldWorkflow with
     | None => respond 404 (Message "Workflow not found")
     | Some oldWorkflow =>
         validatedData ← parse (partial insertWorkflowSchema) (body req);
         updatedWorkflow ← updateWorkflow (params_id req) validatedData;
         createAuditLog "workflow" (params_id req) "update" req
           (Some oldWorkflow) updatedWorkflow;;
         respond 200 (Entity updatedWorkflow)
     end)
    (on_error "Failed to update workflow").

(** *** Audit logs and work orders *)

(** GET /api/audit-logs *)
Definition get_audit_logs (req : Request) : M Response :=
  try_catch
    (let limit := or_default (parseInt (query req !! "limit")) 50 in
     let offset := or_default (parseInt (query req !! "offset")) 0 in
     '(logs, total) ← getAuditLogs limit offset;
     respond 200 (LogsPage logs total))
    (on_failure "Failed to fetch audit logs").

(** GET /api/work-orders *)
Definition get_work_orders (req : Request) : M Response :=
  try_catch
    (let limit := or_default (parseInt (query req !! "limit")) 20 in
     let offset := or_default (parseInt (query req !! "offset")) 0 in
     '(items, total) ← getWorkOrders limit offset;
     respond 200 (Page items total))
    (on_failure "Failed to fetch work orders").

(** POST /api/work-orders *)
Definition post_work_orders (req : Request) : M Response :=
  try_catch
    (createdBy ← user_sub req;
     validatedData ← parse insertWorkOrderSchema
                       (<["createdBy" := VStr createdBy]> (body req));
     workOrder ← createWorkOrder validatedData;
     createAuditLog "work_order" (row_id workOrder) "create" req None (Some workOrder);;
     respond 201 (Entity (Some workOrder)))
    (on_error "Failed to create work order").

End Routes.

(** ** The mutating endpoints *)

Inductive Mutation :=
| PostAssets | PutAsset | DeleteAsset
| PostStaff | PutStaff | DeleteStaff
| PostDocuments
| PostWorkflows | PutWorkflow
| PostWorkOrders.

Inductive Kind := Create | Update | Delete.

Definition kind (m : Mutation) : Kind :=
  match m with
  | PostAssets | PostStaff | PostDocuments | PostWorkflows | PostWorkOrders => Create
  | PutAsset | PutStaff | PutWorkflow => Update
  | DeleteAsset | DeleteStaff => Delete
  end.

Definition kind_action (k : Kind) : string :=
  match k with Create => "create" | Update => "update" | Delete => "delete" end.

(** 201 Created, 200 OK, 204 No Content *)
Definition kind_success (k : Kind) : Z :=
  match k with Create => 201 | Update => 200 | Delete => 204 end.

Definition table_of (m : Mutation) : Table :=
  match m with
  | PostAssets | PutAsset | DeleteAsset => assets
  | PostStaff | PutStaff | DeleteStaff => staff
  | PostDocuments => documents
  | PostWorkflows | PutWorkflow => workflows
  | PostWorkOrders => workOrders
  end.

Definition entity_of (m : Mutation) : string :=
  match table_of m with
  | assets => "asset"
  | staff => "staff"
  | documents => "document"
  | workflows => "workflow"
  | workOrders => "work_order"
  end.

Definition failure_of (m : Mutation) : string :=
  match m with
  | PostAssets => "Failed to create asset"
  | PutAsset => "Failed to update asset"
  | DeleteAsset => "Failed to delete asset"
  | PostStaff => "Failed to create staff member"
  | PutStaff => "Failed to update staff member"
  | DeleteStaff => "Failed to delete staff member"
  | PostDocuments => "Failed to create document"
  | PostWorkflows => "Failed to create workflow"
  | PutWorkflow => "Failed to update workflow"
  | PostWorkOrders => "Failed to create work order"
  end.

Definition not_found_of (m : Mutation) : string :=
  match table_of m with
  | assets => "Asset not found"
  | staff => "Staff member not found"
  | workflows => "Workflow not found"
  | _ => ""
  end.

Definition route `{Platform} (m : Mutation) : Request -> M Response :=
  match m with
  | PostAssets => post_assets
  | PutAsset => put_asset
  | DeleteAsset => delete_asset
  | PostStaff => post_staff
  | PutStaff => put_staff
  | DeleteStaff => delete_staff
  | PostDocuments => post_documents
  | PostWorkflows => post_workflows
  | PutWorkflow => put_workflow
  | PostWorkOrders => post_work_orders
  end.

(** The store with its audit table out of reach. *)
Definition refuse_audit (w : World) : World :=
  {| rows := rows w; seqs := seqs w; uuid_next := uuid_next w;
     auditLogs := auditLogs w; audit_serial := audit_serial w; clock := clock w;
     fault := fun c => match c with InsertAudit _ => true | _ => fault w c end;
     trace := trace w |}.


(** * The vocabulary of the properties *)

(** ** The three shapes of a mutating route

    The create routes, the update routes and the delete routes are written
    out one by one in [routes.ts]; each is an instance of one of three
    shapes, which is how they are reasoned about. *)

Section Shapes.
Context `{Platform}.

Definition schema_of (m : Mutation) : Schema :=
  match table_of m with
  | assets => insertAssetSchema
  | staff => insertStaffSchema
  | documents => insertDocumentSchema
  | workflows => insertWorkflowSchema
  | workOrders => insertWorkOrderSchema
  end.

(** The property of the body that a create route fills from the session. *)
Definition owner_of (m : Mutation) : option string :=
  match m with
  | PostAssets | PostWorkOrders => Some "createdBy"
  | PostDocuments => Some "uploadedBy"
  | PostWorkflows => Some "requestedBy"
  | _ => None
  end.

Definition create_input (owner : option string) (req : Request) : M Obj :=
  match owner with
  | Some property => userId ← user_sub req; mret (<[property := VStr userId]> (body req))
  | None => mret (body req)
  end.

Definition create_route (t : Table) (schema : Schema) (entity failure : string)
    (owner : option string) (req : Request) : M Response :=
  try_catch
    (input ← create_input owner req;
     validatedData ← parse schema input;
     row ← db_insert t validatedData;
     createAuditLog entity (row_id row) "create" req None (Some row);;
     respond 201 (Entity (Some row)))
    (on_error failure).

Definition update_route (t : Table) (schema : Schema) (entity missing failure : string)
    (req : Request) : M Response :=
  try_catch
    (old ← db_select_by_id t (params_id req);
     match old with
     | None => respond 404 (Message missing)
     | Some old =>
         validatedData ← parse (partial schema) (body req);
         updated ← (set ← touch validatedData; db_update t (params_id req) set);
         createAuditLog entity (params_id req) "update" req (Some old) updated;;
         respond 200 (Entity updated)
     end)
    (on_error failure).

Definition delete_route (t : Table) (entity missing failure : string)
    (req : Request) : M Response :=
  try_catch
    (old ← db_select_by_id t (params_id req);
     match old with
     | None => respond 404 (Message missing)
     | Some old =>
         db_delete t (params_id req);;
         createAuditLog entity (params_id req) "delete" req (Some old) None;;
         respond 204 Empty
     end)
    (on_failure failure).

Definition shape (m : Mutation) : Request -> M Response :=
  match kind m with
  | Create => create_route (table_of m) (schema_of m) (entity_of m) (failure_of m) (owner_of m)
  | Update => update_route (table_of m) (schema_of m) (entity_of m) (not_found_of m) (failure_of m)
  | Delete => delete_route (table_of m) (entity_of m) (not_found_of m) (failure_of m)
  end.

(** The two location routes differ in the table, the column, the messages
    and the ownership test. *)
Definition location_route (t : Table) (column entity missing refusal failure : string)
    (forbidden : Row -> string -> bool) (req : Request) : M Response :=
  try_catch
    ('(longitude, latitude) ← parse_location (body req);
     existing ← db_select_by_id t (params_id req);
     match existing with
     | None => respond 404 (Message missing)
     | Some existing =>
         userId ← user_sub req;
         if forbidden existing userId then respond 403 (Message refusal)
         else
           updated ← update_location t column (params_id req) longitude latitude;
           createAuditLog entity (params_id req) "location_update" req
             (Some (snapshot column existing))
             (Some {[ column := VLngLat longitude latitude ]});;
           respond 200 (Entity updated)
     end)
    (on_error failure).

End Shapes.

(** ** Outcomes *)

(** The table holds a row under this id. *)
Definition stored (w : World) (t : Table) (id : string) : bool :=
  match rows w t !! id with Some _ => true | None => false end.

(** The answer of a catch block. *)
Definition failed (failure : string) : Response :=
  {| status := 500; payload := Message failure |}.

(** The input a create route validates; none when it needs the session and
    there is none. *)
Definition input_of (owner : option string) (req : Request) : option Obj :=
  match owner, user req with
  | Some property, Some u => Some (<[property := VStr (sub (claims u))]> (body req))
  | Some _, None => None
  | None, _ => Some (body req)
  end.

(** The audit step that ends a mutating route, once the entity is written. *)
Definition audit_step (req : Request) (e : string -> AuditEntry) (ok : Response)
    (failure : string) (w : World) : Result Response * World :=
  match actor req with
  | None => (Ok ok, w)
  | Some uid =>
      if fault w (InsertAudit (e uid))
      then (Ok (failed failure), draw_serial (log_call (InsertAudit (e uid)) w))
      else (Ok ok, append_audit (e uid) (log_call (InsertAudit (e uid)) w))
  end.

(** What evaluating the defaults of a new row leaves alone. *)
Definition same_data (w w' : World) : Prop :=
  rows w' = rows w /\ auditLogs w' = auditLogs w /\ audit_serial w' = audit_serial w
  /\ clock w' = clock w /\ fault w' = fault w /\ trace w' = trace w.

(** The response of a run, if the handler came to one. *)
Definition response_of (out : Result Response * World) : option Response :=
  match out.1 with Ok r => Some r | Throw _ => None end.

(** ** Audit *)

(** The audit table after a call that mutated entity [id]: one more record
    when the request carries an actor, none otherwise. *)
Definition audited (m : Mutation) (req : Request) (id : string) (w w' : World) : Prop :=
  match actor req with
  | Some uid =>
      exists entry,
        auditLogs w' = (auditLogs w ++
          [{| log_id := audit_serial w; log_entry := entry; log_timestamp := clock w |}])%list
        /\ entityType entry = entity_of m
        /\ entityId entry = id
        /\ action entry = kind_action (kind m)
        /\ userId entry = uid
        /\ (kind m = Create -> oldValues entry = None)
        /\ (kind m = Delete -> newValues entry = None)
  | None => auditLogs w' = auditLogs w
  end.

(** The mutation itself, on entity [id] of the route's table. *)
Definition mutated (m : Mutation) (req : Request) (r : Response) (id : string)
    (w w' : World) : Prop :=
  let t := table_of m in
  match kind m with
  | Create =>
      exists row, payload r = Entity (Some row) /\ row_id row = id
                  /\ rows w t !! id = None /\ rows w' t !! id = Some row
  | Update =>
      id = params_id req
      /\ exists old new, rows w t !! id = Some old /\ rows w' t !! id = Some new
                         /\ payload r = Entity (Some new)
  | Delete =>
      id = params_id req /\ is_Some (rows w t !! id) /\ rows w' t !! id = None
  end.

(** What a successful location update leaves behind: the row holds the new
    point, and the audit table has one more record, of action
    [location_update], with the previous content of the column as old value
    and the new coordinates as new value. *)
Definition location_audited (t : Table) (column entity : string) (req : Request)
    (w w' : World) (r : Response) : Prop :=
  exists old lng lat new entry,
    rows w t !! params_id req = Some old
    /\ body req !! "longitude" = Some (VNum (Fin lng))
    /\ body req !! "latitude" = Some (VNum (Fin lat))
    /\ payload r = Entity (Some new)
    /\ rows w' t !! params_id req = Some new
    /\ new !! column = Some (VGeom lng lat)
    /\ auditLogs w' = (auditLogs w ++
         [{| log_id := audit_serial w; log_entry := entry; log_timestamp := clock w |}])%list
    /\ action entry = "location_update"
    /\ entityType entry = entity
    /\ entityId entry = params_id req
    /\ Some (userId entry) = actor req
    /\ (exists ov, oldValues entry = Some ov /\ ov !! column = old !! column)
    /\ (exists nv, newValues entry = Some nv
                   /\ nv !! column = Some (VLngLat (Fin lng) (Fin lat))).

(** ** Workflows *)

Definition completed_set (r : Row) : bool :=
  match r !! "completedDate" with Some (VDate _) => true | _ => false end.

Definition is_final (r : Row) : bool :=
  match r !! "status" with
  | Some (VStr s) => bool_decide (s ∈ ["approved"; "rejected"; "completed"])
  | _ => false
  end.

(** completedDate is set if and only if the status is final. *)
Definition completion_invariant (r : Row) : Prop := completed_set r = is_final r.

(** What a column holds after an update: the body's value when the body
    carries the property, the stored value otherwise. *)
Definition merged (column : string) (input old : Row) : option Val :=
  match input !! column with
  | Some v => Some v
  | None => old !! column
  end.

Fixpoint find_column (k : string) (cs : list Column) : option Column :=
  match cs with
  | [] => None
  | c :: cs' => if bool_decide (col_name c = k) then Some c else find_column k cs'
  end.


(** ** Proximity queries *)

Inductive Spatial := SpatialAssets | SpatialStaff.

Definition spatial_table (e : Spatial) : Table :=
  match e with SpatialAssets => assets | SpatialStaff => staff end.

Definition spatial_column (e : Spatial) : string :=
  match e with SpatialAssets => "location" | SpatialStaff => "officeLocation" end.

Definition spatial `{Platform} (e : Spatial) : Request -> M Response :=
  match e with
  | SpatialAssets => get_spatial_assets
  | SpatialStaff => get_spatial_staff
  end.

(** [lo <= n <= hi], for a number that is one. *)
Definition within (lo hi : Z) (n : number) : Prop :=
  match n with
  | Fin q => (inject_Z lo <= q /\ q <= inject_Z hi)%Q
  | _ => False
  end.

(** [0 < n <= 100000] *)
Definition radius_allowed (n : number) : Prop :=
  match n with
  | Fin q => (0 < q /\ q <= inject_Z 100000)%Q
  | _ => False
  end.

(** The three parameters are present and lie in their ranges. *)
Definition valid_query `{Platform} (req : Request)
    (longitude latitude radiusMeters : number) : Prop :=
  exists lng lat radius,
    truthy_string (query req !! "lng") = Some lng
    /\ truthy_string (query req !! "lat") = Some lat
    /\ truthy_string (query req !! "radius") = Some radius
    /\ longitude = parseFloat lng /\ latitude = parseFloat lat
    /\ radiusMeters = parseFloat radius
    /\ within (-180) 180 longitude /\ within (-90) 90 latitude
    /\ radius_allowed radiusMeters.

(** Answered 400 with this message, the store left alone. *)
Definition rejected (out : Result Response * World) (w : World) (message : string) : Prop :=
  out = (Ok {| status := 400; payload := Message message |}, w).



(** ** Listings *)

Inductive Listing :=
| ListAssets | ListStaff | ListDocuments | ListWorkflows | ListAuditLogs | ListWorkOrders.

Definition listing `{Platform} (l : Listing) : Request -> M Response :=
  match l with
  | ListAssets => get_assets
  | ListStaff => get_staff
  | ListDocuments => get_documents
  | ListWorkflows => get_workflows
  | ListAuditLogs => get_audit_logs
  | ListWorkOrders => get_work_orders
  end.

(** The default page size: 20 for the entity lists, 50 for the audit log. *)
Definition page_size (l : Listing) : Z :=
  match l with ListAuditLogs => 50 | _ => 20 end.

(** The storage call of a listing, for a given limit and offset. *)
Definition listing_call (l : Listing) (req : Request) (limit offset : number) : StoreCall :=
  match l with
  | ListAssets => SelectPage assets limit offset (query req !! "search")
  | ListStaff => SelectPage staff limit offset (query req !! "search")
  | ListDocuments => SelectPage documents limit offset (query req !! "search")
  | ListWorkflows => SelectPage workflows limit offset (query req !! "status")
  | ListAuditLogs => SelectAuditPage limit offset
  | ListWorkOrders => SelectPage workOrders limit offset None
  end.


(** * A platform and requests to run the model on *)

(** The digits at the head of a string: their value, their number, and
    what follows them. *)
Fixpoint leading_digits (s : string) (acc : Z) (n : nat) : Z * nat * string :=
  match s with
  | String c s' =>
      match digit_value 10 c with
      | Some d => leading_digits s' (acc * 10 + d) (S n)
      | None => (acc, n, s)
      end
  | "" => (acc, n, "")
  end.

(** A sign, digits and a fraction: the sign, the number as [num / 10^m],
    and what follows; nothing when there is no digit. *)
Definition decimal_literal (s : string) : option (bool * Z * nat * string) :=
  let '(negative, s1) := match s with
                         | String "-"%char s' => (true, s')
                         | _ => (false, s)
                         end in
  let '(i, n, s2) := leading_digits s1 0 0 in
  let '(f, m, s3) := match s2 with
                     | String "."%char s' => leading_digits s' 0 0
                     | _ => (0, 0%nat, s2)
                     end in
  if (n + m =? 0)%nat then None
  else Some (negative, i * 10 ^ Z.of_nat m + f, m, s3).

(** [parseFloat] of a decimal literal: the number it writes (the engine
    gives the nearest double). *)
Definition sample_parseFloat (s : string) : number :=
  match decimal_literal s with
  | Some (negative, num, m, _) =>
      let q := Qmake num (Z.to_pos (10 ^ Z.of_nat m)) in
      Fin (if negative then - q else q)
  | None => NaN
  end.

Fixpoint decimal_digits (fuel : nat) (n : Z) (acc : string) : string :=
  match fuel with
  | O => acc
  | S fuel' =>
      let acc' := String (digit (n mod 10)) acc in
      if n <? 10 then acc' else decimal_digits fuel' (n / 10) acc'
  end.

(** numeric(12,2) of a decimal literal: the number rounded to two decimal
    places, half away from zero, written with both of them. *)
Definition sample_numeric (s : string) : string :=
  match decimal_literal s with
  | Some (negative, num, m, "") =>
      let hundredths := (2 * num * 100 + 10 ^ Z.of_nat m) / (2 * 10 ^ Z.of_nat m) in
      (if negative && (0 <? hundredths) then "-" else "")
      +:+ decimal_digits 12 (hundredths / 100) ""
      +:+ "." +:+ String (digit (hundredths / 10 mod 10))
                    (String (digit (hundredths mod 10)) "")
  | _ => s
  end.

Definition same_point (p q : Point) : bool := Qeq_bool p.1 q.1 && Qeq_bool p.2 q.2.

(** Two points of the equator half a degree of longitude apart. *)
Definition half_a_degree_apart (p q : Point) : bool :=
  Qeq_bool p.2 0 && Qeq_bool q.2 0 && Qeq_bool (Qabs (p.1 - q.1)) (1 # 2).

(** Half a degree of the equator of the WGS 84 spheroid, the semi-major
    axis times the angle: 6378137 * pi / 360 = 55659.7453966367... metres.
    ST_DWithin compares this distance with the radius; ST_Distance reports
    it rounded to 1e-8 m, which is 55659.74539664. *)
Definition half_a_degree : Q := 556597453966368 # 10000000000.
Definition half_a_degree_reported : Q := 5565974539664 # 100000000.

(** A stand-in for the platform, which answers as the platform does on
    what the examples hand it: [parseFloat] and [numeric] read decimal
    literals; the PostGIS functions know the distance between a point and
    itself and between two points of the equator half a degree apart, and
    take any other two points for far apart; [LIKE] matches nothing, and
    the n-th uuid is uuid-n. *)
Definition sample_platform : Platform :=
  {| parseFloat := sample_parseFloat;
     ST_DWithin := fun p q radius =>
       if same_point p q then Qle_bool 0 radius
       else if half_a_degree_apart p q then Qle_bool half_a_degree radius
       else false;
     ST_Distance := fun p q =>
       if same_point p q then 0%Q
       else if half_a_degree_apart p q then half_a_degree_reported
       else inject_Z 20000000;
     numeric := sample_numeric;
     like := fun _ _ => false;
     gen_random_uuid := fun n => "uuid-" +:+ to_char_FM0000 (Z.of_nat n) |}.

Definition alice : AuthUser :=
  {| claims := {| sub := "alice"; email := None; first_name := None; last_name := None |} |}.

Definition request (u : option AuthUser) (id : string) (q : gmap string string) (b : Obj)
    : Request :=
  {| user := u; params_id := id; query := q; body := b; ip := None; user_agent := None |}.

(** The response a run ends with. *)
Definition answer (out : Result Response * World) : Response :=
  match out.1 with Ok r => r | Throw _ => failed "" end.

(** The row a run answers with. *)
Definition answer_row (out : Result Response * World) : Row :=
  match payload (answer out) with Entity (Some r) => r | _ => ∅ end.

(** Alice creates an asset, then sets its location to the point (1, 0). *)
Definition generator_request : Request :=
  request (Some alice) "" ∅ {[ "name" := VStr "Generator"; "category" := VStr "equipment" ]}.

Definition created : Result Response * World :=
  @post_assets sample_platform generator_request (empty_world 0).

Definition move_request : Request :=
  request (Some alice) "AST-1000" ∅
          {[ "longitude" := VNum (lit 1); "latitude" := VNum (lit 0) ]}.

Definition moved : Result Response * World :=
  @put_asset_location sample_platform move_request created.2.

(** Proximity queries around the point (1, 0), where the asset is. *)
Definition near_request (radius : string) : Request :=
  request (Some alice) "" {[ "lng" := "1"; "lat" := "0"; "radius" := radius ]} ∅.

Definition found (radius : string) : Result Response * World :=
  @get_spatial_assets sample_platform (near_request radius) moved.2.



Definition far_longitude_request : Request :=
  request (Some alice) "" {[ "lng" := "200"; "lat" := "0"; "radius" := "100" ]} ∅.

(** Updates of the asset: of an id that does not exist, and without a
    session. *)
Definition unknown_update_request : Request :=
  request (Some alice) "AST-4040" ∅ {[ "name" := VStr "Pump" ]}.

Definition anonymous_update_request : Request :=
  request None "AST-1000" ∅ {[ "name" := VStr "Pump" ]}.

(** Alice files a workflow, approves it without a completion date, then
    rejects it. *)
Definition workflow_request : Request :=
  request (Some alice) "" ∅ {[ "type" := VStr "purchase"; "title" := VStr "Buy a pump" ]}.

Definition filed : Result Response * World :=
  @post_workflows sample_platform workflow_request (empty_world 0).

Definition approve_request : Request :=
  request (Some alice) "WFL-1000" ∅ {[ "status" := VStr "approved" ]}.

Definition approved : Result Response * World :=
  @put_workflow sample_platform approve_request filed.2.



(** The store when 9000 assets have been created: the sequence, started at
    1000, stands at 10000. *)
Definition world_at_10000 : World :=
  {| rows := fun _ => ∅;
     seqs := fun t => match t with assets => 10000 | _ => sequence_start end;
     uuid_next := 0%nat; auditLogs := []; audit_serial := 1; clock := 0;
     fault := fun _ => false; trace := [] |}.

Definition created_at_10000 : Result Response * World :=
  @post_assets sample_platform generator_request world_at_10000.

(** A listing asked for with limit=0. *)
Definition zero_limit_request : Request :=
  request (Some alice) "" {[ "limit" := "0" ]} ∅.

(** * The rest of the server

    What no mutating route needs: the storage methods for documents,
    workflows and work orders that have no route yet, reading one entity,
    the dashboard counters and the global search; then the actions of the
    workflows page, which call the update route. *)

(** The count and search queries read the store and leave no other mark;
    the store may refuse them like any other call. *)
Inductive ReadCall :=
| CountRows (t : Table) (status : option string)
| SearchRows (t : Table) (searchTerm : string).

(** The body of a response that is a message or a value. *)
Record Reply (A : Type) := {
  reply_status : Z;
  reply_json : string + A
}.
Arguments reply_status {A} r.
Arguments reply_json {A} r.

(** { totalAssets, activeStaff, totalDocuments, pendingApprovals } *)
Record DashboardStats := {
  totalAssets : Z;
  activeStaff : Z;
  totalDocuments : Z;
  pendingApprovals : Z
}.

(** { assets, staff, documents } *)
Record SearchResults := {
  result_assets : list Row;
  result_staff : list Row;
  result_documents : list Row
}.

(** eq(table.status, label) *)
Definition status_is (label : string) (r : Row) : bool :=
  match r !! "status" with
  | Some (VStr s) => bool_decide (s = label)
  | _ => false
  end.

Section MoreStorage.
Context `{Platform}.
Variable refused : ReadCall -> bool.

Definition read (c : ReadCall) : M unit := fun w =>
  if refused c then (Throw StoreError, w) else (Ok (), w).

Definition getDocument (id : string) := db_select_by_id documents id.
Definition updateDocument (id : string) (document : Obj) :=
  set ← touch document; db_update documents id set.
Definition deleteDocument (id : string) := db_delete documents id.

Definition deleteWorkflow (id : string) := db_delete workflows id.

Definition updateWorkOrder (id : string) (workOrder : Obj) :=
  set ← touch workOrder; db_update workOrders id set.

(** db.select({ count: count() }).from(t).where(eq(t.status, label))
      .then(result => result[0].count); without a label, every row counts. *)
Definition count_rows (t : Table) (status : option string) : M Z :=
  read (CountRows t status);;
  w ← get_world;
  mret (Z.of_nat (length (List.filter (match status with
                                       | Some label => status_is label
                                       | None => fun _ => true
                                       end) (table_rows w t)))).

Definition getDashboardStats : M DashboardStats :=
  assetCount ← count_rows assets None;
  staffCount ← count_rows staff (Some "active");
  documentCount ← count_rows documents None;
  workflowCount ← count_rows workflows (Some "pending");
  mret {| totalAssets := assetCount;
          activeStaff := staffCount;
          totalDocuments := documentCount;
          pendingApprovals := workflowCount |}.

(** or(like(c1, searchTerm), like(c2, searchTerm), ...) *)
Definition like_any (cols : list string) (searchTerm : string) (r : Row) : bool :=
  existsb (fun c => match r !! c with
                    | Some v => like v searchTerm
                    | None => false
                    end) cols.

(** db.select().from(t).where(or(...)).limit(10) *)
Definition search_rows (t : Table) (cols : list string) (searchTerm : string)
    : M (list Row) :=
  read (SearchRows t searchTerm);;
  w ← get_world;
  mret (take 10 (List.filter (like_any cols searchTerm) (table_rows w t))).

Definition searchGlobal (q : string) : M SearchResults :=
  let searchTerm := "%" +:+ q +:+ "%" in
  assetResults ← search_rows assets ["name"; "description"; "serialNumber"] searchTerm;
  staffResults ← search_rows staff ["firstName"; "lastName"; "email"; "role"] searchTerm;
  documentResults ← search_rows documents ["title"; "description"; "filename"] searchTerm;
  mret {| result_assets := assetResults;
          result_staff := staffResults;
          result_documents := documentResults |}.

(** ** More of the routes *)

Definition reply {A} (code : Z) (json : string + A) : M (Reply A) :=
  mret {| reply_status := code; reply_json := json |}.

(** GET /api/dashboard/stats *)
Definition get_dashboard_stats (req : Request) : M (Reply DashboardStats) :=
  try_catch
    (stats ← getDashboardStats;
     reply 200 (inr stats))
    (fun error => reply 500 (inl "Failed to fetch dashboard stats")).

(** GET /api/search *)
Definition get_search (req : Request) : M (Reply SearchResults) :=
  try_catch
    (match truthy_string (query req !! "q") with
     | None => reply 400 (inl "Search query is required")
     | Some q =>
         results ← searchGlobal q;
         reply 200 (inr results)
     end)
    (fun error => reply 500 (inl "Search failed")).

(** GET /api/assets/:id *)
Definition get_asset (req : Request) : M Response :=
  try_catch
    (asset ← getAsset (params_id req);
     match asset with
     | None => respond 404 (Message "Asset not found")
     | Some asset => respond 200 (Entity (Some asset))
     end)
    (on_failure "Failed to fetch asset").

(** GET /api/staff/:id *)
Definition get_staff_member (req : Request) : M Response :=
  try_catch
    (staffMember ← getStaffMember (params_id req);
     match staffMember with
     | None => respond 404 (Message "Staff member not found")
     | Some staffMember => respond 200 (Entity (Some staffMember))
     end)
    (on_failure "Failed to fetch staff member").

End MoreStorage.

(** ** The workflows page (client/src/pages/workflows.tsx) *)

(** A request of the page: the session, address and agent are those of the
    browser. *)
Definition apiRequest (browser : Request) (id : string) (data : Obj) : Request :=
  {| user := user browser; params_id := id; query := ∅; body := data;
     ip := ip browser; user_agent := user_agent browser |}.

Section WorkflowsPageActions.
Context `{Platform}.

(** updateWorkflowMutation.mutate({ id, data }):
    apiRequest("PUT", `/api/workflows/${id}`, data) *)
Definition updateWorkflowMutation (browser : Request) (id : string) (data : Obj)
    : M Response :=
  put_workflow (apiRequest browser id data).

(** handleApprove; [today] is new Date().toISOString(), a string. *)
Definition handleApprove (browser : Request) (today : string) (workflow : Row)
    : M Response :=
  updateWorkflowMutation browser (row_id workflow)
    {[ "status" := VStr "approved"; "completedDate" := VStr today ]}.

(** handleReject; [reason] is what the prompt returned.  Nothing is sent
    when the prompt was dismissed or left empty. *)
Definition handleReject (browser : Request) (today : string) (reason : option string)
    (workflow : Row) : option (M Response) :=
  match truthy_string reason with
  | Some reason =>
      Some (updateWorkflowMutation browser (row_id workflow)
              {[ "status" := VStr "rejected"; "comments" := VStr reason;
                 "completedDate" := VStr today ]})
  | None => None
  end.

End WorkflowsPageActions.

(** filteredWorkflows.filter(w => w.status === 'pending') *)
Definition pendingWorkflows (filteredWorkflows : list Row) : list Row :=
  List.filter (status_is "pending") filteredWorkflows.

(** filteredWorkflows.filter(w =>
      ['approved', 'rejected', 'completed'].includes(w.status)) *)
Definition completedWorkflows (filteredWorkflows : list Row) : list Row :=
  List.filter (fun w => match w !! "status" with
                        | Some (VStr s) =>
                            bool_decide (s ∈ ["approved"; "rejected"; "completed"])
                        | _ => false
                        end) filteredWorkflows.

(** * The vocabulary of the further properties *)

(** ** The storage methods of a table

    Work orders can be created and updated; the store has no method that
    reads or deletes one. *)

(** The insert schema of a table; the type of the argument of its create
    method, and, made partial, of its update method. *)
Definition insert_schema (t : Table) : Schema :=
  match t with
  | assets => insertAssetSchema
  | staff => insertStaffSchema
  | documents => insertDocumentSchema
  | workflows => insertWorkflowSchema
  | workOrders => insertWorkOrderSchema
  end.

Definition create_in `{Platform} (t : Table) : Obj -> M Row :=
  match t with
  | assets => createAsset
  | staff => createStaffMember
  | documents => createDocument
  | workflows => createWorkflow
  | workOrders => createWorkOrder
  end.

Definition update_in `{Platform} (t : Table) : string -> Obj -> M (option Row) :=
  match t with
  | assets => updateAsset
  | staff => updateStaffMember
  | documents => updateDocument
  | workflows => updateWorkflow
  | workOrders => updateWorkOrder
  end.

Definition get_in (t : Table) : option (string -> M (option Row)) :=
  match t with
  | assets => Some getAsset
  | staff => Some getStaffMember
  | documents => Some getDocument
  | workflows => Some getWorkflow
  | workOrders => None
  end.

Definition delete_in (t : Table) : option (string -> M unit) :=
  match t with
  | assets => Some deleteAsset
  | staff => Some deleteStaffMember
  | documents => Some deleteDocument
  | workflows => Some deleteWorkflow
  | workOrders => None
  end.

(** The call returned, it did not throw. *)
Definition succeeded {A} (out : Result A * World) : bool :=
  match out.1 with Ok _ => true | Throw _ => false end.

(** ** Every endpoint *)

Inductive Endpoint :=
| Mutating (m : Mutation)        (* POST, PUT and DELETE of an entity *)
| Locating (e : Spatial)         (* PUT .../:id/location *)
| Listed (l : Listing)           (* GET of a page *)
| Nearby (e : Spatial)           (* GET /api/spatial/... *)
| Single (e : Spatial)           (* GET .../:id *)
| Dashboard                      (* GET /api/dashboard/stats *)
| GlobalSearch.                  (* GET /api/search *)

Definition locate `{Platform} (e : Spatial) : Request -> M Response :=
  match e with
  | SpatialAssets => put_asset_location
  | SpatialStaff => put_staff_location
  end.

Definition single (e : Spatial) : Request -> M Response :=
  match e with
  | SpatialAssets => get_asset
  | SpatialStaff => get_staff_member
  end.

(** The status code a run answers with, if it answers, and the store it
    leaves. *)
Definition outcome {A} (code : A -> Z) (out : Result A * World) : option Z * World :=
  (match out.1 with Ok r => Some (code r) | Throw _ => None end, out.2).

Definition serve `{Platform} (refused : ReadCall -> bool) (e : Endpoint) (req : Request)
    (w : World) : option Z * World :=
  match e with
  | Mutating m => outcome status (route m req w)
  | Locating e => outcome status (locate e req w)
  | Listed l => outcome status (listing l req w)
  | Nearby e => outcome status (spatial e req w)
  | Single e => outcome status (single e req w)
  | Dashboard => outcome reply_status (get_dashboard_stats refused req w)
  | GlobalSearch => outcome reply_status (get_search refused req w)
  end.

(** The endpoints that only read. *)
Definition read_only (e : Endpoint) : bool :=
  match e with
  | Mutating _ | Locating _ => false
  | _ => true
  end.

(** The status codes an endpoint can answer with. *)
Definition answers (e : Endpoint) : list Z :=
  match e with
  | Mutating m =>
      match kind m with
      | Create => [201; 400; 500]
      | Update => [200; 400; 404; 500]
      | Delete => [204; 404; 500]
      end
  | Locating _ => [200; 400; 403; 404; 500]
  | Listed _ => [200; 500]
  | Nearby _ => [200; 400; 500]
  | Single _ => [200; 404; 500]
  | Dashboard => [200; 500]
  | GlobalSearch => [200; 400; 500]
  end.

(** ** Invariants of the store *)

(** Every row is stored under its own identifier. *)
Definition keyed (w : World) : Prop :=
  forall t k r, rows w t !! k = Some r -> r !! "id" = Some (VStr k).

(** The audit records carry increasing serial numbers, all below the next
    one to be given out. *)
Definition audit_ordered (w : World) : Prop :=
  StronglySorted Z.lt (log_id <$> auditLogs w)
  /\ Forall (fun l => log_id l < audit_serial w) (auditLogs w).

(** The store answers every call. *)
Definition healthy (w : World) : Prop := forall c, fault w c = false.

(** ** Listings *)

(** ORDER BY column DESC *)
Definition newest_first (column : string) (a b : Row) : bool :=
  desc (timestamp_of column a) (timestamp_of column b).

(** The table, the WHERE clause and the ORDER BY column of an entity
    listing. *)
Definition listed_table (l : Listing) : option Table :=
  match l with
  | ListAssets => Some assets
  | ListStaff => Some staff
  | ListDocuments => Some documents
  | ListWorkflows => Some workflows
  | ListWorkOrders => Some workOrders
  | ListAuditLogs => None
  end.

Definition listed_order (l : Listing) : string :=
  match l with ListDocuments => "uploadedAt" | _ => "createdAt" end.

Definition listed_where `{Platform} (l : Listing) (req : Request) (r : Row) : bool :=
  match l with
  | ListAssets =>
      search_conditions ["name"; "description"; "serialNumber"] (query req !! "search") r
  | ListStaff =>
      search_conditions ["firstName"; "lastName"; "email"; "role"] (query req !! "search") r
  | ListDocuments =>
      search_conditions ["title"; "description"; "filename"] (query req !! "search") r
  | ListWorkflows =>
      match truthy_string (query req !! "status") with
      | Some s => status_is s r
      | None => true
      end
  | ListWorkOrders | ListAuditLogs => true
  end.

(** The column that holds the time a row was created. *)
Definition creation_column (t : Table) : string :=
  match t with documents => "uploadedAt" | _ => "createdAt" end.

(** ** Identifiers *)

(** The prefix of the identifiers of a table; staff get a uuid. *)
Definition id_prefix (t : Table) : option string :=
  match t with
  | assets => Some "AST-"
  | documents => Some "DOC-"
  | workflows => Some "WFL-"
  | workOrders => Some "WO-"
  | staff => None
  end.

(** The rows with such an identifier were numbered by the sequence of the
    table, which has moved past them. *)
Definition numbered (w : World) : Prop :=
  (forall t, sequence_start <= seqs w t)
  /\ forall t prefix k,
       id_prefix t = Some prefix -> is_Some (rows w t !! k) ->
       exists n, sequence_start <= n < seqs w t /\ k = prefix +:+ to_char_FM0000 n.

(** ** Reading one entity *)

Definition missing (e : Spatial) : string :=
  match e with
  | SpatialAssets => "Asset not found"
  | SpatialStaff => "Staff member not found"
  end.

(** ** What one request does to the store *)

(** The audit table is as it was, or has one more record, which carries
    the serial number that was next.  When no record is written the serial
    has moved on by one at most: an insert that the store refused may have
    drawn it. *)
Definition appended (w w' : World) : Prop :=
  (auditLogs w' = auditLogs w
   /\ audit_serial w <= audit_serial w' <= audit_serial w + 1)
  \/ exists entry,
       auditLogs w' = (auditLogs w ++
         [{| log_id := audit_serial w; log_entry := entry; log_timestamp := clock w |}])%list
       /\ audit_serial w' = audit_serial w + 1.

(** Row [id] of table [t] is as it was, or was inserted, updated or
    deleted. *)
Definition written (t : Table) (id : string) (w w' : World) : Prop :=
  rows w' t !! id = rows w t !! id
  \/ (rows w t !! id = None
      /\ (exists row, rows w' t !! id = Some row /\ row !! "id" = Some (VStr id))
      /\ (forall prefix, id_prefix t = Some prefix ->
            id = prefix +:+ to_char_FM0000 (seqs w t) /\ seqs w' t = seqs w t + 1))
  \/ (exists old new, rows w t !! id = Some old /\ rows w' t !! id = Some new
                      /\ new !! "id" = old !! "id")
  \/ (is_Some (rows w t !! id) /\ rows w' t !! id = None).

Definition one_request (t : Table) (id : string) (w w' : World) : Prop :=
  clock w' = clock w
  /\ (forall c, fault w' c = fault w c)
  /\ (forall t', seqs w t' <= seqs w' t')
  /\ (forall t' k, t' <> t \/ k <> id -> rows w' t' !! k = rows w t' !! k)
  /\ written t id w w'
  /\ appended w w'.

(** ** Location updates *)

(** The property is a number within [lo, hi]. *)
Definition coordinate (lo hi : Z) (v : option Val) : Prop :=
  match v with
  | Some (VNum n) => within lo hi n
  | _ => False
  end.

(** Who may move an entity: the custodian or the creator of an asset, the
    user a staff record belongs to. *)
Definition owns (e : Spatial) (r : Row) (userId : string) : Prop :=
  match e with
  | SpatialAssets =>
      r !! "custodianId" = Some (VStr userId) \/ r !! "createdBy" = Some (VStr userId)
  | SpatialStaff => r !! "userId" = Some (VStr userId)
  end.

Definition refusal (e : Spatial) : string :=
  match e with
  | SpatialAssets => "You don't have permission to update this asset's location"
  | SpatialStaff => "You can only update your own office location"
  end.

(** ** Listings, continued *)

Definition listing_failure (l : Listing) : string :=
  match l with
  | ListAssets => "Failed to fetch assets"
  | ListStaff => "Failed to fetch staff"
  | ListDocuments => "Failed to fetch documents"
  | ListWorkflows => "Failed to fetch workflows"
  | ListAuditLogs => "Failed to fetch audit logs"
  | ListWorkOrders => "Failed to fetch work orders"
  end.

(** The limit and the offset a listing hands to the store. *)
Definition asked_limit (l : Listing) (req : Request) : number :=
  or_default (parseInt (query req !! "limit")) (page_size l).

Definition asked_offset (req : Request) : number :=
  or_default (parseInt (query req !! "offset")) 0.

(** The listing of workflows asked for with a status that is no label of
    the enum: the store refuses the query. *)
Definition unknown_status (l : Listing) (req : Request) : bool :=
  match l, truthy_string (query req !! "status") with
  | ListWorkflows, Some s => negb (bool_decide (s ∈ workflowStatusEnum))
  | _, _ => false
  end.


(** ORDER BY timestamp DESC on the audit table *)
Definition latest_first (a b : AuditLog) : bool := log_timestamp b <=? log_timestamp a.

(** ** The dashboard and the search *)

(** The number of rows of a table, and of its rows with a given status. *)
Definition row_count (w : World) (t : Table) : Z := Z.of_nat (size (rows w t)).

Definition status_count (w : World) (t : Table) (label : string) : Z :=
  Z.of_nat (length (List.filter (status_is label) (table_rows w t))).

(** By how much a successful mutation changes the number of rows of a
    table. *)
Definition change (m : Mutation) (t : Table) : Z :=
  if decide (table_of m = t)
  then match kind m with Create => 1 | Update => 0 | Delete => -1 end
  else 0.


(** The store is as it was, but for the calls it has recorded. *)
Definition untouched (w w' : World) : Prop :=
  rows w' = rows w /\ seqs w' = seqs w /\ uuid_next w' = uuid_next w
  /\ auditLogs w' = auditLogs w /\ audit_serial w' = audit_serial w
  /\ clock w' = clock w /\ fault w' = fault w.

(** What an endpoint answers and does to the store: a status code of its
    list; at most one row written and one audit record appended; nothing
    written when the code is a 4xx or the endpoint only reads. *)
Definition served (e : Endpoint) (w : World) (out : option Z * World) : Prop :=
  exists t id code,
    out.1 = Some code
    /\ code ∈ answers e
    /\ one_request t id w out.2
    /\ (400 <= code < 500 \/ read_only e = true -> untouched w out.2).

(** * More requests to run the model on *)

Definition bob : AuthUser :=
  {| claims := {| sub := "bob"; email := None; first_name := None; last_name := None |} |}.

(** A store that answers every count and every search. *)
Definition no_outage : ReadCall -> bool := fun _ => false.

(** An asset without a name. *)
Definition nameless_request : Request :=
  request (Some alice) "" ∅ {[ "category" := VStr "equipment" ]}.

Definition name_field : Field :=
  {| f_name := "name"; f_type := TText; f_nullable := false; f_optional := false |}.

(** Alice renames the asset, then deletes it; Bob tries to move it. *)
Definition rename_request : Request :=
  request (Some alice) "AST-1000" ∅ {[ "name" := VStr "Pump" ]}.

(** Alice writes down what the asset was bought for. *)
Definition revalue_request : Request :=
  request (Some alice) "AST-1000" ∅
          {[ "name" := VStr "Pump"; "purchaseValue" := VStr "12.5" ]}.

Definition remove_request : Request := request (Some alice) "AST-1000" ∅ ∅.

Definition bobs_move_request : Request :=
  request (Some bob) "AST-1000" ∅
          {[ "longitude" := VNum (lit 1); "latitude" := VNum (lit 0) ]}.

(** A move to a longitude that does not exist. *)
Definition wrong_move_request : Request :=
  request (Some alice) "AST-1000" ∅
          {[ "longitude" := VNum (lit 200); "latitude" := VNum (lit 0) ]}.

(** Pages: the first one, one asked for with limit=-1 and one asked for
    with offset=-1. *)
Definition page_request : Request := request (Some alice) "" ∅ ∅.

Definition negative_limit_request : Request :=
  request (Some alice) "" {[ "limit" := "-1" ]} ∅.

Definition negative_offset_request : Request :=
  request (Some alice) "" {[ "offset" := "-1" ]} ∅.

(** Workflows asked for with a status that the enum does not have. *)
Definition bogus_status_request : Request :=
  request (Some alice) "" {[ "status" := "bogus" ]} ∅.

(** An asset with a condition score past the range of an integer column. *)
Definition oversized_score_request : Request :=
  request (Some alice) "" ∅
          {[ "name" := VStr "Generator"; "category" := VStr "equipment";
             "conditionScore" := VNum (lit 2147483648) ]}.


(** Two workflows as the page lists them. *)
Definition listed_workflows : list Row :=
  [ {[ "id" := VStr "WFL-1000"; "status" := VStr "pending" ]};
    {[ "id" := VStr "WFL-1001"; "status" := VStr "approved" ]} ].


(** * Properties *)

(** ** Running the storage layer *)

Section StorageFacts.
Context `{Platform}.

Lemma bind_run {A B} (m : M A) (f : A -> M B) w :
  (m ≫= f) w = match m w with
               | (Ok a, w') => f a w'
               | (Throw e, w') => (Throw e, w')
               end.
Proof. reflexivity. Qed.

Lemma ret_run {A} (a : A) w : (mret a : M A) w = (Ok a, w).
Proof. reflexivity. Qed.

Lemma run_inv (out : Result Response * World) (code : Z) :
  status <$> response_of out = Some code ->
  exists r w', out = (Ok r, w') /\ status r = code.
Proof.
  destruct out as [[r|e] w']; cbn; [|discriminate].
  intros [= <-]. eauto.
Qed.

Lemma call_run c w :
  call c w = (if fault w c then Throw StoreError else Ok (), log_call c w).
Proof. unfold call. destruct (fault w c); reflexivity. Qed.

Lemma db_select_by_id_run t id w :
  db_select_by_id t id w =
  if fault w (SelectById t id) then (Throw StoreError, log_call (SelectById t id) w)
  else (Ok (rows w t !! id), log_call (SelectById t id) w).
Proof.
  unfold db_select_by_id. rewrite bind_run, call_run.
  destruct (fault w _); reflexivity.
Qed.

Lemma draw_defaults_same t values w : same_data w (draw_defaults t values w).
Proof.
  unfold draw_defaults. induction (columns t) as [|c cs IH]; simpl.
  - repeat split.
  - destruct (col_default c); try exact IH;
      destruct (values !! col_name c); try exact IH;
      destruct IH as (?&?&?&?&?&?); repeat split; assumption.
Qed.

Lemma db_insert_run t values w :
  db_insert t values w =
  let w1 := log_call (InsertRow t values) w in
  if fault w (InsertRow t values) then (Throw StoreError, w1)
  else
    let row := new_row t w values in
    let w2 := draw_defaults t values w1 in
    match row !! "id" with
    | Some (VStr id) =>
        match rows w t !! id with
        | Some _ => (Throw StoreError, w2)
        | None => (Ok row, set_table t (<[id := row]> (rows w t)) w2)
        end
    | _ => (Throw StoreError, w2)
    end.
Proof.
  unfold db_insert. rewrite bind_run, call_run.
  destruct (fault w _); [reflexivity|].
  cbv beta iota zeta. rewrite bind_run. unfold get_world at 1. cbv beta iota.
  rewrite bind_run. unfold modify at 1. cbv beta iota.
  change (new_row t (log_call (InsertRow t values) w) values) with (new_row t w values).
  change (rows (log_call (InsertRow t values) w) t) with (rows w t).
  destruct (new_row t w values !! "id") as [[]|]; try reflexivity.
  destruct (rows w t !! s); reflexivity.
Qed.

Lemma db_update_run t id set w :
  db_update t id set w =
  let w1 := log_call (UpdateRow t id set) w in
  if fault w (UpdateRow t id set) then (Throw StoreError, w1)
  else match rows w t !! id with
       | Some old =>
           (Ok (Some (assignments t set ∪ old)),
            set_table t (<[id := assignments t set ∪ old]> (rows w t)) w1)
       | None => (Ok None, w1)
       end.
Proof.
  unfold db_update. rewrite bind_run, call_run.
  destruct (fault w _); [reflexivity|].
  cbv beta iota zeta. rewrite bind_run. unfold get_world at 1. cbv beta iota.
  change (rows (log_call (UpdateRow t id set) w) t) with (rows w t).
  destruct (rows w t !! id); reflexivity.
Qed.

Lemma db_delete_run t id w :
  db_delete t id w =
  let w1 := log_call (DeleteRow t id) w in
  if fault w (DeleteRow t id) then (Throw StoreError, w1)
  else (Ok (), set_table t (delete id (rows w t)) w1).
Proof.
  unfold db_delete. rewrite bind_run, call_run.
  destruct (fault w _); reflexivity.
Qed.

Lemma storage_createAuditLog_run e w :
  storage_createAuditLog e w =
  let w1 := log_call (InsertAudit e) w in
  if fault w (InsertAudit e) then (Throw StoreError, draw_serial w1)
  else (Ok (), append_audit e w1).
Proof. reflexivity. Qed.

Lemma touch_run patch w :
  touch patch w = (Ok (<["updatedAt" := VDate (clock w)]> patch), w).
Proof. reflexivity. Qed.

End StorageFacts.

(** ** The routes and their shapes *)

Section ShapeFacts.
Context `{Platform}.

Lemma route_shape m req w : route m req w = shape m req w.
Proof.
  destruct m; try reflexivity;
    unfold route, shape, create_route, create_input, try_catch, user_sub; simpl;
    [ unfold post_assets | unfold post_documents | unfold post_workflows
    | unfold post_work_orders ];
    unfold try_catch, user_sub; rewrite !bind_run; destruct (user req); reflexivity.
Qed.

End ShapeFacts.

Section RunEquations.
Context `{Platform}.

Lemma create_input_run owner req w :
  create_input owner req w =
  match owner, user req with
  | Some property, Some u => (Ok (<[property := VStr (sub (claims u))]> (body req)), w)
  | Some _, None => (Throw TypeError, w)
  | None, _ => (Ok (body req), w)
  end.
Proof. unfold create_input, user_sub. destruct owner, (user req); reflexivity. Qed.

Lemma fault_draw_defaults t values w c :
  fault (draw_defaults t values w) c = fault w c.
Proof. destruct (draw_defaults_same t values w) as (_&_&_&_&->&_). reflexivity. Qed.

Lemma createAuditLog_run entity id action req old new w :
  createAuditLog entity id action req old new w =
  match actor req with
  | None => (Ok (), w)
  | Some uid =>
      let e := audit_entry entity id action uid req old new in
      if fault w (InsertAudit e)
      then (Throw StoreError, draw_serial (log_call (InsertAudit e) w))
      else (Ok (), append_audit e (log_call (InsertAudit e) w))
  end.
Proof.
  unfold createAuditLog. destruct (actor req); [|reflexivity].
  apply storage_createAuditLog_run.
Qed.

Lemma create_route_run t schema entity failure owner req w :
  create_route t schema entity failure owner req w =
  match input_of owner req with
  | None => (Ok (failed failure), w)
  | Some input =>
      match zod_parse schema input with
      | inl issues => (Ok {| status := 400; payload := Invalid issues |}, w)
      | inr data =>
          let w1 := log_call (InsertRow t data) w in
          if fault w (InsertRow t data) then (Ok (failed failure), w1)
          else
            let row := new_row t w data in
            let w2 := draw_defaults t data w1 in
            match row !! "id" with
            | Some (VStr id) =>
                match rows w t !! id with
                | Some _ => (Ok (failed failure), w2)
                | None =>
                    audit_step req
                      (fun uid => audit_entry entity id "create" uid req None (Some row))
                      {| status := 201; payload := Entity (Some row) |} failure
                      (set_table t (<[id := row]> (rows w t)) w2)
                end
            | _ => (Ok (failed failure), w2)
            end
      end
  end.
Proof.
  unfold create_route, try_catch. rewrite bind_run, create_input_run. unfold input_of.
  destruct owner as [property|], (user req) as [u|]; try reflexivity;
    (rewrite bind_run; unfold parse at 1;
     match goal with |- context [zod_parse schema ?i] => destruct (zod_parse schema i) as [issues|data] end;
     [reflexivity|];
     rewrite ret_run; cbv beta iota;
     rewrite bind_run, db_insert_run; cbv zeta;
     destruct (fault w (InsertRow t data)); [reflexivity|];
     destruct (new_row t w data !! "id") as [[| | |id| | | | | |]|] eqn:Hid; try reflexivity;
     destruct (rows w t !! id); [reflexivity|];
     cbv beta iota; rewrite bind_run, createAuditLog_run; unfold audit_step, row_id;
     rewrite Hid;
     destruct (actor req) as [uid|]; [|reflexivity];
     cbv zeta; cbn [fault set_table]; rewrite fault_draw_defaults; cbn [fault log_call];
     destruct (fault w (InsertAudit _)); reflexivity).
Qed.

Lemma update_route_run t schema entity missing failure req w :
  update_route t schema entity missing failure req w =
  let id := params_id req in
  let w1 := log_call (SelectById t id) w in
  if fault w (SelectById t id) then (Ok (failed failure), w1)
  else
    match rows w t !! id with
    | None => (Ok {| status := 404; payload := Message missing |}, w1)
    | Some old =>
        match zod_parse (partial schema) (body req) with
        | inl issues => (Ok {| status := 400; payload := Invalid issues |}, w1)
        | inr data =>
            let set := <["updatedAt" := VDate (clock w)]> data in
            let w2 := log_call (UpdateRow t id set) w1 in
            if fault w (UpdateRow t id set) then (Ok (failed failure), w2)
            else
              let new := assignments t set ∪ old in
              audit_step req
                (fun uid => audit_entry entity id "update" uid req (Some old) (Some new))
                {| status := 200; payload := Entity (Some new) |} failure
                (set_table t (<[id := new]> (rows w t)) w2)
        end
    end.
Proof.
  unfold update_route, try_catch. rewrite bind_run, db_select_by_id_run. cbv zeta.
  destruct (fault w (SelectById t (params_id req))); [reflexivity|].
  destruct (rows w t !! params_id req) as [old|] eqn:Hold; [|reflexivity].
  cbv beta iota. rewrite bind_run. unfold parse at 1.
  destruct (zod_parse (partial schema) (body req)) as [issues|data]; [reflexivity|].
  rewrite ret_run. cbv beta iota.
  rewrite !bind_run, touch_run. cbv beta iota. rewrite db_update_run. cbv zeta.
  cbn [rows fault clock log_call]. rewrite Hold.
  destruct (fault w (UpdateRow t _ _)); [reflexivity|].
  cbv beta iota. rewrite bind_run, createAuditLog_run. unfold audit_step.
  destruct (actor req) as [uid|]; [|reflexivity].
  cbv zeta. cbn [fault set_table log_call].
  destruct (fault w (InsertAudit _)); reflexivity.
Qed.

Lemma delete_route_run t entity missing failure req w :
  delete_route t entity missing failure req w =
  let id := params_id req in
  let w1 := log_call (SelectById t id) w in
  if fault w (SelectById t id) then (Ok (failed failure), w1)
  else
    match rows w t !! id with
    | None => (Ok {| status := 404; payload := Message missing |}, w1)
    | Some old =>
        let w2 := log_call (DeleteRow t id) w1 in
        if fault w (DeleteRow t id) then (Ok (failed failure), w2)
        else
          audit_step req
            (fun uid => audit_entry entity id "delete" uid req (Some old) None)
            {| status := 204; payload := Empty |} failure
            (set_table t (delete id (rows w t)) w2)
    end.
Proof.
  unfold delete_route, try_catch. rewrite bind_run, db_select_by_id_run. cbv zeta.
  destruct (fault w (SelectById t (params_id req))); [reflexivity|].
  destruct (rows w t !! params_id req) as [old|] eqn:Hold; [|reflexivity].
  cbv beta iota. rewrite bind_run, db_delete_run. cbv zeta.
  cbn [rows fault clock log_call].
  destruct (fault w (DeleteRow t _)); [reflexivity|].
  cbv beta iota. rewrite bind_run, createAuditLog_run. unfold audit_step.
  destruct (actor req) as [uid|]; [|reflexivity].
  cbv zeta. cbn [fault set_table log_call].
  destruct (fault w (InsertAudit _)); reflexivity.
Qed.

End RunEquations.

(** ** Audit records of the mutating routes *)

Section Audit.
Context `{Platform}.

Lemma rows_set_table t m w : rows (set_table t m w) t = m.
Proof. cbn. destruct (decide (t = t)); congruence. Qed.

Lemma audit_step_inv req e ok failure w1 r w' :
  audit_step req e ok failure w1 = (Ok r, w') ->
  status r <> 500 ->
  r = ok /\
  match actor req with
  | Some uid => fault w1 (InsertAudit (e uid)) = false
                /\ w' = append_audit (e uid) (log_call (InsertAudit (e uid)) w1)
  | None => w' = w1
  end.
Proof.
  unfold audit_step. intros Hrun Hst.
  destruct (actor req) as [uid|].
  - destruct (fault w1 (InsertAudit (e uid))); inversion Hrun; subst.
    + exfalso. apply Hst. reflexivity.
    + auto.
  - inversion Hrun; auto.
Qed.

Lemma audit_step_refused req e ok failure w1 uid :
  actor req = Some uid ->
  fault w1 (InsertAudit (e uid)) = true ->
  audit_step req e ok failure w1
  = (Ok (failed failure), draw_serial (log_call (InsertAudit (e uid)) w1)).
Proof. unfold audit_step. intros -> ->. reflexivity. Qed.

Lemma new_row_refuse_audit t w values :
  new_row t (refuse_audit w) values = new_row t w values.
Proof. reflexivity. Qed.

Lemma rows_draw_defaults t values w : rows (draw_defaults t values w) = rows w.
Proof. destruct (draw_defaults_same t values w) as (->&_). reflexivity. Qed.

Lemma auditLogs_draw_defaults t values w :
  auditLogs (draw_defaults t values w) = auditLogs w.
Proof. destruct (draw_defaults_same t values w) as (_&->&_). reflexivity. Qed.

Lemma audit_serial_draw_defaults t values w :
  audit_serial (draw_defaults t values w) = audit_serial w.
Proof. destruct (draw_defaults_same t values w) as (_&_&->&_). reflexivity. Qed.

Lemma clock_draw_defaults t values w : clock (draw_defaults t values w) = clock w.
Proof. destruct (draw_defaults_same t values w) as (_&_&_&->&_). reflexivity. Qed.

Lemma trace_draw_defaults t values w : trace (draw_defaults t values w) = trace w.
Proof. destruct (draw_defaults_same t values w) as (_&_&_&_&_&->). reflexivity. Qed.

(** C2. Every successful create, update or delete mutates the entity it
    names and, when the request carries an authenticated actor, appends
    exactly one audit record for that entity and that kind of call, without
    old values on create and without new values on delete; without an actor
    the mutation is done all the same and the audit table is left as it
    was. *)
Theorem mutation_audited_once m req w :
  status <$> response_of (route m req w) = Some (kind_success (kind m)) ->
  exists r id,
    response_of (route m req w) = Some r
    /\ mutated m req r id w (route m req w).2
    /\ audited m req id w (route m req w).2.
Proof.
  intros Hok. destruct (run_inv _ _ Hok) as (r & w' & Hrun & Hst).
  enough (exists id, mutated m req r id w w' /\ audited m req id w w') as (id & Hm & Ha).
  { exists r, id. rewrite Hrun. repeat split; assumption. }
  clear Hok. revert Hrun Hst.
  rewrite route_shape. unfold shape, mutated, audited.
  generalize (table_of m) (schema_of m) (entity_of m) (failure_of m) (not_found_of m)
             (owner_of m).
  intros t schema entity failure missing owner.
  destruct (kind m); cbn [kind_success kind_action].
  - (* create *)
    rewrite create_route_run.
    destruct (input_of owner req) as [input|]; [|intros [= <- <-]; discriminate].
    destruct (zod_parse schema input) as [issues|data]; [intros [= <- <-]; discriminate|].
    cbv zeta. destruct (fault w (InsertRow t data)); [intros [= <- <-]; discriminate|].
    destruct (new_row t w data !! "id") as [[| | |id| | | | | |]|] eqn:Hid;
      try (intros [= <- <-]; discriminate).
    destruct (rows w t !! id) eqn:Hfresh; [intros [= <- <-]; discriminate|].
    intros Hrun Hst. apply audit_step_inv in Hrun as [-> Hw]; [|lia].
    exists id. split.
    + exists (new_row t w data). unfold row_id. rewrite Hid.
      repeat split; [assumption|].
      destruct (actor req); [destruct Hw as [_ ->]|subst w'];
        cbn [rows append_audit log_call]; rewrite rows_set_table; apply lookup_insert_eq.
    + destruct (actor req) as [uid|].
      * destruct Hw as [_ ->]. eexists. cbn [auditLogs append_audit log_call set_table
                                               audit_serial clock].
        rewrite auditLogs_draw_defaults, audit_serial_draw_defaults, clock_draw_defaults.
        cbn. repeat split; discriminate.
      * subst w'. cbn [auditLogs set_table]. rewrite auditLogs_draw_defaults. reflexivity.
  - (* update *)
    rewrite update_route_run. cbv zeta.
    destruct (fault w (SelectById t (params_id req))); [intros [= <- <-]; discriminate|].
    destruct (rows w t !! params_id req) as [old|] eqn:Hold;
      [|intros [= <- <-]; discriminate].
    destruct (zod_parse (partial schema) (body req)) as [issues|data];
      [intros [= <- <-]; discriminate|].
    destruct (fault w (UpdateRow t _ _)); [intros [= <- <-]; discriminate|].
    intros Hrun Hst. apply audit_step_inv in Hrun as [-> Hw]; [|lia].
    exists (params_id req). split.
    + split; [reflexivity|]. eexists old, _. split; [exact Hold|]. split; [|reflexivity].
      destruct (actor req); [destruct Hw as [_ ->]|subst w'];
        cbn [rows append_audit log_call]; rewrite rows_set_table; apply lookup_insert_eq.
    + destruct (actor req) as [uid|].
      * destruct Hw as [_ ->]. eexists. cbn. repeat split; discriminate.
      * subst w'. reflexivity.
  - (* delete *)
    rewrite delete_route_run. cbv zeta.
    destruct (fault w (SelectById t (params_id req))); [intros [= <- <-]; discriminate|].
    destruct (rows w t !! params_id req) as [old|] eqn:Hold;
      [|intros [= <- <-]; discriminate].
    destruct (fault w (DeleteRow t _)); [intros [= <- <-]; discriminate|].
    intros Hrun Hst. apply audit_step_inv in Hrun as [-> Hw]; [|lia].
    exists (params_id req). split.
    + split; [reflexivity|]. split; [eauto|].
      destruct (actor req); [destruct Hw as [_ ->]|subst w'];
        cbn [rows append_audit log_call]; rewrite rows_set_table; apply lookup_delete_eq.
    + destruct (actor req) as [uid|].
      * destruct Hw as [_ ->]. eexists. cbn. repeat split; discriminate.
      * subst w'. reflexivity.
Qed.

End Audit.

(** ** When the audit write fails; when the id is unknown *)

Section Failures.
Context `{Platform}.

Lemma draw_defaults_refuse_audit t values w :
  rows (draw_defaults t values (refuse_audit w)) = rows w
  /\ auditLogs (draw_defaults t values (refuse_audit w)) = auditLogs w.
Proof. rewrite rows_draw_defaults, auditLogs_draw_defaults. split; reflexivity. Qed.

(** C7, as the code has it.  Take a request with an actor that succeeds.
    Replayed against a store that refuses the audit insert, the same request
    is answered 500 with the route's failure message, although the entity
    write is in the tables exactly as in the successful run; no audit record
    is written. *)
Theorem audit_failure_is_reported_as_failure m req w :
  status <$> response_of (route m req w) = Some (kind_success (kind m)) ->
  is_Some (actor req) ->
  response_of (route m req (refuse_audit w)) = Some (failed (failure_of m))
  /\ rows (route m req (refuse_audit w)).2 = rows (route m req w).2
  /\ auditLogs (route m req (refuse_audit w)).2 = auditLogs w.
Proof.
  intros Hok Hactor. destruct (run_inv _ _ Hok) as (r & w1 & Hrun & Hst).
  enough (exists w2,
            route m req (refuse_audit w) = (Ok (failed (failure_of m)), w2)
            /\ rows w2 = rows w1 /\ auditLogs w2 = auditLogs w)
    as (w2 & Hrun2 & Hrows & Haudit).
  { rewrite Hrun2, Hrun. repeat split; assumption. }
  clear Hok. revert Hrun Hst Hactor.
  rewrite !route_shape. unfold shape.
  generalize (table_of m) (schema_of m) (entity_of m) (failure_of m) (not_found_of m)
             (owner_of m).
  intros t schema entity failure missing owner.
  intros Hrun Hst [uid Huid]. revert Hrun Hst.
  destruct (kind m); cbn [kind_success].
  - rewrite !create_route_run.
    destruct (input_of owner req) as [input|]; [|intros [= <- <-]; discriminate].
    destruct (zod_parse schema input) as [issues|data]; [intros [= <- <-]; discriminate|].
    cbv zeta. cbn [fault refuse_audit rows]. rewrite new_row_refuse_audit.
    destruct (fault w (InsertRow t data)); [intros [= <- <-]; discriminate|].
    destruct (new_row t w data !! "id") as [[| | |id| | | | | |]|] eqn:Hid;
      try (intros [= <- <-]; discriminate).
    destruct (rows w t !! id) eqn:Hfresh; [intros [= <- <-]; discriminate|].
    intros Hrun Hst. apply audit_step_inv in Hrun as [-> Hw]; [|lia].
    rewrite Huid in Hw. destruct Hw as [_ ->].
    eexists. split.
    + apply audit_step_refused with (uid := uid); [exact Huid|].
      cbn [fault set_table]. rewrite fault_draw_defaults. reflexivity.
    + cbn [rows auditLogs append_audit draw_serial log_call set_table].
      rewrite !rows_draw_defaults, auditLogs_draw_defaults. split; reflexivity.
  - rewrite !update_route_run. cbv zeta. cbn [fault refuse_audit rows clock].
    destruct (fault w (SelectById t (params_id req))); [intros [= <- <-]; discriminate|].
    destruct (rows w t !! params_id req) as [old|] eqn:Hold;
      [|intros [= <- <-]; discriminate].
    destruct (zod_parse (partial schema) (body req)) as [issues|data];
      [intros [= <- <-]; discriminate|].
    destruct (fault w (UpdateRow t _ _)); [intros [= <- <-]; discriminate|].
    intros Hrun Hst. apply audit_step_inv in Hrun as [-> Hw]; [|lia].
    rewrite Huid in Hw. destruct Hw as [_ ->].
    eexists. split.
    + apply audit_step_refused with (uid := uid); [exact Huid|]. reflexivity.
    + split; reflexivity.
  - rewrite !delete_route_run. cbv zeta. cbn [fault refuse_audit rows clock].
    destruct (fault w (SelectById t (params_id req))); [intros [= <- <-]; discriminate|].
    destruct (rows w t !! params_id req) as [old|] eqn:Hold;
      [|intros [= <- <-]; discriminate].
    destruct (fault w (DeleteRow t _)); [intros [= <- <-]; discriminate|].
    intros Hrun Hst. apply audit_step_inv in Hrun as [-> Hw]; [|lia].
    rewrite Huid in Hw. destruct Hw as [_ ->].
    eexists. split.
    + apply audit_step_refused with (uid := uid); [exact Huid|]. reflexivity.
    + split; reflexivity.
Qed.

(** C8. An update that names an id the table does not hold makes one
    storage call, the lookup: nothing is written to any table, no audit
    record is produced, and the answer is 404 with the route's not-found
    message (a lookup the store itself refuses is answered 500). *)
Theorem update_of_unknown_id_is_not_found m req w :
  kind m = Update ->
  rows w (table_of m) !! params_id req = None ->
  exists r w',
    route m req w = (Ok r, w')
    /\ rows w' = rows w
    /\ auditLogs w' = auditLogs w
    /\ trace w' = (trace w ++ [SelectById (table_of m) (params_id req)])%list
    /\ status r <> 200
    /\ (fault w (SelectById (table_of m) (params_id req)) = false ->
        r = {| status := 404; payload := Message (not_found_of m) |}).
Proof.
  intros Hkind Hnone. rewrite route_shape. unfold shape. rewrite Hkind.
  rewrite update_route_run. cbv zeta. rewrite Hnone.
  destruct (fault w (SelectById (table_of m) (params_id req)));
    eexists _, _; (split; [reflexivity|]); cbn; repeat split; try discriminate.
Qed.

End Failures.

(** ** Workflows *)

Section Workflows.
Context `{Platform}.

Lemma zod_output_lookup s input k :
  zod_output s input !! k = if bool_decide (k ∈ f_name <$> s) then input !! k else None.
Proof.
  unfold zod_output. induction s as [|f s IH]; cbn [foldr].
  - rewrite lookup_empty. reflexivity.
  - rewrite fmap_cons. destruct (decide (f_name f = k)) as [<-|Hne].
    + rewrite bool_decide_eq_true_2 by (left; reflexivity).
      destruct (input !! f_name f) eqn:Hin.
      * rewrite lookup_insert_eq. reflexivity.
      * rewrite IH. destruct (bool_decide _); reflexivity.
    + assert (Hk : k ∈ f_name f :: (f_name <$> s) <-> k ∈ f_name <$> s).
      { rewrite elem_of_cons. split; [intros [E|E]|intros E; right; exact E].
        - symmetry in E. contradiction.
        - exact E. }
      rewrite (bool_decide_ext _ _ Hk).
      destruct (input !! f_name f).
      * rewrite lookup_insert_ne by exact Hne. exact IH.
      * exact IH.
Qed.

Lemma new_row_lookup t w values k :
  new_row t w values !! k = column_value t w values <$> find_column k (columns t).
Proof.
  unfold new_row. induction (columns t) as [|c cs IH]; simpl.
  - apply lookup_empty.
  - case_bool_decide as Hc.
    + subst k. rewrite lookup_insert_eq. reflexivity.
    + rewrite lookup_insert_ne by exact Hc. exact IH.
Qed.

Lemma partial_names s : f_name <$> partial s = f_name <$> s.
Proof. unfold partial. induction s as [|f s IH]; cbn; [reflexivity|]. f_equal. exact IH. Qed.

Lemma assignments_lookup t (set : Row) k :
  assignments t set !! k =
  match find_column k (columns t) with
  | Some c => column_holds (col_type c) <$> set !! k
  | None => None
  end.
Proof.
  unfold assignments. induction (columns t) as [|c cs IH]; simpl.
  - apply lookup_empty.
  - case_bool_decide as Hc.
    + subst k. destruct (set !! col_name c) eqn:Hs.
      * rewrite lookup_insert_eq. reflexivity.
      * rewrite IH. destruct (find_column (col_name c) cs); reflexivity.
    + destruct (set !! col_name c); [rewrite lookup_insert_ne by exact Hc|]; exact IH.
Qed.

(** A column of the updated row that is not a decimal one: the value of
    the data when the data carries it, the stored value otherwise. *)
Lemma updated_lookup t (data old : Row) now k c :
  k <> "updatedAt" ->
  find_column k (columns t) = Some c ->
  col_type c <> TDecimal ->
  (assignments t (<["updatedAt" := VDate now]> data) ∪ old) !! k
  = match data !! k with Some v => Some v | None => old !! k end.
Proof.
  intros Hk Hc Hty. rewrite lookup_union, assignments_lookup, Hc.
  rewrite lookup_insert_ne by (intros E; apply Hk; symmetry; exact E).
  destruct (data !! k) as [v|]; cbn.
  - assert (column_holds (col_type c) v = v) as ->
      by (destruct (col_type c); try reflexivity; contradiction).
    destruct (old !! k); reflexivity.
  - destruct (old !! k); reflexivity.
Qed.

Lemma zod_parse_inr s input data :
  zod_parse s input = inr data -> data = zod_output s input.
Proof. unfold zod_parse. destruct (zod_issues s input); congruence. Qed.

Lemma zod_parse_issue s input f :
  f ∈ s -> field_ok f input = false ->
  exists issues, zod_parse s input = inl issues /\ f_name f ∈ issues.
Proof.
  intros Hf Hbad.
  assert (Hin : f_name f ∈ zod_issues s input).
  { unfold zod_issues. apply list_elem_of_fmap. exists f. split; [reflexivity|].
    apply list_elem_of_filter. split; assumption. }
  unfold zod_parse. destruct (zod_issues s input) as [|i issues] eqn:Hi.
  - inversion Hin.
  - eauto.
Qed.

Lemma put_workflow_run req w :
  put_workflow req w =
  update_route workflows insertWorkflowSchema "workflow" "Workflow not found"
               "Failed to update workflow" req w.
Proof. exact (route_shape PutWorkflow req w). Qed.

Lemma post_workflows_run req w :
  post_workflows req w =
  create_route workflows insertWorkflowSchema "workflow" "Failed to create workflow"
               (Some "requestedBy") req w.
Proof. exact (route_shape PostWorkflows req w). Qed.



(** C6, as the code has it.  A workflow created without a status and a
    completion date starts as pending with no completion date, which
    satisfies the invariant.  An update writes the two columns one by one:
    each takes the value of the body when the body carries it and keeps the
    stored value otherwise; nothing ties them together. *)
Theorem workflow_status_and_completion_are_written_apart :
  (forall req w,
     status <$> response_of (post_workflows req w) = Some 201 ->
     body req !! "status" = None -> body req !! "completedDate" = None ->
     exists row,
       payload <$> response_of (post_workflows req w) = Some (Entity (Some row))
       /\ row !! "status" = Some (VStr "pending")
       /\ row !! "completedDate" = Some VNull
       /\ completion_invariant row)
  /\
  (forall req w,
     status <$> response_of (put_workflow req w) = Some 200 ->
     exists old new,
       rows w workflows !! params_id req = Some old
       /\ payload <$> response_of (put_workflow req w) = Some (Entity (Some new))
       /\ rows (put_workflow req w).2 workflows !! params_id req = Some new
       /\ new !! "status" = merged "status" (body req) old
       /\ new !! "completedDate" = merged "completedDate" (body req) old).
Proof.
  enough (
  (forall req w r w',
     post_workflows req w = (Ok r, w') -> status r = 201 ->
     body req !! "status" = None -> body req !! "completedDate" = None ->
     exists row,
       payload r = Entity (Some row)
       /\ row !! "status" = Some (VStr "pending")
       /\ row !! "completedDate" = Some VNull
       /\ completion_invariant row)
  /\
  (forall req w r w' old,
     put_workflow req w = (Ok r, w') -> status r = 200 ->
     rows w workflows !! params_id req = Some old ->
     exists new,
       payload r = Entity (Some new)
       /\ rows w' workflows !! params_id req = Some new
       /\ new !! "status" = merged "status" (body req) old
       /\ new !! "completedDate" = merged "completedDate" (body req) old)) as [Hcreate Hupdate].
  { split.
    - intros req w Hok Hs Hc. destruct (run_inv _ _ Hok) as (r & w' & Hrun & Hst).
      destruct (Hcreate req w r w' Hrun Hst Hs Hc) as (row & Hp & Hrest).
      exists row. rewrite Hrun. cbn. rewrite Hp. split; [reflexivity|exact Hrest].
    - intros req w Hok. destruct (run_inv _ _ Hok) as (r & w' & Hrun & Hst).
      destruct (rows w workflows !! params_id req) as [old|] eqn:Hold.
      + destruct (Hupdate req w r w' old Hrun Hst Hold) as (new & Hp & Hrest).
        exists old, new. rewrite Hrun. cbn. rewrite Hp. split; [reflexivity|].
        split; [reflexivity|exact Hrest].
      + exfalso. revert Hrun. rewrite put_workflow_run, update_route_run. cbv zeta.
        rewrite Hold. destruct (fault w _); intros [= <- <-]; discriminate. }
  split.
  - intros req w r w' Hrun Hst Hs Hc. revert Hrun.
    rewrite post_workflows_run, create_route_run. unfold input_of.
    destruct (user req) as [u|]; [|intros [= <- <-]; discriminate].
    destruct (zod_parse _ _) as [issues|data] eqn:Hparse;
      [intros [= <- <-]; discriminate|].
    cbv zeta. destruct (fault w _); [intros [= <- <-]; discriminate|].
    destruct (new_row workflows w data !! "id") as [[| | |id| | | | | |]|];
      try (intros [= <- <-]; discriminate).
    destruct (rows w workflows !! id); [intros [= <- <-]; discriminate|].
    intros Hrun. apply audit_step_inv in Hrun as [-> _]; [|lia].
    assert (Hstatus : new_row workflows w data !! "status" = Some (VStr "pending")).
    { rewrite new_row_lookup.
      change (find_column "status" (columns workflows))
        with (Some (defaults_to (DConst (VStr "pending"))
                      (col "status" (TEnum workflowStatusEnum)))).
      cbn [fmap option_fmap option_map]. unfold column_value.
      cbn [col_name col_default defaults_to col].
      rewrite (zod_parse_inr _ _ _ Hparse), zod_output_lookup.
      rewrite lookup_insert_ne by discriminate. rewrite Hs.
      destruct (bool_decide _); reflexivity. }
    assert (Hdate : new_row workflows w data !! "completedDate" = Some VNull).
    { rewrite new_row_lookup.
      change (find_column "completedDate" (columns workflows))
        with (Some (col "completedDate" TTimestamp)).
      cbn [fmap option_fmap option_map]. unfold column_value.
      cbn [col_name col_default defaults_to col].
      rewrite (zod_parse_inr _ _ _ Hparse), zod_output_lookup.
      rewrite lookup_insert_ne by discriminate. rewrite Hc.
      destruct (bool_decide _); reflexivity. }
    eexists. split; [reflexivity|]. split; [exact Hstatus|]. split; [exact Hdate|].
    unfold completion_invariant, completed_set, is_final. rewrite Hstatus, Hdate.
    reflexivity.
  - intros req w r w' old Hrun Hst Hold. revert Hrun.
    rewrite put_workflow_run, update_route_run. cbv zeta. rewrite Hold.
    destruct (fault w _); [intros [= <- <-]; discriminate|].
    destruct (zod_parse _ _) as [issues|data] eqn:Hparse;
      [intros [= <- <-]; discriminate|].
    destruct (fault w _); [intros [= <- <-]; discriminate|].
    intros Hrun. apply audit_step_inv in Hrun as [-> Hw]; [|lia].
    eexists. split; [reflexivity|]. split.
    + destruct (actor req); [destruct Hw as [_ ->]|subst w'];
        cbn [rows append_audit log_call]; rewrite rows_set_table; apply lookup_insert_eq.
    + rewrite (updated_lookup workflows _ _ _ "status"
                 (defaults_to (DConst (VStr "pending"))
                    (col "status" (TEnum workflowStatusEnum))))
        by (reflexivity || discriminate).
      rewrite (updated_lookup workflows _ _ _ "completedDate"
                 (col "completedDate" TTimestamp))
        by (reflexivity || discriminate).
      rewrite (zod_parse_inr _ _ _ Hparse), !zod_output_lookup.
      unfold merged. split.
      * destruct (body req !! "status"), (old !! "status"); reflexivity.
      * destruct (body req !! "completedDate"), (old !! "completedDate"); reflexivity.
Qed.

End Workflows.

(** ** Location updates *)

Section Locations.
Context `{Platform}.

Lemma put_asset_location_shape :
  put_asset_location =
  location_route assets "location" "asset" "Asset not found"
    "You don't have permission to update this asset's location"
    "Failed to update asset location"
    (fun existingAsset userId =>
       differs (existingAsset !! "custodianId") userId
       && differs (existingAsset !! "createdBy") userId).
Proof. reflexivity. Qed.

Lemma put_staff_location_shape :
  put_staff_location =
  location_route staff "officeLocation" "staff" "Staff member not found"
    "You can only update your own office location"
    "Failed to update staff location"
    (fun existingStaff userId => differs (existingStaff !! "userId") userId).
Proof. reflexivity. Qed.

Lemma bounded_number_fin lo hi v n :
  bounded_number lo hi v = Some n ->
  exists q, v = Some (VNum (Fin q)) /\ n = Fin q.
Proof.
  unfold bounded_number. destruct v as [[| |x| | | | | | |]|]; try discriminate.
  destruct x as [| | |q]; try (cbn; discriminate).
  destruct (_ && _); [|discriminate]. intros [= <-]. eauto.
Qed.

Lemma snapshot_lookup column (r : Row) : snapshot column r !! column = r !! column.
Proof.
  unfold snapshot. destruct (r !! column) eqn:Hr.
  - apply lookup_singleton_eq.
  - apply lookup_empty.
Qed.

(** C9. Every successful location update made by an authenticated actor
    leaves exactly one more audit record, of action [location_update]: its
    old values hold what the location column held before (a point, or
    null), its new values hold the coordinates just set; the entity that is
    returned and stored holds the new point in its one location column. *)
Theorem location_update_audited_once req w :
  is_Some (actor req) ->
  (status <$> response_of (put_asset_location req w) = Some 200 ->
   exists r, response_of (put_asset_location req w) = Some r
             /\ location_audited assets "location" "asset" req w
                  (put_asset_location req w).2 r)
  /\
  (status <$> response_of (put_staff_location req w) = Some 200 ->
   exists r, response_of (put_staff_location req w) = Some r
             /\ location_audited staff "officeLocation" "staff" req w
                  (put_staff_location req w).2 r).
Proof.
  intros Hactor.
  enough (forall t column entity missing refusal failure forbidden r w',
            column <> "updatedAt" ->
            find_column column (columns t) = Some (col column TGeometry) ->
            is_Some (actor req) ->
            location_route t column entity missing refusal failure forbidden req w
              = (Ok r, w') ->
            status r = 200 ->
            location_audited t column entity req w w' r) as Hgen.
  { split; intros Hok; destruct (run_inv _ _ Hok) as (r & w' & Hrun & Hst);
      exists r; rewrite Hrun; (split; [reflexivity|]); cbn [snd].
    - rewrite put_asset_location_shape in Hrun.
      eapply Hgen; [discriminate|reflexivity|exact Hactor|exact Hrun|exact Hst].
    - rewrite put_staff_location_shape in Hrun.
      eapply Hgen; [discriminate|reflexivity|exact Hactor|exact Hrun|exact Hst]. }
  clear Hactor. intros t column entity missing refusal failure forbidden r w'.
  intros Hcol Hgeom [uid Huid]. unfold location_route, try_catch. rewrite bind_run.
  unfold parse_location.
  destruct (bounded_number (-180) 180 (body req !! "longitude")) as [longitude|] eqn:Hlng;
    destruct (bounded_number (-90) 90 (body req !! "latitude")) as [latitude|] eqn:Hlat;
    try (intros [= <- <-]; discriminate).
  apply bounded_number_fin in Hlng as (lng & Hlng & ->).
  apply bounded_number_fin in Hlat as (lat & Hlat & ->).
  rewrite ret_run. cbv beta iota. rewrite bind_run, db_select_by_id_run.
  destruct (fault w (SelectById t (params_id req))); [intros [= <- <-]; discriminate|].
  destruct (rows w t !! params_id req) as [old|] eqn:Hold;
    [|intros [= <- <-]; discriminate].
  cbv beta iota. rewrite bind_run. unfold user_sub.
  assert (Huser : exists u, user req = Some u /\ sub (claims u) = uid).
  { unfold actor in Huid. destruct (user req) as [u|]; [|discriminate].
    exists u. split; [reflexivity|]. unfold truthy_string in Huid.
    destruct (sub (claims u)) as [|a s]; [discriminate|]. congruence. }
  destruct Huser as (u & -> & Hsub). rewrite ret_run. cbv beta iota.
  destruct (forbidden old (sub (claims u))); [intros [= <- <-]; discriminate|].
  rewrite bind_run. unfold update_location. rewrite bind_run, touch_run. cbv beta iota.
  rewrite db_update_run. cbv zeta. cbn [rows fault clock log_call]. rewrite Hold.
  destruct (fault w (UpdateRow t _ _)); [intros [= <- <-]; discriminate|].
  cbv beta iota. rewrite bind_run, createAuditLog_run, Huid. cbv zeta.
  cbn [fault set_table log_call].
  destruct (fault w (InsertAudit _)); [intros [= <- <-]; discriminate|].
  intros [= <- <-] _.
  eexists old, lng, lat, _, _. split; [exact Hold|].
  split; [exact Hlng|]. split; [exact Hlat|]. split; [reflexivity|].
  split; [cbn [rows append_audit log_call]; rewrite rows_set_table; apply lookup_insert_eq|].
  split.
  { rewrite (updated_lookup t _ _ _ column _ Hcol Hgeom) by discriminate.
    rewrite lookup_singleton_eq. reflexivity. }
  split; [reflexivity|]. cbn [action entityType entityId userId oldValues newValues audit_entry].
  split; [reflexivity|]. split; [reflexivity|]. split; [reflexivity|].
  split; [symmetry; exact Huid|]. split.
  - eexists. split; [reflexivity|]. apply snapshot_lookup.
  - eexists. split; [reflexivity|]. apply lookup_singleton_eq.
Qed.

End Locations.

(** ** Proximity queries *)

Section Sorting.
Context {A : Type} (leb : A -> A -> bool).
Hypothesis leb_total : forall a b, leb a b = false -> leb b a = true.
Hypothesis leb_trans : forall a b c, leb a b = true -> leb b c = true -> leb a c = true.

Lemma elem_of_insert_sorted x y l : y ∈ insert_sorted leb x l <-> y = x \/ y ∈ l.
Proof.
  induction l as [|z l IH]; cbn.
  - rewrite list_elem_of_singleton, elem_of_nil. tauto.
  - destruct (leb x z).
    + rewrite elem_of_cons. tauto.
    + rewrite !elem_of_cons, IH. tauto.
Qed.

Lemma elem_of_order_by y l : y ∈ order_by leb l <-> y ∈ l.
Proof.
  unfold order_by. induction l as [|x l IH]; cbn.
  - tauto.
  - rewrite elem_of_insert_sorted, elem_of_cons, IH. tauto.
Qed.



End Sorting.

Section Proximity.
Context `{Platform}.

Lemma Qle_bool_false x y : Qle_bool x y = false <-> (y < x)%Q.
Proof.
  split.
  - intros Hf. apply Qnot_le_lt. intros Hle. apply Qle_bool_iff in Hle. congruence.
  - intros Hlt. destruct (Qle_bool x y) eqn:Hb; [|reflexivity].
    apply Qle_bool_iff in Hb. exfalso. exact (Qlt_not_le _ _ Hlt Hb).
Qed.

Lemma range_check lo hi n :
  isNaN n = false ->
  (num_lt n (lit lo) || num_gt n (lit hi) = false <-> within lo hi n).
Proof.
  destruct n as [| | |q]; cbn; try discriminate; intros _; try (split; [discriminate|tauto]).
  rewrite orb_false_iff, !negb_false_iff, !Qle_bool_iff. tauto.
Qed.

Lemma radius_check n :
  isNaN n = false ->
  (num_le n (lit 0) || num_gt n (lit 100000) = false <-> radius_allowed n).
Proof.
  destruct n as [| | |q]; cbn -[inject_Z]; try discriminate; intros _;
    try (split; [discriminate|tauto]).
  rewrite orb_false_iff, negb_false_iff, Qle_bool_iff, Qle_bool_false. tauto.
Qed.

Lemma within_not_NaN lo hi n : within lo hi n -> isNaN n = false.
Proof. destruct n; cbn; tauto. Qed.

Lemma radius_allowed_not_NaN n : radius_allowed n -> isNaN n = false.
Proof. destruct n; cbn; tauto. Qed.

Lemma select_near_run t column longitude latitude radiusMeters w :
  select_near t column longitude latitude radiusMeters w =
  let w1 := log_call (SelectNear t longitude latitude radiusMeters) w in
  if fault w (SelectNear t longitude latitude radiusMeters) then (Throw StoreError, w1)
  else
    match longitude, latitude, radiusMeters with
    | Fin lng, Fin lat, Fin radius =>
        (Ok (order_by by_distance (omap (near_row column lng lat radius) (table_rows w t))),
         w1)
    | _, _, _ => (Throw StoreError, w1)
    end.
Proof.
  unfold select_near. rewrite bind_run, call_run.
  destruct (fault w _); [reflexivity|].
  destruct longitude, latitude, radiusMeters; reflexivity.
Qed.

Lemma spatial_search_run near failure req w :
  spatial_search near failure req w =
  match truthy_string (query req !! "lng"),
        truthy_string (query req !! "lat"),
        truthy_string (query req !! "radius") with
  | Some lng, Some lat, Some radius =>
      let longitude := parseFloat lng in
      let latitude := parseFloat lat in
      let radiusMeters := parseFloat radius in
      if isNaN longitude || isNaN latitude || isNaN radiusMeters then
        (Ok {| status := 400; payload := Message "Invalid coordinate or radius values" |}, w)
      else if num_lt longitude (lit (-180)) || num_gt longitude (lit 180) then
        (Ok {| status := 400;
               payload := Message "Longitude must be between -180 and 180" |}, w)
      else if num_lt latitude (lit (-90)) || num_gt latitude (lit 90) then
        (Ok {| status := 400; payload := Message "Latitude must be between -90 and 90" |}, w)
      else if num_le radiusMeters (lit 0) || num_gt radiusMeters (lit 100000) then
        (Ok {| status := 400;
               payload := Message "Radius must be between 0 and 100,000 meters" |}, w)
      else
        match near longitude latitude radiusMeters w with
        | (Ok nearby, w') => (Ok {| status := 200; payload := Entities nearby |}, w')
        | (Throw _, w') => (Ok (failed failure), w')
        end
  | _, _, _ =>
      (Ok {| status := 400;
             payload := Message "longitude, latitude, and radius are required" |}, w)
  end.
Proof.
  unfold spatial_search, try_catch.
  destruct (truthy_string (query req !! "lng")) as [lng|]; [|reflexivity].
  destruct (truthy_string (query req !! "lat")) as [lat|]; [|reflexivity].
  destruct (truthy_string (query req !! "radius")) as [radius|]; [|reflexivity].
  cbv zeta.
  destruct (isNaN _ || isNaN _ || isNaN _); [reflexivity|].
  destruct (num_lt _ _ || num_gt _ _); [reflexivity|].
  destruct (num_lt _ _ || num_gt _ _); [reflexivity|].
  destruct (num_le _ _ || num_gt _ _); [reflexivity|].
  rewrite bind_run. destruct (near _ _ _ w) as [[nearby|e] w']; reflexivity.
Qed.

(** C3. A proximity query whose three parameters are not all present and
    in range is answered 400 without any storage call, and one whose
    parameters are all in range goes on to the store.  When the three
    parameters are numbers, the message is the one of the first that is
    out of range: longitude outside [-180, 180], then latitude outside
    [-90, 90], then radius outside (0, 100000]. *)
Theorem near_validates_before_querying e req w :
  let out := spatial e req w in
  (forall longitude latitude radiusMeters,
     valid_query req longitude latitude radiusMeters ->
     trace out.2 =
       (trace w ++ [SelectNear (spatial_table e) longitude latitude radiusMeters])%list)
  /\
  ((forall longitude latitude radiusMeters,
      ~ valid_query req longitude latitude radiusMeters) ->
   exists message, rejected out w message)
  /\
  (forall lng lat radius,
     truthy_string (query req !! "lng") = Some lng ->
     truthy_string (query req !! "lat") = Some lat ->
     truthy_string (query req !! "radius") = Some radius ->
     isNaN (parseFloat lng) = false ->
     isNaN (parseFloat lat) = false ->
     isNaN (parseFloat radius) = false ->
     (~ within (-180) 180 (parseFloat lng) ->
      rejected out w "Longitude must be between -180 and 180")
     /\
     (within (-180) 180 (parseFloat lng) -> ~ within (-90) 90 (parseFloat lat) ->
      rejected out w "Latitude must be between -90 and 90")
     /\
     (within (-180) 180 (parseFloat lng) -> within (-90) 90 (parseFloat lat) ->
      ~ radius_allowed (parseFloat radius) ->
      rejected out w "Radius must be between 0 and 100,000 meters")).
Proof.
  enough (forall t column failure,
      let out := spatial_search (select_near t column) failure req w in
      (forall longitude latitude radiusMeters,
         valid_query req longitude latitude radiusMeters ->
         trace out.2 = (trace w ++ [SelectNear t longitude latitude radiusMeters])%list)
      /\
      ((forall longitude latitude radiusMeters,
          ~ valid_query req longitude latitude radiusMeters) ->
       exists message, rejected out w message)
      /\
      (forall lng lat radius,
         truthy_string (query req !! "lng") = Some lng ->
         truthy_string (query req !! "lat") = Some lat ->
         truthy_string (query req !! "radius") = Some radius ->
         isNaN (parseFloat lng) = false ->
         isNaN (parseFloat lat) = false ->
         isNaN (parseFloat radius) = false ->
         (~ within (-180) 180 (parseFloat lng) ->
          rejected out w "Longitude must be between -180 and 180")
         /\
         (within (-180) 180 (parseFloat lng) -> ~ within (-90) 90 (parseFloat lat) ->
          rejected out w "Latitude must be between -90 and 90")
         /\
         (within (-180) 180 (parseFloat lng) -> within (-90) 90 (parseFloat lat) ->
          ~ radius_allowed (parseFloat radius) ->
          rejected out w "Radius must be between 0 and 100,000 meters"))) as Hgen
    by (destruct e; apply Hgen).
  clear e. intros t column failure.
  cbv zeta. unfold rejected. rewrite spatial_search_run. split; [|split].
  - intros longitude latitude radiusMeters
           (lng & lat & radius & -> & -> & -> & -> & -> & -> & Hlng & Hlat & Hr).
    cbv zeta.
    rewrite (within_not_NaN _ _ _ Hlng), (within_not_NaN _ _ _ Hlat),
            (radius_allowed_not_NaN _ Hr). cbn [orb].
    apply range_check in Hlng as ->; [|eapply within_not_NaN; eassumption].
    apply range_check in Hlat as ->; [|eapply within_not_NaN; eassumption].
    apply radius_check in Hr as ->; [|eapply radius_allowed_not_NaN; eassumption].
    rewrite select_near_run. cbv zeta.
    destruct (fault w _); [reflexivity|].
    destruct (parseFloat lng), (parseFloat lat), (parseFloat radius); reflexivity.
  - intros Hinvalid.
    destruct (truthy_string (query req !! "lng")) as [lng|] eqn:Elng; [|eauto].
    destruct (truthy_string (query req !! "lat")) as [lat|] eqn:Elat; [|eauto].
    destruct (truthy_string (query req !! "radius")) as [radius|] eqn:Eradius; [|eauto].
    cbv zeta.
    destruct (isNaN (parseFloat lng)) eqn:N1; [eauto|].
    destruct (isNaN (parseFloat lat)) eqn:N2; [eauto|].
    destruct (isNaN (parseFloat radius)) eqn:N3; [eauto|]. cbn [orb].
    destruct (num_lt (parseFloat lng) _ || _) eqn:C1; [eauto|].
    destruct (num_lt (parseFloat lat) _ || _) eqn:C2; [eauto|].
    destruct (num_le (parseFloat radius) _ || _) eqn:C3; [eauto|].
    exfalso. apply (Hinvalid (parseFloat lng) (parseFloat lat) (parseFloat radius)).
    exists lng, lat, radius.
    split; [exact Elng|]. split; [exact Elat|]. split; [exact Eradius|].
    split; [reflexivity|]. split; [reflexivity|]. split; [reflexivity|].
    split; [apply range_check; assumption|].
    split; [apply range_check; assumption|]. apply radius_check; assumption.
  - intros lng lat radius -> -> -> N1 N2 N3. cbv zeta. rewrite N1, N2, N3. cbn [orb].
    pose proof (range_check (-180) 180 _ N1) as R1.
    pose proof (range_check (-90) 90 _ N2) as R2.
    pose proof (radius_check _ N3) as R3.
    destruct (num_lt (parseFloat lng) _ || _).
    { split; [reflexivity|]. split; intros W; exfalso; destruct R1 as [_ R1];
        specialize (R1 W); discriminate. }
    destruct R1 as [R1 _]. specialize (R1 eq_refl).
    split; [intros W; contradiction|].
    destruct (num_lt (parseFloat lat) _ || _).
    { split; [reflexivity|]. intros _ W. exfalso. destruct R2 as [_ R2].
      specialize (R2 W). discriminate. }
    destruct R2 as [R2 _]. specialize (R2 eq_refl).
    split; [intros _ W; contradiction|].
    destruct (num_le (parseFloat radius) _ || _).
    { reflexivity. }
    destruct R3 as [R3 _]. specialize (R3 eq_refl). intros _ _ W. contradiction.
Qed.

End Proximity.

Section ProximityResults.
Context `{Platform}.








End ProximityResults.

(** ** Listings *)

Section Listings.
Context `{Platform}.

Lemma limit_offset_world {A} limit offset (l : list A) w : (limit_offset limit offset l w).2 = w.
Proof. unfold limit_offset. destruct (_ ≫= _); reflexivity. Qed.

Lemma select_page_world t conditions column limit offset w :
  (select_page t conditions column limit offset w).2 = w.
Proof.
  unfold select_page. rewrite bind_run. unfold get_world at 1. cbv beta iota zeta.
  rewrite bind_run.
  pose proof (limit_offset_world limit offset
    (order_by (fun a b => desc (timestamp_of column a) (timestamp_of column b))
       (List.filter conditions (table_rows w t))) w) as Hw.
  destruct (limit_offset _ _ _ w) as [[items|e] w']; cbn in Hw; subst w'; reflexivity.
Qed.

Lemma paged_world {A} (c : StoreCall) (page : M (A * Z)) (answer : A -> Z -> Payload)
    failure w :
  (forall w0, (page w0).2 = w0) ->
  (try_catch
     ('(items, total) ← (call c;; page); respond 200 (answer items total))
     (on_failure failure) w).2 = log_call c w.
Proof.
  intros Hpage. unfold try_catch. rewrite !bind_run, call_run.
  destruct (fault w c); [reflexivity|]. cbv beta iota.
  specialize (Hpage (log_call c w)).
  destruct (page (log_call c w)) as [[[items total]|e] w']; cbn in Hpage; subst w';
    reflexivity.
Qed.

Lemma listing_world l req w :
  (listing l req w).2 =
  log_call (listing_call l req (or_default (parseInt (query req !! "limit")) (page_size l))
                         (or_default (parseInt (query req !! "offset")) 0)) w.
Proof.
  destruct l; cbn [listing listing_call page_size];
    [ unfold get_assets, getAssets | unfold get_staff, getStaffMembers
    | unfold get_documents, getDocuments | unfold get_workflows, getWorkflows
    | unfold get_audit_logs, getAuditLogs | unfold get_work_orders, getWorkOrders ];
    cbv zeta; apply paged_world; intros w0; try apply select_page_world.
  { destruct (truthy_string _); [destruct (bool_decide _)|];
      try apply select_page_world. reflexivity. }
  rewrite bind_run. unfold get_world at 1. cbv beta iota. rewrite bind_run.
  pose proof (limit_offset_world
    (or_default (parseInt (query req !! "limit")) 50)
    (or_default (parseInt (query req !! "offset")) 0)
    (order_by (fun a b => log_timestamp b <=? log_timestamp a) (auditLogs w0)) w0) as Hw.
  destruct (limit_offset _ _ _ w0) as [[logs|e] w']; cbn in Hw; subst w'; reflexivity.
Qed.

(** C10. Every listing makes one storage call.  Its limit is the query
    parameter as [parseInt] reads it, replaced by the default page size (20,
    or 50 for the audit log) when that is NaN or 0, so it is never 0; its
    offset is the parsed parameter, replaced by 0 when that is NaN (an
    absent parameter parses as NaN). *)
Theorem listing_limit_and_offset_defaults l req w :
  exists limit offset,
    trace (listing l req w).2 = (trace w ++ [listing_call l req limit offset])%list
    /\ falsy limit = false
    /\ (parseInt (query req !! "limit") = NaN \/ parseInt (query req !! "limit") = lit 0 ->
        limit = lit (page_size l))
    /\ (falsy (parseInt (query req !! "limit")) = false ->
        limit = parseInt (query req !! "limit"))
    /\ (parseInt (query req !! "offset") = NaN -> offset = lit 0)
    /\ (falsy (parseInt (query req !! "offset")) = false ->
        offset = parseInt (query req !! "offset"))
    /\ (query req !! "limit" = None -> limit = lit (page_size l))
    /\ (query req !! "offset" = None -> offset = lit 0).
Proof.
  exists (or_default (parseInt (query req !! "limit")) (page_size l)),
         (or_default (parseInt (query req !! "offset")) 0).
  rewrite listing_world. split; [reflexivity|].
  unfold or_default.
  split.
  { destruct (falsy (parseInt (query req !! "limit"))) eqn:Hf; [|exact Hf].
    destruct l; reflexivity. }
  split.
  { intros [->| ->]; reflexivity. }
  split.
  { intros ->. reflexivity. }
  split.
  { intros ->. reflexivity. }
  split.
  { intros ->. reflexivity. }
  split; intros ->; reflexivity.
Qed.

End Listings.

(** ** Identifiers *)

Section Identifiers.
Context `{Platform}.

Lemma digit_inj a b : 0 <= a <= 9 -> 0 <= b <= 9 -> digit a = digit b -> a = b.
Proof.
  intros Ha Hb Hd. unfold digit in Hd.
  apply (f_equal nat_of_ascii) in Hd.
  rewrite !nat_ascii_embedding in Hd by lia. lia.
Qed.

Lemma decimal4 a :
  a = 1000 * (a / 1000) + 100 * (a / 100 mod 10) + 10 * (a / 10 mod 10) + a mod 10.
Proof.
  replace (a / 1000) with (a / 10 / 10 / 10) by (rewrite !Z.div_div by lia; reflexivity).
  replace (a / 100) with (a / 10 / 10) by (rewrite Z.div_div by lia; reflexivity).
  pose proof (Z.div_mod a 10 ltac:(lia)).
  pose proof (Z.div_mod (a / 10) 10 ltac:(lia)).
  pose proof (Z.div_mod (a / 10 / 10) 10 ltac:(lia)).
  lia.
Qed.

(** Below 10000 the pattern prints four digits, and two numbers that print
    alike are the same. *)
Lemma to_char_FM0000_inj a b :
  0 <= a < 10000 -> 0 <= b < 10000 ->
  to_char_FM0000 a = to_char_FM0000 b -> a = b.
Proof.
  intros Ha Hb. unfold to_char_FM0000, to_char_digits.
  destruct (Z.ltb_spec a 0); [lia|]. destruct (Z.ltb_spec b 0); [lia|].
  destruct (Z.ltb_spec a 10000); [|lia]. destruct (Z.ltb_spec b 10000); [|lia].
  intros [= E3 E2 E1 E0].
  assert (Hdiv : forall x, 0 <= x < 10000 -> 0 <= x / 1000 <= 9).
  { intros x Hx. split; [apply Z.div_pos; lia|].
    apply Z.lt_succ_r. apply Z.div_lt_upper_bound; lia. }
  assert (Hmod : forall x, 0 <= x mod 10 <= 9).
  { intros x. pose proof (Z.mod_pos_bound x 10 ltac:(lia)). lia. }
  apply digit_inj in E3; [|apply Hdiv; lia..].
  apply digit_inj in E2; [|apply Hmod..].
  apply digit_inj in E1; [|apply Hmod..].
  apply digit_inj in E0; [|apply Hmod..].
  rewrite (decimal4 a), (decimal4 b). congruence.
Qed.

End Identifiers.

Section IdentifierCollision.
Context `{Platform}.

Lemma insertAssetSchema_strips_id input data :
  zod_parse insertAssetSchema input = inr data -> data !! "id" = None.
Proof.
  intros Hparse. rewrite (zod_parse_inr _ _ _ Hparse), zod_output_lookup. reflexivity.
Qed.

Lemma new_asset_id w (data : Row) :
  data !! "id" = None ->
  new_row assets w data !! "id" = Some (VStr ("AST-" +:+ to_char_FM0000 (seqs w assets))).
Proof.
  intros Hid. rewrite new_row_lookup.
  change (find_column "id" (columns assets))
    with (Some (defaults_to (DSeqId "AST-") (primaryKey (col "id" TVarchar)))).
  cbn [fmap option_fmap option_map]. unfold column_value.
  cbn [col_name col_default defaults_to primaryKey notNull col]. rewrite Hid. reflexivity.
Qed.

Lemma new_asset_draws_the_sequence (data : Row) w :
  data !! "id" = None ->
  seqs (draw_defaults assets data w) assets = seqs w assets + 1.
Proof.
  intros Hid. unfold draw_defaults.
  cbn [columns assets_columns foldr col_default col_name defaults_to primaryKey notNull col].
  rewrite Hid. cbn [seqs nextval]. destruct (decide (assets = assets)); congruence.
Qed.

Lemma seqs_audit_step req e ok failure w r w' :
  audit_step req e ok failure w = (Ok r, w') -> seqs w' = seqs w.
Proof.
  unfold audit_step. destruct (actor req) as [uid|].
  - destruct (fault w _); intros [= _ <-]; reflexivity.
  - intros [= _ <-]. reflexivity.
Qed.

Lemma rows_audit_step req e ok failure w r w' :
  audit_step req e ok failure w = (Ok r, w') -> rows w' = rows w.
Proof.
  unfold audit_step. destruct (actor req) as [uid|].
  - destruct (fault w _); intros [= _ <-]; reflexivity.
  - intros [= _ <-]. reflexivity.
Qed.

Lemma to_char_FM0000_10000 : to_char_FM0000 10000 = "####".
Proof. reflexivity. Qed.

Lemma to_char_FM0000_10001 : to_char_FM0000 10001 = "####".
Proof. reflexivity. Qed.

Lemma seqs_set_table t m w : seqs (set_table t m w) = seqs w.
Proof. reflexivity. Qed.

Lemma seqs_log_call c w : seqs (log_call c w) = seqs w.
Proof. reflexivity. Qed.

Lemma post_assets_run req w :
  post_assets req w =
  create_route assets insertAssetSchema "asset" "Failed to create asset"
               (Some "createdBy") req w.
Proof. exact (route_shape PostAssets req w). Qed.

(** C5 where the pattern runs out of digits.  The asset created when the
    sequence stands at 10000 gets the identifier AST-####; the sequence
    moves on to 10001, whose identifier is AST-#### again, so that no later
    creation succeeds. *)
Theorem identifiers_collide_from_10000 req w :
  seqs w assets = 10000 ->
  status <$> response_of (post_assets req w) = Some 201 ->
  (exists row, payload <$> response_of (post_assets req w) = Some (Entity (Some row))
               /\ row_id row = "AST-####")
  /\ seqs (post_assets req w).2 assets = 10001
  /\ (forall req',
        status <$> response_of (post_assets req' (post_assets req w).2) <> Some 201).
Proof.
  intros Hseq Hok. destruct (run_inv _ _ Hok) as (r & w' & Hrun & Hst).
  enough ((exists row, payload r = Entity (Some row) /\ row_id row = "AST-####")
          /\ seqs w' assets = 10001
          /\ (forall req' r' w'', post_assets req' w' = (Ok r', w'') -> status r' <> 201))
    as ((row & Hrow & Hid) & Hnext & Hlater).
  { rewrite Hrun. cbn [snd]. split; [|split; [exact Hnext|]].
    - exists row. cbn. rewrite Hrow. split; [reflexivity|exact Hid].
    - intros req' Hok'. destruct (run_inv _ _ Hok') as (r' & w'' & Hrun' & Hst').
      exact (Hlater req' r' w'' Hrun' Hst'). }
  clear Hok. revert Hseq Hrun Hst.
  intros Hseq. rewrite post_assets_run, create_route_run.
  destruct (input_of _ req) as [input|]; [|intros [= <- <-]; discriminate].
  destruct (zod_parse insertAssetSchema input) as [issues|data] eqn:Hparse;
    [intros [= <- <-]; discriminate|].
  cbv zeta.
  destruct (fault w _); [intros [= <- <-]; discriminate|].
  pose proof (insertAssetSchema_strips_id _ _ Hparse) as Hnone.
  rewrite (new_asset_id w data Hnone), Hseq, to_char_FM0000_10000.
  destruct (rows w assets !! _) eqn:Hfresh; [intros [= <- <-]; discriminate|].
  intros Hrun Hst.
  pose proof (seqs_audit_step _ _ _ _ _ _ _ Hrun) as Hseqs.
  pose proof (rows_audit_step _ _ _ _ _ _ _ Hrun) as Hrows.
  apply audit_step_inv in Hrun as [-> _]; [|lia].
  assert (Hnext : seqs w' assets = 10001).
  { rewrite Hseqs, seqs_set_table, (new_asset_draws_the_sequence data _ Hnone),
            seqs_log_call, Hseq. reflexivity. }
  split; [|split; [exact Hnext|]].
  - eexists. split; [reflexivity|]. unfold row_id.
    rewrite (new_asset_id w data Hnone), Hseq, to_char_FM0000_10000. reflexivity.
  - intros req' r' w''. rewrite post_assets_run, create_route_run.
    destruct (input_of _ req') as [input'|]; [|intros [= <- <-]; discriminate].
    destruct (zod_parse insertAssetSchema input') as [issues|data'] eqn:Hparse';
      [intros [= <- <-]; discriminate|].
    cbv zeta.
    destruct (fault w' _); [intros [= <- <-]; discriminate|].
    pose proof (insertAssetSchema_strips_id _ _ Hparse') as Hnone'.
    rewrite (new_asset_id w' data' Hnone'), Hnext, to_char_FM0000_10001.
    rewrite Hrows, rows_set_table, lookup_insert_eq.
    intros [= <- <-]. discriminate.
Qed.

End IdentifierCollision.


(** * The properties on the sample runs *)

(** The scenario of the specification: the first asset is AST-1000 and its
    creation is audited; setting its location is audited as a
    [location_update]; a proximity query around the point finds it. *)
Example scenario :
  row_id (answer_row created) = "AST-1000"
  /\ (action ∘ log_entry) <$> auditLogs created.2 = ["create"]
  /\ (action ∘ log_entry) <$> auditLogs moved.2 = ["create"; "location_update"]
  /\ answer_row moved !! "location" = Some (VGeom (inject_Z 1) (inject_Z 0))
  /\ status <$> response_of (found "100") = Some 200
  /\ match payload (answer (found "100")) with
     | Entities [item] => row_id item = "AST-1000"
     | _ => False
     end.
Proof. vm_compute. repeat split. Qed.



(** C2 on the creation of an asset by alice, and on an update without a
    session: the asset is renamed and the audit table stays as it was. *)
Lemma mutation_audited_once_witness :
  exists r id,
    response_of (@route sample_platform PostAssets generator_request (empty_world 0)) = Some r
    /\ mutated PostAssets generator_request r id (empty_world 0)
         (@route sample_platform PostAssets generator_request (empty_world 0)).2
    /\ audited PostAssets generator_request id (empty_world 0)
         (@route sample_platform PostAssets generator_request (empty_world 0)).2.
Proof.
  apply (@mutation_audited_once sample_platform PostAssets generator_request (empty_world 0)).
  vm_compute. reflexivity.
Defined.

Example anonymous_update_is_not_audited :
  status <$> response_of (@put_asset sample_platform anonymous_update_request created.2) = Some 200
  /\ (rows (@put_asset sample_platform anonymous_update_request created.2).2 assets !! "AST-1000")
       ≫= (fun r => r !! "name") = Some (VStr "Pump")
  /\ (action ∘ log_entry) <$> auditLogs (@put_asset sample_platform anonymous_update_request created.2).2
     = (action ∘ log_entry) <$> auditLogs created.2.
Proof. vm_compute. repeat split. Qed.

(** C3 on the two queries of the specification: lng=200 is answered with
    the message about the longitude, radius=200000 with the one about the
    radius. *)
Lemma near_validates_before_querying_witness :
  rejected (@spatial sample_platform SpatialAssets far_longitude_request moved.2) moved.2
           "Longitude must be between -180 and 180"
  /\ rejected (@spatial sample_platform SpatialAssets (near_request "200000") moved.2) moved.2
              "Radius must be between 0 and 100,000 meters".
Proof.
  split.
  - apply (proj2 (proj2 (@near_validates_before_querying sample_platform SpatialAssets
                           far_longitude_request moved.2))
             "200" "0" "100"); try reflexivity.
    vm_compute. intros [_ Hle]. apply Hle. reflexivity.
  - apply (proj2 (proj2 (@near_validates_before_querying sample_platform SpatialAssets
                           (near_request "200000") moved.2))
             "1" "0" "200000"); try reflexivity.
    + vm_compute. split; discriminate.
    + vm_compute. split; discriminate.
    + vm_compute. intros [_ Hle]. apply Hle. reflexivity.
Defined.



(** C5 on the store whose sequence stands at 10000. *)
Lemma identifiers_collide_from_10000_witness :
  (exists row,
     payload <$> response_of (@post_assets sample_platform generator_request world_at_10000)
       = Some (Entity (Some row))
     /\ row_id row = "AST-####")
  /\ seqs (@post_assets sample_platform generator_request world_at_10000).2 assets = 10001
  /\ (forall req',
        status <$> response_of
          (@post_assets sample_platform req'
             (@post_assets sample_platform generator_request world_at_10000).2)
        <> Some 201).
Proof.
  apply (@identifiers_collide_from_10000 sample_platform generator_request world_at_10000).
  - reflexivity.
  - vm_compute. reflexivity.
Defined.

(** C6 fails on the code: the workflow WFL-1000, created pending without a
    completion date, is approved by an update that carries no completion
    date, and ends up approved with a null completion date. *)
Lemma approval_without_completion_date :
  status <$> response_of filed = Some 201
  /\ status <$> response_of approved = Some 200
  /\ answer_row approved !! "status" = Some (VStr "approved")
  /\ answer_row approved !! "completedDate" = Some VNull
  /\ (rows approved.2 workflows !! "WFL-1000") ≫= (fun r => r !! "status")
     = Some (VStr "approved")
  /\ (rows approved.2 workflows !! "WFL-1000") ≫= (fun r => r !! "completedDate")
     = Some VNull
  /\ ~ completion_invariant (answer_row approved).
Proof. vm_compute. repeat split. discriminate. Qed.

Lemma workflow_status_and_completion_are_written_apart_witness :
  exists old new,
    rows filed.2 workflows !! params_id approve_request = Some old
    /\ payload <$> response_of (@put_workflow sample_platform approve_request filed.2)
       = Some (Entity (Some new))
    /\ rows (@put_workflow sample_platform approve_request filed.2).2 workflows
         !! params_id approve_request = Some new
    /\ new !! "status" = merged "status" (body approve_request) old
    /\ new !! "completedDate" = merged "completedDate" (body approve_request) old.
Proof.
  apply (proj2 (@workflow_status_and_completion_are_written_apart sample_platform)
           approve_request filed.2).
  vm_compute. reflexivity.
Defined.

(** C7 fails on the code: with the audit table out of reach the creation is
    answered 500, and yet the asset AST-1000 is in the store. *)
Lemma audit_failure_masks_a_stored_asset :
  response_of (@post_assets sample_platform generator_request (refuse_audit (empty_world 0)))
    = Some (failed "Failed to create asset")
  /\ (rows (@post_assets sample_platform generator_request
              (refuse_audit (empty_world 0))).2 assets !! "AST-1000")
       ≫= (fun r => r !! "name") = Some (VStr "Generator").
Proof. vm_compute. repeat split. Qed.

Lemma audit_failure_is_reported_as_failure_witness :
  response_of (@route sample_platform PostAssets generator_request
                 (refuse_audit (empty_world 0)))
    = Some (failed (failure_of PostAssets))
  /\ rows (@route sample_platform PostAssets generator_request
             (refuse_audit (empty_world 0))).2
     = rows (@route sample_platform PostAssets generator_request (empty_world 0)).2
  /\ auditLogs (@route sample_platform PostAssets generator_request
                  (refuse_audit (empty_world 0))).2
     = auditLogs (empty_world 0).
Proof.
  apply (@audit_failure_is_reported_as_failure sample_platform PostAssets generator_request
           (empty_world 0)).
  - vm_compute. reflexivity.
  - exists "alice". reflexivity.
Defined.

(** C8 on the update of AST-4040, which does not exist. *)
Lemma update_of_unknown_id_is_not_found_witness :
  exists r w',
    @route sample_platform PutAsset unknown_update_request created.2 = (Ok r, w')
    /\ rows w' = rows created.2
    /\ auditLogs w' = auditLogs created.2
    /\ trace w' =
       (trace created.2 ++
          [SelectById (table_of PutAsset) (params_id unknown_update_request)])%list
    /\ status r <> 200
    /\ (fault created.2 (SelectById (table_of PutAsset) (params_id unknown_update_request))
          = false ->
        r = {| status := 404; payload := Message (not_found_of PutAsset) |}).
Proof.
  apply (@update_of_unknown_id_is_not_found sample_platform PutAsset unknown_update_request
           created.2).
  - reflexivity.
  - vm_compute. reflexivity.
Defined.

(** C9 on the move of AST-1000 to the point (1, 0). *)
Lemma location_update_audited_once_witness :
  exists r,
    response_of (@put_asset_location sample_platform move_request created.2) = Some r
    /\ location_audited assets "location" "asset" move_request created.2
         (@put_asset_location sample_platform move_request created.2).2 r.
Proof.
  apply (proj1 (@location_update_audited_once sample_platform move_request created.2
                  (ex_intro _ "alice" eq_refl))).
  vm_compute. reflexivity.
Defined.

(** C10 on the listings asked for with limit=0: the store is asked for the
    default page size. *)
Lemma listing_limit_and_offset_defaults_witness :
  parseInt (query zero_limit_request !! "limit") = lit 0
  /\ forall l, exists limit offset,
       trace (@listing sample_platform l zero_limit_request created.2).2
       = (trace created.2 ++ [listing_call l zero_limit_request limit offset])%list
       /\ limit = lit (page_size l) /\ offset = lit 0.
Proof.
  split; [reflexivity|]. intros l.
  destruct (@listing_limit_and_offset_defaults sample_platform l zero_limit_request created.2)
    as (limit & offset & Htrace & _ & Hlimit & _ & Hoffset & _).
  exists limit, offset. split; [exact Htrace|]. split.
  - apply Hlimit. right. reflexivity.
  - apply Hoffset. reflexivity.
Defined.

(** [parseInt] on a few parameters: a number followed by letters, a number
    after a no-break space (U+00A0, the bytes C2 A0), a hexadecimal number,
    a signed one, integers past 2^53, which are rounded to the nearest
    double, ties to even, and parameters without a number. *)
Lemma parseInt_examples :
  parseInt (Some " 42px") = lit 42
  /\ parseInt (Some (String (ascii_of_nat 194) (String (ascii_of_nat 160) " 2"))) = lit 2
  /\ parseInt (Some "0x1f") = lit 31
  /\ parseInt (Some "-7") = lit (-7)
  /\ parseInt (Some "+7") = lit 7
  /\ parseInt (Some "9007199254740993") = lit 9007199254740992
  /\ parseInt (Some "9007199254740995") = lit 9007199254740996
  /\ parseInt (Some "-0") = lit 0
  /\ parseInt (Some "") = NaN
  /\ parseInt (Some "ten") = NaN
  /\ parseInt (Some "- 1") = NaN
  /\ parseInt None = NaN.
Proof. vm_compute. repeat split. Qed.

(** * Further properties *)

(** ** The storage methods *)

Section StorageMethods.
Context `{Platform}.

Lemma create_in_insert t : create_in t = db_insert t.
Proof. destruct t; reflexivity. Qed.

Lemma update_in_update t id patch w :
  update_in t id patch w = db_update t id (<["updatedAt" := VDate (clock w)]> patch) w.
Proof.
  assert (update_in t id patch = (set ← touch patch; db_update t id set)) as ->
    by (destruct t; reflexivity).
  rewrite bind_run, touch_run. reflexivity.
Qed.

Lemma get_in_select t get : get_in t = Some get -> get = db_select_by_id t.
Proof. destruct t; intros [= <-]; reflexivity. Qed.

Lemma delete_in_delete t del : delete_in t = Some del -> del = db_delete t.
Proof. destruct t; intros [= <-]; reflexivity. Qed.

Lemma rows_set_table_ne t t' m w : t' <> t -> rows (set_table t m w) t' = rows w t'.
Proof.
  intros Hne. cbn [rows set_table]. destruct (decide (t' = t)); [contradiction|reflexivity].
Qed.

Lemma rows_log_call c w : rows (log_call c w) = rows w.
Proof. reflexivity. Qed.

(** X1.  What a create method returns is what the get method of the table
    reads back under the identifier of the returned row. *)
Theorem created_row_is_read_back t get values w :
  get_in t = Some get ->
  healthy w ->
  succeeded (create_in t values w) = true ->
  exists row,
    (create_in t values w).1 = Ok row
    /\ row !! "id" = Some (VStr (row_id row))
    /\ rows w t !! row_id row = None
    /\ (get (row_id row) (create_in t values w).2).1 = Ok (Some row).
Proof.
  intros Hget Hw. rewrite (get_in_select _ _ Hget), create_in_insert, db_insert_run.
  cbv zeta. unfold succeeded.
  destruct (fault w (InsertRow t values)); [discriminate|].
  destruct (new_row t w values !! "id") as [v|] eqn:Hid; [|discriminate].
  destruct v as [| | |id| | | | | |]; try discriminate.
  destruct (rows w t !! id) eqn:Hfresh; [discriminate|]. intros _.
  assert (Hrow : row_id (new_row t w values) = id) by (unfold row_id; rewrite Hid; reflexivity).
  exists (new_row t w values). cbn [fst snd]. rewrite Hrow.
  split; [reflexivity|]. split; [exact Hid|]. split; [exact Hfresh|].
  rewrite db_select_by_id_run.
  assert (fault (set_table t (<[id:=new_row t w values]> (rows w t))
                   (draw_defaults t values (log_call (InsertRow t values) w)))
                (SelectById t id) = false) as ->.
  { cbn [fault set_table]. rewrite fault_draw_defaults. apply Hw. }
  cbn [fst]. rewrite rows_set_table, lookup_insert_eq. reflexivity.
Qed.

Lemma updatedAt_column t :
  find_column "updatedAt" (columns t)
  = Some (defaults_to DNow (col "updatedAt" TTimestamp)).
Proof. destruct t; vm_compute; reflexivity. Qed.

Lemma insert_schema_omits_updatedAt t : "updatedAt" ∉ f_name <$> insert_schema t.
Proof. destruct t; apply (bool_decide_unpack _); vm_compute; exact I. Qed.

(** X2.  An update method called with a patch of its declared type, the
    partial insert type of the table, writes each property of the patch
    to its column, stamps [updatedAt] with the time of the call, keeps
    every other column, and touches no other row.  What is read back is
    what the column holds: for a decimal column the number at scale 2,
    not the text that was written. *)
Theorem update_merges_the_patch t id patch w :
  zod_parse (partial (insert_schema t)) patch = inr patch ->
  stored w t id = true ->
  fault w (UpdateRow t id (<["updatedAt" := VDate (clock w)]> patch)) = false ->
  exists old new,
    rows w t !! id = Some old
    /\ (update_in t id patch w).1 = Ok (Some new)
    /\ rows (update_in t id patch w).2 t !! id = Some new
    /\ new !! "updatedAt" = Some (VDate (clock w))
    /\ (forall k c v, find_column k (columns t) = Some c -> patch !! k = Some v ->
          new !! k = Some (column_holds (col_type c) v))
    /\ (forall k, k <> "updatedAt" -> patch !! k = None -> new !! k = old !! k)
    /\ (forall t' k, t' <> t \/ k <> id ->
          rows (update_in t id patch w).2 t' !! k = rows w t' !! k).
Proof.
  intros Htyped. unfold stored.
  destruct (rows w t !! id) as [old|] eqn:Hold; [intros _|discriminate].
  intros Hfault. rewrite update_in_update, db_update_run. cbv zeta.
  rewrite Hfault, Hold. cbn [fst snd].
  exists old, (assignments t (<["updatedAt" := VDate (clock w)]> patch) ∪ old).
  split; [reflexivity|].
  split; [reflexivity|]. split; [rewrite rows_set_table; apply lookup_insert_eq|].
  split; [|split; [|split]].
  - apply lookup_union_Some_l.
    rewrite assignments_lookup, updatedAt_column, lookup_insert_eq. reflexivity.
  - intros k c v Hc Hv.
    assert (Hk : k <> "updatedAt").
    { intros ->. apply (insert_schema_omits_updatedAt t).
      rewrite <- (partial_names (insert_schema t)).
      pose proof (zod_output_lookup (partial (insert_schema t)) patch "updatedAt") as Hl.
      rewrite <- (zod_parse_inr _ _ _ Htyped), Hv in Hl.
      destruct (bool_decide_reflect
                  ("updatedAt" ∈ f_name <$> partial (insert_schema t))) as [Hin|_];
        [exact Hin|discriminate]. }
    apply lookup_union_Some_l.
    rewrite assignments_lookup, Hc, lookup_insert_ne by congruence. rewrite Hv. reflexivity.
  - intros k Hk Hv. apply lookup_union_r.
    rewrite assignments_lookup, lookup_insert_ne by congruence. rewrite Hv.
    destruct (find_column k (columns t)); reflexivity.
  - intros t' k Hne. destruct (decide (t' = t)) as [->|Ht].
    + rewrite rows_set_table. destruct Hne as [Hne|Hne]; [contradiction|].
      rewrite lookup_insert_ne by congruence. reflexivity.
    + rewrite rows_set_table_ne by exact Ht. reflexivity.
Qed.

(** X3.  An update method called on an identifier that is not stored
    changes no row; it returns nothing in place of the updated row, without
    throwing. *)
Theorem update_of_a_missing_row_returns_nothing t id patch w :
  rows w t !! id = None ->
  (forall t' k, rows (update_in t id patch w).2 t' !! k = rows w t' !! k)
  /\ auditLogs (update_in t id patch w).2 = auditLogs w
  /\ (fault w (UpdateRow t id (<["updatedAt" := VDate (clock w)]> patch)) = false ->
      (update_in t id patch w).1 = Ok None).
Proof.
  intros Hnone. rewrite update_in_update, db_update_run. cbv zeta. rewrite Hnone.
  destruct (fault w _); cbn [fst snd]; (split; [reflexivity|split; [reflexivity|]]).
  - discriminate.
  - reflexivity.
Qed.

(** X4.  After a delete method the get method finds nothing under the
    identifier; the other rows stay, and deleting an identifier that is not
    stored changes no row and does not throw. *)
Theorem deleted_row_is_gone t del get id w :
  delete_in t = Some del ->
  get_in t = Some get ->
  healthy w ->
  (del id w).1 = Ok ()
  /\ (get id (del id w).2).1 = Ok None
  /\ (forall t' k, t' <> t \/ k <> id -> rows (del id w).2 t' !! k = rows w t' !! k)
  /\ (rows w t !! id = None -> forall t' k, rows (del id w).2 t' !! k = rows w t' !! k).
Proof.
  intros Hdel Hget Hw.
  rewrite (delete_in_delete _ _ Hdel), (get_in_select _ _ Hget), db_delete_run.
  cbv zeta. rewrite Hw. cbn [fst snd].
  assert (Hframe : forall t' k, t' <> t \/ k <> id ->
            rows (set_table t (delete id (rows w t)) (log_call (DeleteRow t id) w)) t' !! k
            = rows w t' !! k).
  { intros t' k Hne. destruct (decide (t' = t)) as [->|Ht].
    - rewrite rows_set_table. destruct Hne as [Hne|Hne]; [contradiction|].
      rewrite lookup_delete_ne by congruence. reflexivity.
    - rewrite rows_set_table_ne by exact Ht. reflexivity. }
  split; [reflexivity|]. split; [|split; [exact Hframe|]].
  - rewrite db_select_by_id_run.
    assert (fault (set_table t (delete id (rows w t)) (log_call (DeleteRow t id) w))
                  (SelectById t id) = false) as -> by apply Hw.
    cbn [fst]. rewrite rows_set_table, lookup_delete_eq. reflexivity.
  - intros Hnone t' k. destruct (decide (t' = t /\ k = id)) as [[-> ->]|Hne].
    + rewrite rows_set_table, lookup_delete_eq, Hnone. reflexivity.
    + apply Hframe. destruct (decide (t' = t)); [right|left]; naive_solver.
Qed.

End StorageMethods.

(** ** New rows *)

Section NewRows.
Context `{Platform}.

Lemma find_column_Some k cs c : find_column k cs = Some c -> col_name c = k.
Proof.
  induction cs as [|c' cs IH]; cbn; [discriminate|].
  case_bool_decide as E; [intros [= <-]; exact E|exact IH].
Qed.

Lemma find_column_None k cs : find_column k cs = None <-> k ∉ col_name <$> cs.
Proof.
  induction cs as [|c' cs IH]; cbn.
  - split; [intros _; apply not_elem_of_nil|reflexivity].
  - rewrite not_elem_of_cons. case_bool_decide as E.
    + split; [discriminate|]. intros [Hne _]. congruence.
    + rewrite IH. split; [intros Hn; split; [congruence|exact Hn]|intros [_ Hn]; exact Hn].
Qed.

(** A new row has the columns of its table, and no other property. *)
Lemma new_row_columns t w values k :
  is_Some (new_row t w values !! k) <-> k ∈ col_name <$> columns t.
Proof.
  rewrite new_row_lookup. destruct (find_column k (columns t)) as [c|] eqn:E.
  - split; [intros _|intros _; eexists; reflexivity].
    destruct (decide (k ∈ col_name <$> columns t)) as [Hin|Hout]; [exact Hin|].
    apply find_column_None in Hout. congruence.
  - apply find_column_None in E. split; [intros [? [=]]|contradiction].
Qed.

Lemma new_row_supplied t w values k c v :
  find_column k (columns t) = Some c -> values !! k = Some v ->
  new_row t w values !! k = Some (column_holds (col_type c) v).
Proof.
  intros E Hv. rewrite new_row_lookup, E. cbn. unfold column_value.
  rewrite (find_column_Some _ _ _ E), Hv. reflexivity.
Qed.

Lemma new_row_default t w values k c :
  find_column k (columns t) = Some c -> values !! k = None ->
  new_row t w values !! k =
  Some match col_default c with
       | NoDefault => VNull
       | DConst v => v
       | DNow => VDate (clock w)
       | DSeqId prefix => VStr (prefix +:+ to_char_FM0000 (seqs w t))
       | DUuid => VStr (gen_random_uuid (uuid_next w))
       end.
Proof.
  intros E Hv. rewrite new_row_lookup, E. cbn. unfold column_value.
  rewrite (find_column_Some _ _ _ E), Hv. reflexivity.
Qed.

End NewRows.

Ltac eval_find_column :=
  match goal with
  | |- context [find_column ?k (columns ?t)] =>
      let c := eval vm_compute in (find_column k (columns t)) in
      change (find_column k (columns t)) with c
  end.

Section Stamps.
Context `{Platform}.

Lemma new_row_stamp t w values k :
  k = "updatedAt" \/ k = creation_column t ->
  values !! k = None ->
  new_row t w values !! k = Some (VDate (clock w)).
Proof.
  intros Hk Hv.
  assert (exists c, find_column k (columns t) = Some c /\ col_default c = DNow)
    as (c & Hc & Hd).
  { destruct Hk as [-> | ->]; destruct t; cbn [creation_column];
      eval_find_column; eexists; (split; [reflexivity|reflexivity]). }
  rewrite (new_row_default _ _ _ _ _ Hc Hv), Hd. reflexivity.
Qed.

Lemma new_row_id t w values prefix :
  id_prefix t = Some prefix ->
  values !! "id" = None ->
  new_row t w values !! "id" = Some (VStr (prefix +:+ to_char_FM0000 (seqs w t))).
Proof.
  intros Hp Hv.
  assert (exists c, find_column "id" (columns t) = Some c /\ col_default c = DSeqId prefix)
    as (c & Hc & Hd).
  { destruct t; cbn in Hp; try discriminate; injection Hp as <-;
      eval_find_column; eexists; (split; [reflexivity|reflexivity]). }
  rewrite (new_row_default _ _ _ _ _ Hc Hv), Hd. reflexivity.
Qed.

Lemma new_staff_id w (values : Row) :
  values !! "id" = None ->
  new_row staff w values !! "id" = Some (VStr (gen_random_uuid (uuid_next w))).
Proof.
  intros Hv.
  assert (exists c, find_column "id" (columns staff) = Some c /\ col_default c = DUuid)
    as (c & Hc & Hd).
  { eval_find_column; eexists; (split; [reflexivity|reflexivity]). }
  rewrite (new_row_default _ _ _ _ _ Hc Hv), Hd. reflexivity.
Qed.

Lemma seqs_draw_defaults_le t values w t' :
  seqs w t' <= seqs (draw_defaults t values w) t'.
Proof.
  unfold draw_defaults. induction (columns t) as [|c cs IH]; cbn [foldr]; [lia|].
  destruct (col_default c); try exact IH.
  - destruct (values !! col_name c); [exact IH|].
    cbn [seqs nextval]. destruct (decide (t' = t)) as [->|]; lia.
  - destruct (values !! col_name c); exact IH.
Qed.

Lemma seqs_draw_defaults_ne t values w t' :
  t' <> t -> seqs (draw_defaults t values w) t' = seqs w t'.
Proof.
  intros Hne. unfold draw_defaults. induction (columns t) as [|c cs IH]; cbn [foldr]; [reflexivity|].
  destruct (col_default c); try exact IH.
  - destruct (values !! col_name c); [exact IH|].
    cbn [seqs nextval]. destruct (decide (t' = t)); [contradiction|exact IH].
  - destruct (values !! col_name c); exact IH.
Qed.

Lemma seqs_draw_defaults_id t values w prefix :
  id_prefix t = Some prefix ->
  values !! "id" = None ->
  seqs (draw_defaults t values w) t = seqs w t + 1.
Proof.
  intros Hp Hv. unfold draw_defaults.
  destruct t; cbn in Hp; try discriminate;
    cbn [columns assets_columns documents_columns workflows_columns workOrders_columns
         foldr col_default col_name defaults_to primaryKey notNull col];
    rewrite Hv; cbn [seqs nextval];
    match goal with |- context [decide (?a = ?a)] => destruct (decide (a = a)) end;
    congruence.
Qed.

End Stamps.

(** ** Creating an entity *)

Ltac decide_by_computing :=
  match goal with |- ?P => apply (bool_decide_unpack P); vm_compute; exact I end.

Section Creation.
Context `{Platform}.

Lemma create_shape m req w :
  kind m = Create ->
  route m req w =
  create_route (table_of m) (schema_of m) (entity_of m) (failure_of m) (owner_of m) req w.
Proof. intros Hk. rewrite route_shape. unfold shape. rewrite Hk. reflexivity. Qed.

(** No insert schema has a field for the identifier or for the two
    timestamps. *)
Lemma schema_omits m k :
  k = "id" \/ k = "updatedAt" \/ k = creation_column (table_of m) ->
  k ∉ f_name <$> schema_of m.
Proof.
  intros [->|[->| ->]]; destruct m; decide_by_computing.
Qed.

Lemma parsed_lookup s input data k :
  zod_parse s input = inr data ->
  data !! k = if bool_decide (k ∈ f_name <$> s) then input !! k else None.
Proof. intros Hp. rewrite (zod_parse_inr _ _ _ Hp). apply zod_output_lookup. Qed.

Lemma parsed_omitted m input data k :
  zod_parse (schema_of m) input = inr data ->
  k = "id" \/ k = "updatedAt" \/ k = creation_column (table_of m) ->
  data !! k = None.
Proof.
  intros Hp Hk. rewrite (parsed_lookup _ _ _ _ Hp).
  rewrite bool_decide_eq_false_2 by (apply schema_omits; exact Hk). reflexivity.
Qed.

Lemma seqs_draw_defaults_log_call t values c w :
  seqs (draw_defaults t values (log_call c w)) = seqs (draw_defaults t values w).
Proof.
  unfold draw_defaults. induction (columns t) as [|col cs IH]; cbn [foldr]; [reflexivity|].
  destruct (col_default col); try exact IH.
  - destruct (values !! col_name col); [exact IH|]. cbn [seqs nextval]. rewrite IH. reflexivity.
  - destruct (values !! col_name col); exact IH.
Qed.

Lemma uuid_draw_defaults_log_call t values c w :
  uuid_next (draw_defaults t values (log_call c w)) = uuid_next (draw_defaults t values w).
Proof.
  unfold draw_defaults. induction (columns t) as [|col cs IH]; cbn [foldr]; [reflexivity|].
  destruct (col_default col); try exact IH.
  - destruct (values !! col_name col); exact IH.
  - destruct (values !! col_name col); [exact IH|]. cbn [uuid_next draw_uuid]. rewrite IH.
    reflexivity.
Qed.

Lemma uuid_draw_defaults_staff (values : Row) w :
  values !! "id" = None ->
  uuid_next (draw_defaults staff values w) = S (uuid_next w).
Proof.
  intros Hv. unfold draw_defaults.
  cbn [columns staff_columns foldr col_default col_name defaults_to primaryKey notNull col].
  rewrite Hv. reflexivity.
Qed.

Lemma uuid_draw_defaults_numbered t (values : Row) w prefix :
  id_prefix t = Some prefix ->
  uuid_next (draw_defaults t values w) = uuid_next w.
Proof.
  intros Hp. unfold draw_defaults.
  destruct t; cbn in Hp; try discriminate;
    cbn [columns assets_columns documents_columns workflows_columns workOrders_columns
         foldr col_default col_name defaults_to primaryKey notNull col];
    destruct (values !! "id"); reflexivity.
Qed.

Lemma seqs_draw_defaults_staff (values : Row) w :
  seqs (draw_defaults staff values w) = seqs w.
Proof.
  unfold draw_defaults.
  cbn [columns staff_columns foldr col_default col_name defaults_to primaryKey notNull col].
  destruct (values !! "id"); reflexivity.
Qed.

(** The runs of a create route that are answered 201. *)
Lemma create_route_created t schema entity failure owner req w :
  status <$> response_of (create_route t schema entity failure owner req w) = Some 201 ->
  exists input data id,
    input_of owner req = Some input
    /\ zod_parse schema input = inr data
    /\ fault w (InsertRow t data) = false
    /\ new_row t w data !! "id" = Some (VStr id)
    /\ rows w t !! id = None
    /\ response_of (create_route t schema entity failure owner req w)
       = Some {| status := 201; payload := Entity (Some (new_row t w data)) |}
    /\ (forall t' k,
          rows (create_route t schema entity failure owner req w).2 t' !! k
          = if decide (t' = t /\ k = id) then Some (new_row t w data) else rows w t' !! k)
    /\ seqs (create_route t schema entity failure owner req w).2
       = seqs (draw_defaults t data w)
    /\ uuid_next (create_route t schema entity failure owner req w).2
       = uuid_next (draw_defaults t data w).
Proof.
  rewrite create_route_run.
  destruct (input_of owner req) as [input|] eqn:Hin; [|discriminate].
  destruct (zod_parse schema input) as [issues|data] eqn:Hparse; [discriminate|].
  cbv zeta. destruct (fault w (InsertRow t data)) eqn:Hfault; [discriminate|].
  destruct (new_row t w data !! "id") as [[| | |id| | | | | |]|] eqn:Hid; try discriminate.
  destruct (rows w t !! id) eqn:Hfresh; [discriminate|].
  intros Hok. exists input, data, id.
  split; [reflexivity|]. split; [exact Hparse|]. split; [exact Hfault|].
  split; [exact Hid|]. split; [exact Hfresh|].
  assert (Hrows : forall w0 t' k,
            rows w0 = rows w ->
            rows (set_table t (<[id:=new_row t w data]> (rows w t)) w0) t' !! k
            = if decide (t' = t /\ k = id) then Some (new_row t w data) else rows w t' !! k).
  { intros w0 t' k Hw0. cbn [rows set_table]. rewrite Hw0.
    destruct (decide (t' = t /\ k = id)) as [[-> ->]|Hne].
    - destruct (decide (t = t)); [|contradiction]. apply lookup_insert_eq.
    - destruct (decide (t' = t)) as [->|]; [|reflexivity].
      apply lookup_insert_ne. intros ->. apply Hne. split; reflexivity. }
  revert Hok. unfold audit_step. destruct (actor req) as [uid|].
  - destruct (fault _ (InsertAudit _)); [discriminate|]. intros _.
    split; [reflexivity|]. cbn [snd rows seqs uuid_next append_audit log_call].
    split; [intros t' k; apply Hrows; rewrite rows_draw_defaults; reflexivity|].
    cbn [seqs uuid_next set_table].
    rewrite seqs_draw_defaults_log_call, uuid_draw_defaults_log_call. split; reflexivity.
  - intros _. split; [reflexivity|]. cbn [snd].
    split; [intros t' k; apply Hrows; rewrite rows_draw_defaults; reflexivity|].
    cbn [seqs uuid_next set_table].
    rewrite seqs_draw_defaults_log_call, uuid_draw_defaults_log_call. split; reflexivity.
Qed.

(** X5.  A create route that fills a property of the body from the session
    (createdBy, uploadedBy, requestedBy) stores the subject of the session
    there, whatever the body carries under that name. *)
Theorem creator_is_the_session_subject m req w property :
  owner_of m = Some property ->
  status <$> response_of (route m req w) = Some 201 ->
  exists u row,
    user req = Some u
    /\ payload <$> response_of (route m req w) = Some (Entity (Some row))
    /\ row !! property = Some (VStr (sub (claims u)))
    /\ rows (route m req w).2 (table_of m) !! row_id row = Some row.
Proof.
  intros Howner.
  assert (Hk : kind m = Create) by (destruct m; try discriminate; reflexivity).
  rewrite (create_shape _ _ _ Hk). intros Hok.
  destruct (create_route_created _ _ _ _ _ _ _ Hok)
    as (input & data & id & Hin & Hparse & _ & Hid & _ & Hresp & Hrows & _).
  rewrite Howner in Hin. unfold input_of in Hin.
  destruct (user req) as [u|]; [|discriminate]. injection Hin as <-.
  exists u, (new_row (table_of m) w data). split; [reflexivity|].
  rewrite Hresp. split; [reflexivity|]. split.
  - assert (Hc : find_column property (columns (table_of m)) = Some (col property TVarchar))
      by (destruct m; try discriminate; injection Howner as <-; vm_compute; reflexivity).
    rewrite (new_row_supplied _ _ _ _ _ (VStr (sub (claims u))) Hc); [reflexivity|].
    rewrite (parsed_lookup _ _ _ _ Hparse), lookup_insert_eq.
    rewrite bool_decide_eq_true_2; [reflexivity|].
    destruct m; try discriminate; injection Howner as <-; decide_by_computing.
  - unfold row_id. rewrite Hid, Hrows.
    destruct (decide (table_of m = table_of m /\ id = id)) as [_|Hne]; [reflexivity|].
    exfalso. apply Hne. split; reflexivity.
Qed.

(** X6.  A created row has the columns of its table and no other property;
    its creation time and its [updatedAt] are the time of the call, whatever
    the body carries. *)
Theorem created_row_is_stamped_by_the_server m req w :
  kind m = Create ->
  status <$> response_of (route m req w) = Some 201 ->
  exists row,
    payload <$> response_of (route m req w) = Some (Entity (Some row))
    /\ (forall k, is_Some (row !! k) <-> k ∈ col_name <$> columns (table_of m))
    /\ row !! creation_column (table_of m) = Some (VDate (clock w))
    /\ row !! "updatedAt" = Some (VDate (clock w)).
Proof.
  intros Hk. rewrite (create_shape _ _ _ Hk). intros Hok.
  destruct (create_route_created _ _ _ _ _ _ _ Hok)
    as (input & data & id & _ & Hparse & _ & _ & _ & Hresp & _).
  exists (new_row (table_of m) w data). rewrite Hresp. split; [reflexivity|].
  split; [intros k; apply new_row_columns|]. split.
  - apply new_row_stamp; [right; reflexivity|].
    apply (parsed_omitted m input); [exact Hparse|right; right; reflexivity].
  - apply new_row_stamp; [left; reflexivity|].
    apply (parsed_omitted m input); [exact Hparse|right; left; reflexivity].
Qed.

(** X7.  The identifier of a created row is drawn by the store, whatever
    the body carries: the prefix of the table followed by the value of its
    sequence, which moves on by one while the other sequences stay; for
    staff, the next uuid. *)
Theorem identifier_is_drawn_by_the_store m req w :
  kind m = Create ->
  status <$> response_of (route m req w) = Some 201 ->
  exists row,
    payload <$> response_of (route m req w) = Some (Entity (Some row))
    /\ rows w (table_of m) !! row_id row = None
    /\ match id_prefix (table_of m) with
       | Some prefix =>
           row_id row = prefix +:+ to_char_FM0000 (seqs w (table_of m))
           /\ seqs (route m req w).2 (table_of m) = seqs w (table_of m) + 1
           /\ uuid_next (route m req w).2 = uuid_next w
       | None =>
           row_id row = gen_random_uuid (uuid_next w)
           /\ uuid_next (route m req w).2 = S (uuid_next w)
           /\ seqs (route m req w).2 (table_of m) = seqs w (table_of m)
       end
    /\ (forall t, t <> table_of m -> seqs (route m req w).2 t = seqs w t).
Proof.
  intros Hk. rewrite (create_shape _ _ _ Hk). intros Hok.
  destruct (create_route_created _ _ _ _ _ _ _ Hok)
    as (input & data & id & _ & Hparse & _ & Hid & Hfresh & Hresp & _ & Hseqs & Huuid).
  pose proof (parsed_omitted m input data "id" Hparse (or_introl eq_refl)) as Hnone.
  exists (new_row (table_of m) w data). rewrite Hresp, Hseqs, Huuid.
  split; [reflexivity|].
  assert (Hrow : row_id (new_row (table_of m) w data) = id)
    by (unfold row_id; rewrite Hid; reflexivity).
  split; [rewrite Hrow; exact Hfresh|]. split.
  - destruct (id_prefix (table_of m)) as [prefix|] eqn:Hp.
    + split; [|split].
      * rewrite (new_row_id _ _ _ _ Hp Hnone) in Hid. rewrite Hrow. congruence.
      * apply (seqs_draw_defaults_id _ _ _ _ Hp Hnone).
      * apply (uuid_draw_defaults_numbered _ _ _ _ Hp).
    + assert (Ht : table_of m = staff) by (destruct m; try discriminate; reflexivity).
      rewrite Ht in *. split; [|split].
      * rewrite (new_staff_id _ _ Hnone) in Hid. rewrite Hrow. congruence.
      * apply uuid_draw_defaults_staff, Hnone.
      * rewrite seqs_draw_defaults_staff. reflexivity.
  - intros t Hne. apply seqs_draw_defaults_ne. exact Hne.
Qed.

(** X8.  A body that fails the insert schema is answered 400 with the
    offending field among the errors, before any call to the store: a
    required field that is missing, or a value of the wrong type. *)
Theorem invalid_body_is_refused_before_any_write m req w f input :
  kind m = Create ->
  input_of (owner_of m) req = Some input ->
  f ∈ schema_of m ->
  field_ok f input = false ->
  exists errors,
    route m req w = (Ok {| status := 400; payload := Invalid errors |}, w)
    /\ f_name f ∈ errors.
Proof.
  intros Hk Hin Hf Hbad. rewrite (create_shape _ _ _ Hk), create_route_run, Hin.
  destruct (zod_parse_issue _ _ _ Hf Hbad) as (issues & -> & Hissue).
  exists issues. split; [reflexivity|exact Hissue].
Qed.

End Creation.

(** ** Updating, deleting and reading an entity *)

Section UpdateDelete.
Context `{Platform}.

Lemma update_shape m req w :
  kind m = Update ->
  route m req w =
  update_route (table_of m) (schema_of m) (entity_of m) (not_found_of m) (failure_of m) req w.
Proof. intros Hk. rewrite route_shape. unfold shape. rewrite Hk. reflexivity. Qed.

Lemma delete_shape m req w :
  kind m = Delete ->
  route m req w =
  delete_route (table_of m) (entity_of m) (not_found_of m) (failure_of m) req w.
Proof. intros Hk. rewrite route_shape. unfold shape. rewrite Hk. reflexivity. Qed.

Lemma rows_written t id (r : Row) w0 w t' k :
  rows w0 = rows w ->
  rows (set_table t (<[id:=r]> (rows w t)) w0) t' !! k
  = if decide (t' = t /\ k = id) then Some r else rows w t' !! k.
Proof.
  intros Hw0. cbn [rows set_table]. rewrite Hw0.
  destruct (decide (t' = t /\ k = id)) as [[-> ->]|Hne].
  - destruct (decide (t = t)); [|contradiction]. apply lookup_insert_eq.
  - destruct (decide (t' = t)) as [->|]; [|reflexivity].
    apply lookup_insert_ne. intros ->. apply Hne. split; reflexivity.
Qed.

Lemma rows_removed t id w0 w t' k :
  rows w0 = rows w ->
  rows (set_table t (delete id (rows w t)) w0) t' !! k
  = if decide (t' = t /\ k = id) then None else rows w t' !! k.
Proof.
  intros Hw0. cbn [rows set_table]. rewrite Hw0.
  destruct (decide (t' = t /\ k = id)) as [[-> ->]|Hne].
  - destruct (decide (t = t)); [|contradiction]. apply lookup_delete_eq.
  - destruct (decide (t' = t)) as [->|]; [|reflexivity].
    apply lookup_delete_ne. intros ->. apply Hne. split; reflexivity.
Qed.

(** The runs of an update route that are answered 200. *)
Lemma update_route_updated t schema entity missing failure req w :
  status <$> response_of (update_route t schema entity missing failure req w) = Some 200 ->
  exists old data,
    rows w t !! params_id req = Some old
    /\ zod_parse (partial schema) (body req) = inr data
    /\ response_of (update_route t schema entity missing failure req w)
       = Some {| status := 200;
                 payload := Entity
                   (Some (assignments t (<["updatedAt" := VDate (clock w)]> data) ∪ old)) |}
    /\ (forall t' k,
          rows (update_route t schema entity missing failure req w).2 t' !! k
          = if decide (t' = t /\ k = params_id req)
            then Some (assignments t (<["updatedAt" := VDate (clock w)]> data) ∪ old)
            else rows w t' !! k)
    /\ (forall c, fault (update_route t schema entity missing failure req w).2 c = fault w c).
Proof.
  rewrite update_route_run. cbv zeta.
  destruct (fault w (SelectById t (params_id req))); [discriminate|].
  destruct (rows w t !! params_id req) as [old|] eqn:Hold; [|discriminate].
  destruct (zod_parse (partial schema) (body req)) as [issues|data] eqn:Hparse; [discriminate|].
  destruct (fault w (UpdateRow t _ _)); [discriminate|].
  intros Hok. exists old, data. split; [reflexivity|]. split; [reflexivity|].
  revert Hok. unfold audit_step. destruct (actor req) as [uid|].
  - destruct (fault _ (InsertAudit _)); [discriminate|]. intros _.
    split; [reflexivity|]. cbn [snd rows append_audit log_call].
    split; [intros t' k; apply rows_written; reflexivity|]. reflexivity.
  - intros _. split; [reflexivity|]. cbn [snd].
    split; [intros t' k; apply rows_written; reflexivity|]. reflexivity.
Qed.

(** X9.  An update route answered 200 writes to each field of the insert
    schema what the body carries for it, and leaves a field the body does
    not carry as it was; [updatedAt] is the time of the call; the other
    columns, the id and the creation time among them, are as before.  The
    row that is returned and stored holds what the columns hold: for a
    decimal column the number at scale 2, not the text of the body. *)
Theorem update_writes_what_the_body_carries m req w :
  kind m = Update ->
  status <$> response_of (route m req w) = Some 200 ->
  exists old new,
    rows w (table_of m) !! params_id req = Some old
    /\ payload <$> response_of (route m req w) = Some (Entity (Some new))
    /\ rows (route m req w).2 (table_of m) !! params_id req = Some new
    /\ new !! "updatedAt" = Some (VDate (clock w))
    /\ (forall k c, k ∈ f_name <$> schema_of m ->
          find_column k (columns (table_of m)) = Some c ->
          new !! k = match body req !! k with
                     | Some v => Some (column_holds (col_type c) v)
                     | None => old !! k
                     end)
    /\ (forall k, k ∉ f_name <$> schema_of m -> k <> "updatedAt" -> new !! k = old !! k)
    /\ new !! "id" = old !! "id"
    /\ new !! creation_column (table_of m) = old !! creation_column (table_of m).
Proof.
  intros Hk. rewrite (update_shape _ _ _ Hk). intros Hok.
  destruct (update_route_updated _ _ _ _ _ _ _ Hok)
    as (old & data & Hold & Hparse & Hresp & Hrows & _).
  exists old, (assignments (table_of m) (<["updatedAt" := VDate (clock w)]> data) ∪ old).
  rewrite Hresp, Hrows. split; [exact Hold|]. split; [reflexivity|].
  split.
  { destruct (decide _) as [_|Hne]; [reflexivity|]. exfalso. apply Hne. split; reflexivity. }
  split.
  { apply lookup_union_Some_l.
    rewrite assignments_lookup, updatedAt_column, lookup_insert_eq. reflexivity. }
  assert (Hin : forall k c, k ∈ f_name <$> schema_of m ->
            find_column k (columns (table_of m)) = Some c ->
            (assignments (table_of m) (<["updatedAt" := VDate (clock w)]> data) ∪ old) !! k
            = match body req !! k with
              | Some v => Some (column_holds (col_type c) v)
              | None => old !! k
              end).
  { intros k c Hin Hc.
    assert (k <> "updatedAt").
    { intros ->. revert Hin. apply schema_omits. right. left. reflexivity. }
    rewrite lookup_union, assignments_lookup, Hc, lookup_insert_ne by congruence.
    rewrite (parsed_lookup _ _ _ _ Hparse), partial_names.
    rewrite bool_decide_eq_true_2 by exact Hin.
    destruct (body req !! k), (old !! k); reflexivity. }
  assert (Hout : forall k, k ∉ f_name <$> schema_of m -> k <> "updatedAt" ->
            (assignments (table_of m) (<["updatedAt" := VDate (clock w)]> data) ∪ old) !! k
            = old !! k).
  { intros k Hout Hne.
    rewrite lookup_union, assignments_lookup, lookup_insert_ne by congruence.
    rewrite (parsed_lookup _ _ _ _ Hparse), partial_names.
    rewrite bool_decide_eq_false_2 by exact Hout.
    destruct (find_column k (columns (table_of m))), (old !! k); reflexivity. }
  split; [exact Hin|]. split; [exact Hout|]. split.
  - apply Hout; [apply schema_omits; left; reflexivity|discriminate].
  - apply Hout; [apply schema_omits; right; right; reflexivity|].
    destruct (table_of m); discriminate.
Qed.

Lemma delete_route_deleted t entity missing failure req w :
  status <$> response_of (delete_route t entity missing failure req w) = Some 204 ->
  is_Some (rows w t !! params_id req)
  /\ (forall t' k,
        rows (delete_route t entity missing failure req w).2 t' !! k
        = if decide (t' = t /\ k = params_id req) then None else rows w t' !! k)
  /\ (forall c, fault (delete_route t entity missing failure req w).2 c = fault w c).
Proof.
  rewrite delete_route_run. cbv zeta.
  destruct (fault w (SelectById t (params_id req))); [discriminate|].
  destruct (rows w t !! params_id req) as [old|] eqn:Hold; [|discriminate].
  destruct (fault w (DeleteRow t _)); [discriminate|].
  intros Hok. split; [eexists; reflexivity|].
  revert Hok. unfold audit_step. destruct (actor req) as [uid|].
  - destruct (fault _ (InsertAudit _)); [discriminate|]. intros _.
    cbn [snd rows append_audit log_call].
    split; [intros t' k; apply rows_removed; reflexivity|]. reflexivity.
  - intros _. cbn [snd].
    split; [intros t' k; apply rows_removed; reflexivity|]. reflexivity.
Qed.

(** X10.  A delete of an identifier that is not stored is answered 404
    (500 when the store refuses the lookup): the lookup is the only call to
    the store, and no row and no audit record changes. *)
Theorem delete_of_unknown_id_is_not_found m req w :
  kind m = Delete ->
  rows w (table_of m) !! params_id req = None ->
  exists r w',
    route m req w = (Ok r, w')
    /\ rows w' = rows w
    /\ auditLogs w' = auditLogs w
    /\ trace w' = (trace w ++ [SelectById (table_of m) (params_id req)])%list
    /\ status r <> 204
    /\ (fault w (SelectById (table_of m) (params_id req)) = false ->
        r = {| status := 404; payload := Message (not_found_of m) |}).
Proof.
  intros Hk Hnone. rewrite (delete_shape _ _ _ Hk), delete_route_run. cbv zeta.
  rewrite Hnone. destruct (fault w (SelectById _ _)); eexists _, _;
    (split; [reflexivity|]); repeat split; try discriminate.
Qed.

Lemma single_run e req w :
  single e req w =
  let c := SelectById (spatial_table e) (params_id req) in
  (Ok (if fault w c
       then failed match e with
                   | SpatialAssets => "Failed to fetch asset"
                   | SpatialStaff => "Failed to fetch staff member"
                   end
       else match rows w (spatial_table e) !! params_id req with
            | Some row => {| status := 200; payload := Entity (Some row) |}
            | None => {| status := 404; payload := Message (missing e) |}
            end),
   log_call c w).
Proof.
  destruct e; unfold single, get_asset, get_staff_member, getAsset, getStaffMember, try_catch;
    rewrite bind_run, db_select_by_id_run; cbv zeta; cbn [spatial_table];
    destruct (fault w _); try reflexivity;
    destruct (rows w _ !! params_id req); reflexivity.
Qed.

(** X11.  Reading one entity changes nothing in the store; it answers 200
    with the row stored under the identifier, 404 when there is none, and
    500 when the store refuses the lookup. *)
Theorem single_reads_the_stored_row e req w :
  rows (single e req w).2 = rows w
  /\ auditLogs (single e req w).2 = auditLogs w
  /\ trace (single e req w).2
     = (trace w ++ [SelectById (spatial_table e) (params_id req)])%list
  /\ (fault w (SelectById (spatial_table e) (params_id req)) = false ->
      response_of (single e req w)
      = Some match rows w (spatial_table e) !! params_id req with
             | Some row => {| status := 200; payload := Entity (Some row) |}
             | None => {| status := 404; payload := Message (missing e) |}
             end)
  /\ (fault w (SelectById (spatial_table e) (params_id req)) = true ->
      status <$> response_of (single e req w) = Some 500).
Proof.
  rewrite single_run. cbv zeta. cbn [fst snd]. unfold response_of. cbn [fst].
  split; [reflexivity|]. split; [reflexivity|]. split; [reflexivity|].
  split; intros ->; reflexivity.
Qed.

(** X12.  Once a delete is answered 204 the entity is gone for the routes
    that follow: reading it, deleting it again and updating it are all
    answered 404. *)
Theorem deleted_entity_is_not_found_afterwards m e req req' w :
  kind m = Delete ->
  table_of m = spatial_table e ->
  params_id req' = params_id req ->
  healthy w ->
  status <$> response_of (route m req w) = Some 204 ->
  response_of (single e req' (route m req w).2)
    = Some {| status := 404; payload := Message (missing e) |}
  /\ status <$> response_of (route m req' (route m req w).2) = Some 404
  /\ (forall m', kind m' = Update -> table_of m' = table_of m ->
        status <$> response_of (route m' req' (route m req w).2) = Some 404).
Proof.
  intros Hk He Hid Hw. rewrite (delete_shape _ _ _ Hk). intros Hok.
  destruct (delete_route_deleted _ _ _ _ _ _ Hok) as (_ & Hrows & Hfault).
  set (w' := (delete_route _ _ _ _ req w).2) in *.
  assert (Hgone : rows w' (table_of m) !! params_id req' = None).
  { rewrite Hrows, Hid. destruct (decide _) as [_|Hne]; [reflexivity|].
    exfalso. apply Hne. split; reflexivity. }
  assert (Hw' : forall c, fault w' c = false) by (intros c; rewrite Hfault; apply Hw).
  split; [|split].
  - rewrite single_run. cbv zeta. unfold response_of. cbn [fst].
    rewrite Hw', <- He, Hgone. reflexivity.
  - rewrite (delete_shape _ _ _ Hk), delete_route_run. cbv zeta.
    rewrite Hw', Hgone. reflexivity.
  - intros m' Hk' Ht'. rewrite (update_shape _ _ _ Hk'), update_route_run. cbv zeta.
    rewrite Hw', Ht', Hgone. reflexivity.
Qed.

End UpdateDelete.

(** ** Location updates *)

Section LocationUpdates.
Context `{Platform}.

Lemma location_route_run t column entity missing refusal failure forbidden req w :
  location_route t column entity missing refusal failure forbidden req w =
  match bounded_number (-180) 180 (body req !! "longitude"),
        bounded_number (-90) 90 (body req !! "latitude") with
  | Some longitude, Some latitude =>
      let id := params_id req in
      let w1 := log_call (SelectById t id) w in
      if fault w (SelectById t id) then (Ok (failed failure), w1)
      else
        match rows w t !! id with
        | None => (Ok {| status := 404; payload := Message missing |}, w1)
        | Some existing =>
            match user req with
            | None => (Ok (failed failure), w1)
            | Some u =>
                if forbidden existing (sub (claims u))
                then (Ok {| status := 403; payload := Message refusal |}, w1)
                else
                  match longitude, latitude with
                  | Fin lng, Fin lat =>
                      let set := <["updatedAt" := VDate (clock w)]> {[ column := VGeom lng lat ]} in
                      let w2 := log_call (UpdateRow t id set) w1 in
                      let new := assignments t set ∪ existing in
                      if fault w (UpdateRow t id set) then (Ok (failed failure), w2)
                      else
                        audit_step req
                          (fun uid =>
                             audit_entry entity id "location_update" uid req
                               (Some (snapshot column existing))
                               (Some {[ column := VLngLat (Fin lng) (Fin lat) ]}))
                          {| status := 200; payload := Entity (Some new) |}
                          failure
                          (set_table t (<[id := new]> (rows w t)) w2)
                  | _, _ => (Ok (failed failure), w1)
                  end
            end
        end
  | None, Some _ => (Ok {| status := 400; payload := Invalid ["longitude"] |}, w)
  | Some _, None => (Ok {| status := 400; payload := Invalid ["latitude"] |}, w)
  | None, None => (Ok {| status := 400; payload := Invalid ["longitude"; "latitude"] |}, w)
  end.
Proof.
  unfold location_route, try_catch. rewrite bind_run. unfold parse_location.
  destruct (bounded_number (-180) 180 (body req !! "longitude")) as [longitude|];
    destruct (bounded_number (-90) 90 (body req !! "latitude")) as [latitude|];
    try reflexivity.
  rewrite ret_run. cbv beta iota zeta. rewrite bind_run, db_select_by_id_run.
  destruct (fault w (SelectById t (params_id req))); [reflexivity|].
  destruct (rows w t !! params_id req) as [old|] eqn:Hold; [|reflexivity].
  cbv beta iota. rewrite bind_run. unfold user_sub.
  destruct (user req) as [u|]; [|reflexivity].
  rewrite ret_run. cbv beta iota.
  destruct (forbidden old (sub (claims u))); [reflexivity|].
  rewrite bind_run. unfold update_location.
  destruct longitude as [| | |lng]; try reflexivity.
  destruct latitude as [| | |lat]; try reflexivity.
  rewrite bind_run, touch_run. cbv beta iota.
  rewrite db_update_run. cbv zeta. cbn [rows fault clock log_call]. rewrite Hold.
  destruct (fault w (UpdateRow t _ _)); [reflexivity|].
  cbv beta iota. rewrite bind_run, createAuditLog_run. unfold audit_step.
  destruct (actor req) as [uid|]; [|reflexivity].
  cbv zeta. cbn [fault set_table log_call].
  destruct (fault w (InsertAudit _)); reflexivity.
Qed.

Lemma locate_shape e :
  locate e =
  location_route (spatial_table e) (spatial_column e)
    match e with SpatialAssets => "asset" | SpatialStaff => "staff" end
    (missing e) (refusal e)
    match e with
    | SpatialAssets => "Failed to update asset location"
    | SpatialStaff => "Failed to update staff location"
    end
    match e with
    | SpatialAssets => fun existingAsset userId =>
        differs (existingAsset !! "custodianId") userId
        && differs (existingAsset !! "createdBy") userId
    | SpatialStaff => fun existingStaff userId => differs (existingStaff !! "userId") userId
    end.
Proof. destruct e; reflexivity. Qed.

Lemma bounded_number_coordinate lo hi v :
  is_Some (bounded_number lo hi v) <-> coordinate lo hi v.
Proof.
  unfold bounded_number, coordinate, within.
  destruct v as [[| |n| | | | | | |]|]; try (split; [intros [? [=]]|contradiction]).
  destruct n as [| | |q]; cbn [isNaN negb andb num_ge num_le lit];
    try (split; [intros [? [=]]|contradiction]).
  destruct (Qle_bool (inject_Z lo) q) eqn:Hlo, (Qle_bool q (inject_Z hi)) eqn:Hhi;
    cbn [andb]; rewrite <- !Qle_bool_iff, Hlo, Hhi;
    (split; [intros [? E]; try discriminate E; split; reflexivity
            |intros [? ?]; try discriminate; eexists; reflexivity]).
Qed.

Lemma differs_false v userId : differs v userId = false <-> v = Some (VStr userId).
Proof.
  unfold differs. destruct v as [[| | |s| | | | | |]|]; try (split; discriminate).
  case_bool_decide as E; cbn [negb].
  - subst. split; reflexivity.
  - split; [discriminate|]. intros [= ->]. contradiction.
Qed.

Lemma forbidden_owns e (r : Row) userId :
  match e with
  | SpatialAssets => fun existingAsset userId =>
      differs (existingAsset !! "custodianId") userId
      && differs (existingAsset !! "createdBy") userId
  | SpatialStaff => fun existingStaff userId => differs (existingStaff !! "userId") userId
  end r userId = false <-> owns e r userId.
Proof.
  destruct e; unfold owns.
  - rewrite andb_false_iff, !differs_false. reflexivity.
  - apply differs_false.
Qed.

(** X13.  The coordinates of a location update are checked before the
    entity is looked up: a body whose longitude is not a number in
    [-180, 180] or whose latitude is not a number in [-90, 90] is answered
    400 with the offending properties, without any call to the store,
    whether the identifier exists or not.  The bounds themselves are
    accepted. *)
Theorem coordinates_are_checked_before_the_lookup e req w :
  (coordinate (-180) 180 (body req !! "longitude")
   /\ coordinate (-90) 90 (body req !! "latitude") ->
   status <$> response_of (locate e req w) <> Some 400
   /\ exists calls,
        trace (locate e req w).2
        = (trace w ++ SelectById (spatial_table e) (params_id req) :: calls)%list)
  /\
  (~ (coordinate (-180) 180 (body req !! "longitude")
      /\ coordinate (-90) 90 (body req !! "latitude")) ->
   exists errors,
     locate e req w = (Ok {| status := 400; payload := Invalid errors |}, w)
     /\ ("longitude" ∈ errors <-> ~ coordinate (-180) 180 (body req !! "longitude"))
     /\ ("latitude" ∈ errors <-> ~ coordinate (-90) 90 (body req !! "latitude"))).
Proof.
  rewrite locate_shape, location_route_run.
  pose proof (bounded_number_coordinate (-180) 180 (body req !! "longitude")) as Clng.
  pose proof (bounded_number_coordinate (-90) 90 (body req !! "latitude")) as Clat.
  destruct (bounded_number (-180) 180 (body req !! "longitude")) as [longitude|];
    destruct (bounded_number (-90) 90 (body req !! "latitude")) as [latitude|].
  - split; [intros _|intros Hn; exfalso; apply Hn; split;
                     [apply Clng|apply Clat]; eexists; reflexivity].
    cbv zeta. destruct (fault w (SelectById _ _)).
    { split; [discriminate|]. exists []. reflexivity. }
    destruct (rows w _ !! params_id req) as [old|].
    2: { split; [discriminate|]. exists []. reflexivity. }
    destruct (user req) as [u|].
    2: { split; [discriminate|]. exists []. reflexivity. }
    destruct (match e with SpatialAssets => _ | SpatialStaff => _ end old (sub (claims u))).
    { split; [discriminate|]. exists []. reflexivity. }
    destruct longitude as [| | |lng]; try (split; [discriminate|]; exists []; reflexivity).
    destruct latitude as [| | |lat]; try (split; [discriminate|]; exists []; reflexivity).
    destruct (fault w (UpdateRow _ _ _)).
    { split; [discriminate|]. eexists [_]. cbn [snd trace log_call].
      rewrite <- app_assoc. reflexivity. }
    unfold audit_step. destruct (actor req) as [uid|].
    + destruct (fault _ (InsertAudit _)).
      * split; [discriminate|]. eexists [_; _].
        cbn [snd trace log_call set_table draw_serial].
        rewrite <- !app_assoc. reflexivity.
      * split; [discriminate|]. eexists [_; _].
        cbn [snd trace log_call set_table append_audit].
        rewrite <- !app_assoc. reflexivity.
    + split; [discriminate|]. eexists [_]. cbn [snd trace log_call set_table].
      rewrite <- app_assoc. reflexivity.
  - assert (Hlat : ~ coordinate (-90) 90 (body req !! "latitude"))
      by (intros Hc; apply Clat in Hc as [? [=]]).
    assert (Hlng : coordinate (-180) 180 (body req !! "longitude"))
      by (apply Clng; eexists; reflexivity).
    split; [intros [_ Hc]; contradiction|intros _].
    eexists. split; [reflexivity|]. split.
    + split; [intros Hin|intros Hn; contradiction].
      apply list_elem_of_singleton in Hin. discriminate.
    + split; [intros _; exact Hlat|intros _; apply list_elem_of_singleton; reflexivity].
  - assert (Hlng : ~ coordinate (-180) 180 (body req !! "longitude"))
      by (intros Hc; apply Clng in Hc as [? [=]]).
    assert (Hlat : coordinate (-90) 90 (body req !! "latitude"))
      by (apply Clat; eexists; reflexivity).
    split; [intros [Hc _]; contradiction|intros _].
    eexists. split; [reflexivity|]. split.
    + split; [intros _; exact Hlng|intros _; apply list_elem_of_singleton; reflexivity].
    + split; [intros Hin|intros Hn; contradiction].
      apply list_elem_of_singleton in Hin. discriminate.
  - assert (Hlng : ~ coordinate (-180) 180 (body req !! "longitude"))
      by (intros Hc; apply Clng in Hc as [? [=]]).
    assert (Hlat : ~ coordinate (-90) 90 (body req !! "latitude"))
      by (intros Hc; apply Clat in Hc as [? [=]]).
    split; [intros [Hc _]; contradiction|intros _].
    eexists. split; [reflexivity|]. split.
    + split; [intros _; exact Hlng|intros _; apply list_elem_of_here].
    + split; [intros _; exact Hlat|intros _; apply list_elem_of_further, list_elem_of_here].
Qed.

(** X14.  A location update answered 200 was asked for by an owner of the
    entity; it changed the location column and [updatedAt] of that row and
    nothing else in the tables. *)
Theorem location_update_is_the_owners e req w :
  status <$> response_of (locate e req w) = Some 200 ->
  exists u old new,
    user req = Some u
    /\ rows w (spatial_table e) !! params_id req = Some old
    /\ owns e old (sub (claims u))
    /\ payload <$> response_of (locate e req w) = Some (Entity (Some new))
    /\ rows (locate e req w).2 (spatial_table e) !! params_id req = Some new
    /\ new !! "updatedAt" = Some (VDate (clock w))
    /\ (forall k, k <> spatial_column e -> k <> "updatedAt" -> new !! k = old !! k)
    /\ (forall t k, t <> spatial_table e \/ k <> params_id req ->
          rows (locate e req w).2 t !! k = rows w t !! k).
Proof.
  rewrite locate_shape, location_route_run.
  destruct (bounded_number (-180) 180 (body req !! "longitude")) as [longitude|];
    destruct (bounded_number (-90) 90 (body req !! "latitude")) as [latitude|];
    try discriminate.
  cbv zeta. destruct (fault w (SelectById _ _)); [discriminate|].
  destruct (rows w _ !! params_id req) as [old|] eqn:Hold; [|discriminate].
  destruct (user req) as [u|]; [|discriminate].
  destruct (match e with SpatialAssets => _ | SpatialStaff => _ end old (sub (claims u)))
    eqn:Hforbidden; [discriminate|].
  apply forbidden_owns in Hforbidden.
  destruct longitude as [| | |lng]; try discriminate.
  destruct latitude as [| | |lat]; try discriminate.
  destruct (fault w (UpdateRow _ _ _)); [discriminate|].
  intros Hok.
  set (new := assignments (spatial_table e)
                (<["updatedAt" := VDate (clock w)]>
                   {[ spatial_column e := VGeom lng lat ]}) ∪ old) in *.
  exists u, old, new.
  split; [reflexivity|]. split; [reflexivity|]. split; [exact Hforbidden|].
  assert (Hstamp : new !! "updatedAt" = Some (VDate (clock w))).
  { apply lookup_union_Some_l.
    rewrite assignments_lookup, updatedAt_column, lookup_insert_eq. reflexivity. }
  assert (Hnew : forall k, k <> spatial_column e -> k <> "updatedAt" ->
            new !! k = old !! k).
  { intros k Hc Hu. apply lookup_union_r.
    rewrite assignments_lookup, lookup_insert_ne by congruence.
    rewrite lookup_singleton_ne by congruence.
    destruct (find_column k (columns (spatial_table e))); reflexivity. }
  assert (Hrows : forall w0 t k, rows w0 = rows w ->
            (t = spatial_table e /\ k = params_id req ->
             rows (set_table (spatial_table e)
                     (<[params_id req := new]> (rows w (spatial_table e))) w0) t !! k
             = Some new)
            /\ (t <> spatial_table e \/ k <> params_id req ->
                rows (set_table (spatial_table e)
                        (<[params_id req := new]> (rows w (spatial_table e))) w0) t !! k
                = rows w t !! k)).
  { intros w0 t k Hw0. rewrite (rows_written _ _ _ _ _ _ _ Hw0).
    destruct (decide _) as [Heq|Hne]; (split; [intros Hx|intros Hx]);
      try reflexivity; exfalso.
    - destruct Heq, Hx; contradiction.
    - apply Hne, Hx. }
  revert Hok. unfold audit_step. destruct (actor req) as [uid|].
  - destruct (fault _ (InsertAudit _)); [discriminate|]. intros _.
    split; [reflexivity|]. cbn [snd rows append_audit log_call].
    split; [apply Hrows; [reflexivity|split; reflexivity]|].
    split; [exact Hstamp|]. split; [exact Hnew|].
    intros t k Hne. apply Hrows; [reflexivity|exact Hne].
  - intros _. split; [reflexivity|]. cbn [snd].
    split; [apply Hrows; [reflexivity|split; reflexivity]|].
    split; [exact Hstamp|]. split; [exact Hnew|].
    intros t k Hne. apply Hrows; [reflexivity|exact Hne].
Qed.

(** X15.  A location update asked for by someone who is not an owner of
    the entity is answered 403; the lookup is the only call to the store,
    so that no row and no audit record changes. *)
Theorem location_update_by_a_stranger_is_forbidden e req w u :
  coordinate (-180) 180 (body req !! "longitude") ->
  coordinate (-90) 90 (body req !! "latitude") ->
  fault w (SelectById (spatial_table e) (params_id req)) = false ->
  stored w (spatial_table e) (params_id req) = true ->
  user req = Some u ->
  (forall old, rows w (spatial_table e) !! params_id req = Some old ->
               ~ owns e old (sub (claims u))) ->
  locate e req w
  = (Ok {| status := 403; payload := Message (refusal e) |},
     log_call (SelectById (spatial_table e) (params_id req)) w).
Proof.
  intros Hlng Hlat Hfault Hstored Hu Hstranger. unfold stored in Hstored.
  destruct (rows w (spatial_table e) !! params_id req) as [old|] eqn:Hold; [|discriminate].
  specialize (Hstranger old eq_refl).
  apply bounded_number_coordinate in Hlng as [longitude Hlng].
  apply bounded_number_coordinate in Hlat as [latitude Hlat].
  rewrite locate_shape, location_route_run, Hlng, Hlat. cbv zeta.
  rewrite Hfault, Hold, Hu.
  destruct (match e with SpatialAssets => _ | SpatialStaff => _ end old (sub (claims u)))
    eqn:Hforbidden; [reflexivity|].
  apply forbidden_owns in Hforbidden. contradiction.
Qed.

End LocationUpdates.

(** ** Pages *)

Section Pages.
Context `{Platform}.



Lemma length_order_by {A} (leb : A -> A -> bool) l : length (order_by leb l) = length l.
Proof.
  unfold order_by. induction l as [|x l IH]; cbn [foldr]; [reflexivity|].
  cbn [length]. rewrite <- IH. generalize (foldr (insert_sorted leb) [] l). intros l'.
  induction l' as [|y l' IH']; cbn; [reflexivity|].
  destruct (leb x y); cbn; [reflexivity|]. rewrite IH'. reflexivity.
Qed.



Lemma elem_of_List_filter {A} (f : A -> bool) x l :
  x ∈ List.filter f l <-> x ∈ l /\ f x = true.
Proof. rewrite !list_elem_of_In. apply filter_In. Qed.

Lemma elem_of_table_rows w t r :
  r ∈ table_rows w t <-> exists id, rows w t !! id = Some r.
Proof.
  unfold table_rows. rewrite list_elem_of_fmap. split.
  - intros ([id r'] & -> & Hin). apply elem_of_map_to_list in Hin. eauto.
  - intros [id Hid]. exists (id, r). split; [reflexivity|].
    apply elem_of_map_to_list. exact Hid.
Qed.

Lemma bigint_value q k : bigint (Fin q) = Some k -> (inject_Z k == q)%Q.
Proof.
  unfold bigint, is_integer. destruct (Pos.eqb_spec (Qden (Qred q)) 1) as [Hden|]; [|discriminate].
  destruct (_ && _); [|discriminate]. intros [= <-].
  rewrite <- (Qred_correct q) at 2. destruct (Qred q) as [n d]. cbn in *. subst d. reflexivity.
Qed.




Lemma paged_run {A} (c : StoreCall) (page : M (A * Z)) (answer : A -> Z -> Payload)
    failure w :
  (forall w0, (page w0).2 = w0) ->
  try_catch
    ('(items, total) ← (call c;; page); respond 200 (answer items total))
    (on_failure failure) w
  = (Ok (if fault w c then failed failure
         else match (page (log_call c w)).1 with
              | Ok (items, total) => {| status := 200; payload := answer items total |}
              | Throw _ => failed failure
              end),
     log_call c w).
Proof.
  intros Hpage. unfold try_catch. rewrite !bind_run, call_run.
  destruct (fault w c); [reflexivity|]. cbv beta iota.
  specialize (Hpage (log_call c w)).
  destruct (page (log_call c w)) as [[[items total]|e] w']; cbn in Hpage; subst w';
    reflexivity.
Qed.

Lemma select_page_run t conditions column limit offset w :
  select_page t conditions column limit offset w =
  (match skip offset (order_by (newest_first column)
                        (List.filter conditions (table_rows w t))) ≫= cut limit with
   | Some page => Ok (page, Z.of_nat (length (List.filter conditions (table_rows w t))))
   | None => Throw StoreError
   end,
   w).
Proof.
  unfold select_page. rewrite bind_run. unfold get_world at 1. cbv beta iota zeta.
  rewrite bind_run. unfold limit_offset, newest_first.
  destruct (_ ≫= _); reflexivity.
Qed.

(** The run of a listing of entities. *)
Lemma entity_listing_run l t req w :
  listed_table l = Some t ->
  listing l req w =
  (Ok (if fault w (listing_call l req (asked_limit l req) (asked_offset req))
          || unknown_status l req
       then failed (listing_failure l)
       else match skip (asked_offset req)
                    (order_by (newest_first (listed_order l))
                       (List.filter (listed_where l req) (table_rows w t)))
                  ≫= cut (asked_limit l req) with
            | Some page =>
                {| status := 200;
                   payload := Page page (Z.of_nat (length (List.filter (listed_where l req)
                                                             (table_rows w t)))) |}
            | None => failed (listing_failure l)
            end),
   log_call (listing_call l req (asked_limit l req) (asked_offset req)) w).
Proof.
  intros Ht. unfold asked_limit, asked_offset, unknown_status.
  destruct l; cbn in Ht; try discriminate; injection Ht as <-;
    cbn [listing listing_call page_size listing_failure listed_order listed_where];
    [ unfold get_assets, getAssets | unfold get_staff, getStaffMembers
    | unfold get_documents, getDocuments | unfold get_workflows, getWorkflows
    | unfold get_work_orders, getWorkOrders ];
    cbv zeta.
  1-3,5: rewrite paged_run by (intros w0; apply select_page_world);
    rewrite select_page_run; cbn [fst];
    destruct (fault w _); cbn [orb]; try reflexivity;
    destruct (_ ≫= _); reflexivity.
  rewrite paged_run.
  2: { intros w0. destruct (truthy_string _); [destruct (bool_decide _)|];
         try apply select_page_world. reflexivity. }
  destruct (fault w _); cbn [orb]; [reflexivity|]. unfold listed_where.
  destruct (truthy_string (query req !! "status")) as [s|].
  - destruct (bool_decide (s ∈ workflowStatusEnum)); cbn [negb]; [|reflexivity].
    rewrite select_page_run. cbn [fst]. unfold status_is.
    destruct (_ ≫= _); reflexivity.
  - rewrite select_page_run. cbn [fst]. destruct (_ ≫= _); reflexivity.
Qed.

(** The run of the listing of the audit table. *)
Lemma audit_listing_run req w :
  listing ListAuditLogs req w =
  (Ok (if fault w (listing_call ListAuditLogs req (asked_limit ListAuditLogs req)
                     (asked_offset req))
       then failed (listing_failure ListAuditLogs)
       else match skip (asked_offset req) (order_by latest_first (auditLogs w))
                  ≫= cut (asked_limit ListAuditLogs req) with
            | Some page =>
                {| status := 200;
                   payload := LogsPage page (Z.of_nat (length (auditLogs w))) |}
            | None => failed (listing_failure ListAuditLogs)
            end),
   log_call (listing_call ListAuditLogs req (asked_limit ListAuditLogs req)
               (asked_offset req)) w).
Proof.
  unfold asked_limit, asked_offset.
  cbn [listing listing_call page_size listing_failure].
  unfold get_audit_logs, getAuditLogs. cbv zeta.
  assert (Hrun : forall limit offset w0,
            (w1 ← get_world;
             logs ← limit_offset limit offset
                      (order_by (fun a b => log_timestamp b <=? log_timestamp a)
                         (auditLogs w1));
             mret (logs, Z.of_nat (length (auditLogs w1)))) w0
            = (match skip offset (order_by latest_first (auditLogs w0)) ≫= cut limit with
               | Some page => Ok (page, Z.of_nat (length (auditLogs w0)))
               | None => Throw StoreError
               end,
               w0)).
  { intros limit offset w0. rewrite bind_run. unfold get_world at 1. cbv beta iota.
    rewrite bind_run. unfold limit_offset, latest_first.
    destruct (_ ≫= _); reflexivity. }
  rewrite paged_run by (intros w0; rewrite Hrun; reflexivity).
  rewrite Hrun. cbn [fst auditLogs log_call].
  destruct (fault w _); [reflexivity|].
  destruct (_ ≫= _); reflexivity.
Qed.



Lemma negative_not_falsy n : num_lt n (lit 0) = true -> falsy n = false.
Proof.
  destruct n as [| | |q]; try reflexivity; try discriminate. cbn [num_lt lit falsy].
  intros Hlt. apply negb_true_iff, Qle_bool_false in Hlt.
  destruct (Qeq_bool q 0) eqn:Hz; [|reflexivity].
  apply Qeq_bool_iff in Hz. rewrite Hz in Hlt. exfalso. exact (Qlt_irrefl _ Hlt).
Qed.

Lemma negative_offset_refused {A} limit offset (l : list A) :
  num_lt offset (lit 0) = true -> skip offset l ≫= cut limit = None.
Proof.
  intros Hneg. unfold skip. rewrite (negative_not_falsy _ Hneg).
  destruct offset as [| | |q]; try reflexivity; try discriminate.
  destruct (bigint (Fin q)) as [k|] eqn:Hk; [|reflexivity].
  apply bigint_value in Hk. cbn [num_lt lit] in Hneg.
  apply negb_true_iff, Qle_bool_false in Hneg. rewrite <- Hk in Hneg.
  rewrite <- Zlt_Qlt in Hneg. rewrite (proj2 (Z.ltb_lt k 0) Hneg). reflexivity.
Qed.

Lemma negative_limit_ignored {A} limit (l : list A) :
  num_lt limit (lit 0) = true -> cut limit l = Some l.
Proof.
  intros Hneg. unfold cut.
  destruct limit as [| | |q]; try reflexivity; try discriminate.
  cbn [num_lt num_ge num_le lit] in *. apply negb_true_iff in Hneg. rewrite Hneg.
  reflexivity.
Qed.

(** X18.  A negative offset is handed to the store, which refuses the
    query: the listing is answered 500, and nothing changes.  A negative
    limit never reaches the store: the query has no LIMIT clause, and the
    listing asked for without an offset is answered 200 with every row
    that passes its filter. *)
Theorem negative_offset_is_refused_negative_limit_is_ignored l req w :
  (num_lt (parseInt (query req !! "offset")) (lit 0) = true ->
   response_of (listing l req w) = Some (failed (listing_failure l))
   /\ rows (listing l req w).2 = rows w
   /\ auditLogs (listing l req w).2 = auditLogs w)
  /\
  (forall t,
     listed_table l = Some t ->
     num_lt (parseInt (query req !! "limit")) (lit 0) = true ->
     query req !! "offset" = None ->
     unknown_status l req = false ->
     fault w (listing_call l req (parseInt (query req !! "limit")) (lit 0)) = false ->
     exists items total,
       response_of (listing l req w)
       = Some {| status := 200; payload := Page items total |}
       /\ Z.of_nat (length items) = total
       /\ forall id r, rows w t !! id = Some r -> listed_where l req r = true -> r ∈ items).
Proof.
  split.
  - intros Hneg.
    assert (Hoffset : asked_offset req = parseInt (query req !! "offset"))
      by (unfold asked_offset, or_default; rewrite (negative_not_falsy _ Hneg); reflexivity).
    destruct (listed_table l) as [t|] eqn:Ht.
    + rewrite (entity_listing_run _ _ _ _ Ht), Hoffset.
      rewrite (negative_offset_refused _ _ _ Hneg).
      destruct (_ || _); repeat split.
    + assert (l = ListAuditLogs) as -> by (destruct l; try discriminate; reflexivity).
      rewrite audit_listing_run, Hoffset. rewrite (negative_offset_refused _ _ _ Hneg).
      destruct (fault w _); repeat split.
  - intros t Ht Hneg Hnone Hstatus Hfault.
    assert (Hlimit : asked_limit l req = parseInt (query req !! "limit"))
      by (unfold asked_limit, or_default; rewrite (negative_not_falsy _ Hneg); reflexivity).
    assert (Hoffset : asked_offset req = lit 0)
      by (unfold asked_offset; rewrite Hnone; reflexivity).
    rewrite (entity_listing_run _ _ _ _ Ht), Hlimit, Hoffset, Hfault, Hstatus.
    cbn [orb]. unfold skip at 1. cbn [falsy lit mbind option_bind].
    change (Qeq_bool (inject_Z 0) 0) with true. cbn [mbind option_bind].
    rewrite (negative_limit_ignored _ _ Hneg). unfold response_of. cbn [fst].
    eexists _, _. split; [reflexivity|]. split; [rewrite length_order_by; reflexivity|].
    intros id r Hr Hpass. apply elem_of_order_by, elem_of_List_filter.
    split; [apply elem_of_table_rows; eauto|exact Hpass].
Qed.

End Pages.

(** ** Proximity queries find every entity in range *)

Section ProximityComplete.
Context `{Platform}.

(** The runs of a proximity query that are answered 200. *)
Lemma spatial_found e req w :
  status <$> response_of (spatial e req w) = Some 200 ->
  exists lng lat radius,
    valid_query req (Fin lng) (Fin lat) (Fin radius)
    /\ fault w (SelectNear (spatial_table e) (Fin lng) (Fin lat) (Fin radius)) = false
    /\ spatial e req w
       = (Ok {| status := 200;
                payload := Entities
                  (order_by by_distance
                     (omap (near_row (spatial_column e) lng lat radius)
                        (table_rows w (spatial_table e)))) |},
          log_call (SelectNear (spatial_table e) (Fin lng) (Fin lat) (Fin radius)) w).
Proof.
  assert (spatial e req w
          = spatial_search (select_near (spatial_table e) (spatial_column e))
              match e with
              | SpatialAssets => "Failed to find nearby assets"
              | SpatialStaff => "Failed to find nearby staff"
              end req w) as -> by (destruct e; reflexivity).
  rewrite spatial_search_run.
  destruct (truthy_string (query req !! "lng")) as [slng|] eqn:Elng; [|discriminate].
  destruct (truthy_string (query req !! "lat")) as [slat|] eqn:Elat; [|discriminate].
  destruct (truthy_string (query req !! "radius")) as [sradius|] eqn:Eradius; [|discriminate].
  cbv zeta.
  destruct (isNaN (parseFloat slng)) eqn:N1; [discriminate|].
  destruct (isNaN (parseFloat slat)) eqn:N2; [discriminate|].
  destruct (isNaN (parseFloat sradius)) eqn:N3; [discriminate|].
  cbn [orb].
  destruct (num_lt (parseFloat slng) _ || _) eqn:C1; [discriminate|].
  destruct (num_lt (parseFloat slat) _ || _) eqn:C2; [discriminate|].
  destruct (num_le (parseFloat sradius) _ || _) eqn:C3; [discriminate|].
  apply range_check in C1; [|exact N1]. apply range_check in C2; [|exact N2].
  apply radius_check in C3; [|exact N3].
  rewrite select_near_run. cbv zeta.
  destruct (fault w _) eqn:Hfault; [discriminate|].
  destruct (parseFloat slng) as [| | |lng] eqn:Plng; try contradiction.
  destruct (parseFloat slat) as [| | |lat] eqn:Plat; try contradiction.
  destruct (parseFloat sradius) as [| | |radius] eqn:Pradius; try contradiction.
  intros _. exists lng, lat, radius. split; [|split; [exact Hfault|reflexivity]].
  exists slng, slat, sradius. rewrite Plng, Plat, Pradius.
  split; [exact Elng|]. split; [exact Elat|]. split; [exact Eradius|].
  split; [reflexivity|]. split; [reflexivity|]. split; [reflexivity|].
  split; [exact C1|]. split; [exact C2|exact C3].
Qed.

Lemma length_omap_le {A B} (f : A -> option B) (l : list A) :
  (length (omap f l) <= length l)%nat.
Proof.
  induction l as [|x l IH]; cbn; [lia|]. destruct (f x); cbn; lia.
Qed.

(** X19.  A proximity query answered 200 misses nothing: every stored row
    whose point ST_DWithin places within the radius of the query point is
    in the answer, with the distance that ST_Distance reports; and the
    answer holds no more rows than the table. *)
Theorem near_finds_every_entity_within_the_radius e req w :
  status <$> response_of (spatial e req w) = Some 200 ->
  exists lng lat radius items,
    valid_query req (Fin lng) (Fin lat) (Fin radius)
    /\ payload <$> response_of (spatial e req w) = Some (Entities items)
    /\ (forall id src x y,
          rows w (spatial_table e) !! id = Some src ->
          src !! spatial_column e = Some (VGeom x y) ->
          ST_DWithin (x, y) (lng, lat) radius = true ->
          <["distance" := VNum (Fin (ST_Distance (x, y) (lng, lat)))]>
            (<[spatial_column e := VGeoJSON x y]> src) ∈ items)
    /\ (length items <= size (rows w (spatial_table e)))%nat.
Proof.
  intros Hok. destruct (spatial_found _ _ _ Hok) as (lng & lat & radius & Hv & _ & ->).
  exists lng, lat, radius. eexists. split; [exact Hv|]. split; [reflexivity|]. split.
  - intros id src x y Hsrc Hpoint Hnear. apply elem_of_order_by.
    apply list_elem_of_omap. exists src. split.
    + apply elem_of_table_rows. exists id. exact Hsrc.
    + unfold near_row, withinDistance. rewrite Hpoint, Hnear. reflexivity.
  - rewrite length_order_by. unfold table_rows.
    etransitivity; [apply length_omap_le|].
    rewrite length_fmap, length_map_to_list. reflexivity.
Qed.

End ProximityComplete.

(** ** The dashboard *)

Section DashboardFacts.
Context `{Platform}.
Variable refused : ReadCall -> bool.

Lemma count_rows_run t status w :
  count_rows refused t status w =
  (if refused (CountRows t status) then Throw StoreError
   else Ok (Z.of_nat (length (List.filter (match status with
                                          | Some label => status_is label
                                          | None => fun _ => true
                                          end) (table_rows w t)))),
   w).
Proof.
  unfold count_rows, read. rewrite bind_run.
  destruct (refused (CountRows t status)); reflexivity.
Qed.

Lemma length_all {A} (l : list A) : length (List.filter (fun _ => true) l) = length l.
Proof. induction l as [|x l IH]; cbn; [reflexivity|]. rewrite IH. reflexivity. Qed.

Lemma length_table_rows w t : Z.of_nat (length (table_rows w t)) = row_count w t.
Proof.
  unfold table_rows, row_count. rewrite length_fmap, length_map_to_list. reflexivity.
Qed.

Lemma get_dashboard_stats_run req w :
  get_dashboard_stats refused req w =
  (Ok (if refused (CountRows assets None) || refused (CountRows staff (Some "active"))
          || refused (CountRows documents None)
          || refused (CountRows workflows (Some "pending"))
       then {| reply_status := 500; reply_json := inl "Failed to fetch dashboard stats" |}
       else {| reply_status := 200;
               reply_json := inr {| totalAssets := row_count w assets;
                                    activeStaff := status_count w staff "active";
                                    totalDocuments := row_count w documents;
                                    pendingApprovals := status_count w workflows "pending" |} |}),
   w).
Proof.
  unfold get_dashboard_stats, getDashboardStats, try_catch.
  rewrite !bind_run, count_rows_run.
  destruct (refused (CountRows assets None)); [reflexivity|].
  rewrite bind_run, count_rows_run.
  destruct (refused (CountRows staff _)); [reflexivity|].
  rewrite bind_run, count_rows_run.
  destruct (refused (CountRows documents _)); [reflexivity|].
  rewrite bind_run, count_rows_run.
  destruct (refused (CountRows workflows _)); [reflexivity|].
  cbn [orb]. unfold reply. rewrite !ret_run.
  rewrite !length_all, !length_table_rows. reflexivity.
Qed.

End DashboardFacts.

(** ** The dashboard follows the mutations *)

Section DashboardTotals.
Context `{Platform}.
Variable refused : ReadCall -> bool.

Lemma rows_pointwise (w w' : World) t id (r : option Row) :
  (forall t' k, rows w' t' !! k = if decide (t' = t /\ k = id) then r else rows w t' !! k) ->
  rows w' t = partial_alter (fun _ => r) id (rows w t)
  /\ forall t', t' <> t -> rows w' t' = rows w t'.
Proof.
  intros Hrows. split.
  - apply map_eq. intros k. rewrite Hrows. destruct (decide (k = id)) as [->|Hne].
    + rewrite lookup_partial_alter_eq.
      destruct (decide (t = t /\ id = id)) as [_|Hn]; [reflexivity|].
      exfalso. apply Hn. split; reflexivity.
    + rewrite lookup_partial_alter_ne by congruence.
      destruct (decide (t = t /\ k = id)) as [[_ ?]|_]; [contradiction|reflexivity].
  - intros t' Hne. apply map_eq. intros k. rewrite Hrows.
    destruct (decide (t' = t /\ k = id)) as [[? _]|_]; [contradiction|reflexivity].
Qed.

Lemma filter_length_Permutation {A} (f : A -> bool) (l l' : list A) :
  l ≡ₚ l' -> length (List.filter f l) = length (List.filter f l').
Proof.
  induction 1 as [|x l l' _ IH|x y l|l l' l'' _ IH _ IH']; cbn.
  - reflexivity.
  - destruct (f x); cbn; rewrite IH; reflexivity.
  - destruct (f x), (f y); reflexivity.
  - rewrite IH. exact IH'.
Qed.

(** The tables after a mutation that is answered with its success code. *)
Lemma mutation_rows m req w :
  status <$> response_of (route m req w) = Some (kind_success (kind m)) ->
  exists id,
    (forall t', t' <> table_of m -> rows (route m req w).2 t' = rows w t')
    /\ match kind m with
       | Create =>
           exists input data,
             input_of (owner_of m) req = Some input
             /\ zod_parse (schema_of m) input = inr data
             /\ rows w (table_of m) !! id = None
             /\ rows (route m req w).2 (table_of m)
                = <[id := new_row (table_of m) w data]> (rows w (table_of m))
       | Update =>
           is_Some (rows w (table_of m) !! id)
           /\ exists new, rows (route m req w).2 (table_of m)
                          = <[id := new]> (rows w (table_of m))
       | Delete =>
           is_Some (rows w (table_of m) !! id)
           /\ rows (route m req w).2 (table_of m) = delete id (rows w (table_of m))
       end.
Proof.
  destruct (kind m) eqn:Hk; cbn [kind_success].
  - rewrite (create_shape _ _ _ Hk). intros Hok.
    destruct (create_route_created _ _ _ _ _ _ _ Hok)
      as (input & data & id & Hin & Hparse & _ & _ & Hfresh & _ & Hrows & _).
    apply rows_pointwise in Hrows as [Hrows Hothers].
    exists id. split; [exact Hothers|]. exists input, data.
    split; [exact Hin|]. split; [exact Hparse|]. split; [exact Hfresh|exact Hrows].
  - rewrite (update_shape _ _ _ Hk). intros Hok.
    destruct (update_route_updated _ _ _ _ _ _ _ Hok) as (old & data & Hold & _ & _ & Hrows & _).
    apply rows_pointwise in Hrows as [Hrows Hothers].
    exists (params_id req). split; [exact Hothers|].
    split; [eexists; exact Hold|]. eexists. exact Hrows.
  - rewrite (delete_shape _ _ _ Hk). intros Hok.
    destruct (delete_route_deleted _ _ _ _ _ _ Hok) as (Hold & Hrows & _).
    apply rows_pointwise in Hrows as [Hrows Hothers].
    exists (params_id req). split; [exact Hothers|]. split; [exact Hold|exact Hrows].
Qed.

Lemma row_count_change m req w t :
  status <$> response_of (route m req w) = Some (kind_success (kind m)) ->
  row_count (route m req w).2 t = row_count w t + change m t.
Proof.
  intros Hok. destruct (mutation_rows _ _ _ Hok) as (id & Hothers & Hrows).
  unfold change, row_count. destruct (decide (table_of m = t)) as [<-|Hne].
  - destruct (kind m).
    + destruct Hrows as (input & data & _ & _ & Hfresh & ->).
      rewrite map_size_insert_None by exact Hfresh. lia.
    + destruct Hrows as (Hold & new & ->).
      rewrite map_size_insert_Some by exact Hold. lia.
    + destruct Hrows as (Hold & ->).
      rewrite map_size_delete_Some by exact Hold.
      assert (size (rows w (table_of m)) <> 0%nat).
      { intros Hz. apply map_size_empty_inv in Hz. rewrite Hz, lookup_empty in Hold.
        destruct Hold as [? [=]]. }
      lia.
  - rewrite Hothers by congruence. lia.
Qed.

Lemma status_count_created m req w label :
  kind m = Create ->
  status <$> response_of (route m req w) = Some 201 ->
  exists row,
    payload <$> response_of (route m req w) = Some (Entity (Some row))
    /\ status_count (route m req w).2 (table_of m) label
       = status_count w (table_of m) label + (if status_is label row then 1 else 0).
Proof.
  intros Hk Hok.
  assert (Hok' : status <$> response_of (route m req w) = Some (kind_success (kind m)))
    by (rewrite Hk; exact Hok).
  destruct (mutation_rows _ _ _ Hok') as (id & _ & Hrows). rewrite Hk in Hrows.
  destruct Hrows as (input & data & Hin & Hparse & Hfresh & Hrows).
  rewrite (create_shape _ _ _ Hk) in Hok.
  destruct (create_route_created _ _ _ _ _ _ _ Hok)
    as (input' & data' & id' & Hin' & Hparse' & _ & _ & _ & Hresp & _).
  rewrite Hin in Hin'. injection Hin' as <-. rewrite Hparse in Hparse'. injection Hparse' as <-.
  exists (new_row (table_of m) w data).
  rewrite (create_shape _ _ _ Hk), Hresp. split; [reflexivity|].
  rewrite <- (create_shape _ _ _ Hk). unfold status_count, table_rows. rewrite Hrows.
  rewrite (filter_length_Permutation _ _
             (new_row (table_of m) w data :: (map_to_list (rows w (table_of m))).*2)).
  - cbn [List.filter]. destruct (status_is label _); cbn [length]; lia.
  - rewrite map_to_list_insert by exact Hfresh. reflexivity.
Qed.

(** X20.  After a mutation answered with its success code the dashboard
    shows one asset or document more for a create, one less for a delete
    and as many for an update; a workflow filed without a status is one
    more pending approval, a staff member created without a status one
    more active member. *)
Theorem dashboard_totals_follow_the_mutations m req w :
  (forall c, refused c = false) ->
  status <$> response_of (route m req w) = Some (kind_success (kind m)) ->
  exists before after,
    (get_dashboard_stats refused req w).1
      = Ok {| reply_status := 200; reply_json := inr before |}
    /\ (get_dashboard_stats refused req (route m req w).2).1
       = Ok {| reply_status := 200; reply_json := inr after |}
    /\ totalAssets after = totalAssets before + change m assets
    /\ totalDocuments after = totalDocuments before + change m documents
    /\ (table_of m <> staff -> activeStaff after = activeStaff before)
    /\ (table_of m <> workflows -> pendingApprovals after = pendingApprovals before)
    /\ (m = PostWorkflows -> body req !! "status" = None ->
        pendingApprovals after = pendingApprovals before + 1)
    /\ (m = PostStaff -> body req !! "status" = None ->
        activeStaff after = activeStaff before + 1).
Proof.
  intros Hreads Hok. rewrite !get_dashboard_stats_run, !Hreads. cbn [orb fst].
  eexists _, _. split; [reflexivity|]. split; [reflexivity|].
  cbn [totalAssets totalDocuments activeStaff pendingApprovals].
  split; [apply row_count_change, Hok|]. split; [apply row_count_change, Hok|].
  destruct (mutation_rows _ _ _ Hok) as (id & Hothers & _).
  split; [intros Hne; unfold status_count, table_rows; rewrite Hothers by congruence;
          reflexivity|].
  split; [intros Hne; unfold status_count, table_rows; rewrite Hothers by congruence;
          reflexivity|].
  assert (Hdefault : forall label,
            (m = PostWorkflows /\ label = "pending") \/ (m = PostStaff /\ label = "active") ->
            body req !! "status" = None ->
            status_count (route m req w).2 (table_of m) label
            = status_count w (table_of m) label + 1).
  { intros label Hm Hnone.
    assert (Hk : kind m = Create) by (destruct Hm as [[-> _]|[-> _]]; reflexivity).
    rewrite Hk in Hok.
    destruct (status_count_created m req w label Hk Hok) as (row & Hrow & ->).
    rewrite (create_shape _ _ _ Hk) in Hok, Hrow.
    destruct (create_route_created _ _ _ _ _ _ _ Hok)
      as (input & data & id' & Hin & Hparse & _ & _ & _ & Hresp & _).
    rewrite Hresp in Hrow. injection Hrow as <-.
    assert (Hdata : data !! "status" = None).
    { rewrite (parsed_lookup _ _ _ _ Hparse).
      destruct Hm as [[-> _]|[-> _]]; cbn in Hin.
      - destruct (user req); [|discriminate]. injection Hin as <-.
        rewrite lookup_insert_ne by discriminate. rewrite Hnone.
        destruct (bool_decide _); reflexivity.
      - injection Hin as <-. rewrite Hnone. destruct (bool_decide _); reflexivity. }
    assert (status_is label (new_row (table_of m) w data) = true) as ->; [|reflexivity].
    unfold status_is.
    destruct Hm as [[-> ->]|[-> ->]]; cbn [table_of].
    - erewrite new_row_default; [|eval_find_column; reflexivity|exact Hdata]. reflexivity.
    - erewrite new_row_default; [|eval_find_column; reflexivity|exact Hdata]. reflexivity. }
  split.
  - intros Hm Hnone. subst m. apply (Hdefault "pending"); [|exact Hnone].
    left. split; reflexivity.
  - intros Hm Hnone. subst m. apply (Hdefault "active"); [|exact Hnone].
    right. split; reflexivity.
Qed.

End DashboardTotals.

(** ** The global search *)

Section SearchFacts.
Context `{Platform}.
Variable refused : ReadCall -> bool.

Lemma search_rows_run t cols searchTerm w :
  search_rows refused t cols searchTerm w =
  (if refused (SearchRows t searchTerm) then Throw StoreError
   else Ok (take 10 (List.filter (like_any cols searchTerm) (table_rows w t))),
   w).
Proof.
  unfold search_rows, read. rewrite bind_run.
  destruct (refused (SearchRows t searchTerm)); reflexivity.
Qed.




End SearchFacts.

(** ** Every endpoint *)

Section Endpoints.
Context `{Platform}.
Variable refused : ReadCall -> bool.

Lemma untouched_refl w : untouched w w.
Proof. repeat split. Qed.

Lemma untouched_log_call c w : untouched w (log_call c w).
Proof. repeat split. Qed.

Lemma untouched_one_request t id w w' : untouched w w' -> one_request t id w w'.
Proof.
  intros (Hrows & Hseqs & _ & Hlogs & Hserial & Hclock & Hfault).
  split; [exact Hclock|]. split; [intros c; rewrite Hfault; reflexivity|].
  split; [intros t'; rewrite Hseqs; lia|].
  split; [intros t' k _; rewrite Hrows; reflexivity|].
  split; [left; rewrite Hrows; reflexivity|]. left. split; [assumption|lia].
Qed.

(** The audit step that ends a mutating route keeps what the write before
    it has done, and appends at most one record. *)
Lemma one_request_audit_step t id w w1 req e ok failure :
  clock w1 = clock w ->
  (forall c, fault w1 c = fault w c) ->
  (forall t', seqs w t' <= seqs w1 t') ->
  (forall t' k, t' <> t \/ k <> id -> rows w1 t' !! k = rows w t' !! k) ->
  written t id w w1 ->
  auditLogs w1 = auditLogs w ->
  audit_serial w1 = audit_serial w ->
  one_request t id w (audit_step req e ok failure w1).2.
Proof.
  intros Hclock Hfault Hseqs Hframe Hwritten Hlogs Hserial. unfold audit_step.
  destruct (actor req) as [uid|]; [destruct (fault w1 _)|]; cbn [snd].
  - split; [exact Hclock|]. split; [exact Hfault|]. split; [exact Hseqs|].
    split; [exact Hframe|]. split; [exact Hwritten|]. left.
    cbn [auditLogs audit_serial draw_serial log_call]. split; [assumption|lia].
  - split; [exact Hclock|]. split; [exact Hfault|]. split; [exact Hseqs|].
    split; [exact Hframe|]. split; [exact Hwritten|]. right.
    eexists. cbn [auditLogs audit_serial append_audit log_call clock].
    rewrite Hlogs, Hserial, Hclock. split; reflexivity.
  - split; [exact Hclock|]. split; [exact Hfault|]. split; [exact Hseqs|].
    split; [exact Hframe|]. split; [exact Hwritten|]. left. split; [assumption|lia].
Qed.

Lemma audit_step_answer req e ok failure w1 :
  (audit_step req e ok failure w1).1 = Ok ok
  \/ (audit_step req e ok failure w1).1 = Ok (failed failure).
Proof.
  unfold audit_step. destruct (actor req) as [uid|]; [destruct (fault w1 _)|]; cbn [fst];
    [right|left|left]; reflexivity.
Qed.

Lemma served_quiet e w code w' :
  code ∈ answers e -> untouched w w' -> served e w (Some code, w').
Proof.
  intros Hcode Hq. exists assets, "", code. split; [reflexivity|]. split; [exact Hcode|].
  split; [apply untouched_one_request; exact Hq|]. intros _. exact Hq.
Qed.

Lemma served_failed e w w' t id :
  500 ∈ answers e -> read_only e = false -> one_request t id w w' ->
  served e w (Some 500, w').
Proof.
  intros Hcode He Hone. exists t, id, 500. split; [reflexivity|]. split; [exact Hcode|].
  split; [exact Hone|]. intros [Hc|Hr]; [lia|congruence].
Qed.

Lemma one_request_defaults t id values c w :
  one_request t id w (draw_defaults t values (log_call c w)).
Proof.
  split; [rewrite clock_draw_defaults; reflexivity|].
  split; [intros c'; rewrite fault_draw_defaults; reflexivity|].
  split; [intros t'; rewrite seqs_draw_defaults_log_call; apply seqs_draw_defaults_le|].
  split; [intros t' k _; rewrite rows_draw_defaults; reflexivity|].
  split; [left; rewrite rows_draw_defaults; reflexivity|].
  left. rewrite auditLogs_draw_defaults, audit_serial_draw_defaults.
  cbn [auditLogs audit_serial log_call]. split; [reflexivity|lia].
Qed.

Lemma served_audit_step e w w1 t id req entry code failure p :
  code ∈ answers e -> 500 ∈ answers e -> read_only e = false ->
  ~ 400 <= code < 500 ->
  one_request t id w (audit_step req entry {| status := code; payload := p |} failure w1).2 ->
  served e w
    (outcome status (audit_step req entry {| status := code; payload := p |} failure w1)).
Proof.
  intros Hcode H500 He Hrange Hone. unfold outcome.
  destruct (audit_step_answer req entry {| status := code; payload := p |} failure w1)
    as [-> | ->].
  - exists t, id, code. split; [reflexivity|]. split; [exact Hcode|].
    split; [exact Hone|]. intros [Hc|Hr]; [contradiction|congruence].
  - apply (served_failed _ _ _ t id); assumption.
Qed.

Lemma served_create m req w :
  kind m = Create -> served (Mutating m) w (outcome status (route m req w)).
Proof.
  intros Hk.
  assert (H201 : 201 ∈ answers (Mutating m)) by (cbn; rewrite Hk; decide_by_computing).
  assert (H400 : 400 ∈ answers (Mutating m)) by (cbn; rewrite Hk; decide_by_computing).
  assert (H500 : 500 ∈ answers (Mutating m)) by (cbn; rewrite Hk; decide_by_computing).
  rewrite (create_shape _ _ _ Hk), create_route_run.
  destruct (input_of (owner_of m) req) as [input|];
    [|apply served_quiet; [exact H500|apply untouched_refl]].
  destruct (zod_parse (schema_of m) input) as [issues|data] eqn:Hparse;
    [apply served_quiet; [exact H400|apply untouched_refl]|].
  cbv zeta. destruct (fault w (InsertRow _ data));
    [apply served_quiet; [exact H500|apply untouched_log_call]|].
  pose proof (parsed_omitted m input data "id" Hparse (or_introl eq_refl)) as Hnone.
  destruct (new_row (table_of m) w data !! "id") as [[| | |id| | | | | |]|] eqn:Hid;
    try (apply (served_failed _ _ _ (table_of m) "");
         [exact H500|reflexivity|apply one_request_defaults]).
  destruct (rows w (table_of m) !! id) eqn:Hfresh;
    [apply (served_failed _ _ _ (table_of m) id);
     [exact H500|reflexivity|apply one_request_defaults]|].
  apply (served_audit_step _ _ _ (table_of m) id); try assumption; [reflexivity|lia|].
  apply one_request_audit_step.
  - cbn [clock set_table]. rewrite clock_draw_defaults. reflexivity.
  - intros c. cbn [fault set_table]. rewrite fault_draw_defaults. reflexivity.
  - intros t'. cbn [seqs set_table]. rewrite seqs_draw_defaults_log_call.
    apply seqs_draw_defaults_le.
  - intros t' k Hne. rewrite rows_written by (rewrite rows_draw_defaults; reflexivity).
    destruct (decide (t' = table_of m /\ k = id)) as [[? ?]|_]; [|reflexivity].
    destruct Hne; contradiction.
  - right. left. split; [exact Hfresh|]. split.
    + exists (new_row (table_of m) w data). split; [|exact Hid].
      rewrite rows_written by (rewrite rows_draw_defaults; reflexivity).
      destruct (decide _) as [_|Hne]; [reflexivity|]. exfalso. apply Hne. split; reflexivity.
    + intros prefix Hp. split.
      * rewrite (new_row_id _ _ _ _ Hp Hnone) in Hid. congruence.
      * cbn [seqs set_table]. rewrite seqs_draw_defaults_log_call.
        apply (seqs_draw_defaults_id _ _ _ _ Hp Hnone).
  - cbn [auditLogs set_table]. rewrite auditLogs_draw_defaults. reflexivity.
  - cbn [audit_serial set_table]. rewrite audit_serial_draw_defaults. reflexivity.
Qed.

Lemma served_update m req w :
  kind m = Update -> served (Mutating m) w (outcome status (route m req w)).
Proof.
  intros Hk.
  assert (H200 : 200 ∈ answers (Mutating m)) by (cbn; rewrite Hk; decide_by_computing).
  assert (H400 : 400 ∈ answers (Mutating m)) by (cbn; rewrite Hk; decide_by_computing).
  assert (H404 : 404 ∈ answers (Mutating m)) by (cbn; rewrite Hk; decide_by_computing).
  assert (H500 : 500 ∈ answers (Mutating m)) by (cbn; rewrite Hk; decide_by_computing).
  rewrite (update_shape _ _ _ Hk), update_route_run. cbv zeta.
  destruct (fault w (SelectById _ _));
    [apply served_quiet; [exact H500|apply untouched_log_call]|].
  destruct (rows w (table_of m) !! params_id req) as [old|] eqn:Hold;
    [|apply served_quiet; [exact H404|apply untouched_log_call]].
  destruct (zod_parse (partial (schema_of m)) (body req)) as [issues|data] eqn:Hparse;
    [apply served_quiet; [exact H400|apply untouched_log_call]|].
  destruct (fault w (UpdateRow _ _ _));
    [apply served_quiet; [exact H500|repeat split]|].
  apply (served_audit_step _ _ _ (table_of m) (params_id req));
    try assumption; [reflexivity|lia|].
  apply one_request_audit_step.
  - reflexivity.
  - intros c. reflexivity.
  - intros t'. cbn [seqs set_table log_call]. lia.
  - intros t' k Hne. rewrite rows_written by reflexivity.
    destruct (decide (t' = table_of m /\ k = params_id req)) as [[? ?]|_]; [|reflexivity].
    destruct Hne; contradiction.
  - right. right. left. exists old. eexists. split; [exact Hold|]. split.
    + rewrite rows_written by reflexivity.
      destruct (decide _) as [_|Hne]; [reflexivity|]. exfalso. apply Hne. split; reflexivity.
    + rewrite lookup_union, assignments_lookup, lookup_insert_ne by discriminate.
      rewrite (parsed_lookup _ _ _ _ Hparse), partial_names.
      rewrite bool_decide_eq_false_2 by (apply schema_omits; left; reflexivity).
      destruct (find_column "id" (columns (table_of m))), (old !! "id"); reflexivity.
  - reflexivity.
  - reflexivity.
Qed.

Lemma served_delete m req w :
  kind m = Delete -> served (Mutating m) w (outcome status (route m req w)).
Proof.
  intros Hk.
  assert (H204 : 204 ∈ answers (Mutating m)) by (cbn; rewrite Hk; decide_by_computing).
  assert (H404 : 404 ∈ answers (Mutating m)) by (cbn; rewrite Hk; decide_by_computing).
  assert (H500 : 500 ∈ answers (Mutating m)) by (cbn; rewrite Hk; decide_by_computing).
  rewrite (delete_shape _ _ _ Hk), delete_route_run. cbv zeta.
  destruct (fault w (SelectById _ _));
    [apply served_quiet; [exact H500|apply untouched_log_call]|].
  destruct (rows w (table_of m) !! params_id req) as [old|] eqn:Hold;
    [|apply served_quiet; [exact H404|apply untouched_log_call]].
  destruct (fault w (DeleteRow _ _));
    [apply served_quiet; [exact H500|repeat split]|].
  apply (served_audit_step _ _ _ (table_of m) (params_id req));
    try assumption; [reflexivity|lia|].
  apply one_request_audit_step.
  - reflexivity.
  - intros c. reflexivity.
  - intros t'. cbn [seqs set_table log_call]. lia.
  - intros t' k Hne. rewrite rows_removed by reflexivity.
    destruct (decide (t' = table_of m /\ k = params_id req)) as [[? ?]|_]; [|reflexivity].
    destruct Hne; contradiction.
  - right. right. right. split; [eexists; exact Hold|].
    rewrite rows_removed by reflexivity.
    destruct (decide _) as [_|Hne]; [reflexivity|]. exfalso. apply Hne. split; reflexivity.
  - reflexivity.
  - reflexivity.
Qed.

Lemma served_locate e req w : served (Locating e) w (outcome status (locate e req w)).
Proof.
  assert (H200 : 200 ∈ answers (Locating e)) by decide_by_computing.
  assert (H400 : 400 ∈ answers (Locating e)) by decide_by_computing.
  assert (H403 : 403 ∈ answers (Locating e)) by decide_by_computing.
  assert (H404 : 404 ∈ answers (Locating e)) by decide_by_computing.
  assert (H500 : 500 ∈ answers (Locating e)) by decide_by_computing.
  rewrite locate_shape, location_route_run.
  destruct (bounded_number (-180) 180 (body req !! "longitude")) as [longitude|];
    destruct (bounded_number (-90) 90 (body req !! "latitude")) as [latitude|];
    try (apply served_quiet; [exact H400|apply untouched_refl]).
  cbv zeta. destruct (fault w (SelectById _ _));
    [apply served_quiet; [exact H500|apply untouched_log_call]|].
  destruct (rows w (spatial_table e) !! params_id req) as [old|] eqn:Hold;
    [|apply served_quiet; [exact H404|apply untouched_log_call]].
  destruct (user req) as [u|];
    [|apply served_quiet; [exact H500|apply untouched_log_call]].
  destruct (match e with SpatialAssets => _ | SpatialStaff => _ end old (sub (claims u)));
    [apply served_quiet; [exact H403|apply untouched_log_call]|].
  destruct longitude as [| | |lng];
    try (apply served_quiet; [exact H500|apply untouched_log_call]).
  destruct latitude as [| | |lat];
    try (apply served_quiet; [exact H500|apply untouched_log_call]).
  destruct (fault w (UpdateRow _ _ _));
    [apply served_quiet; [exact H500|repeat split]|].
  apply (served_audit_step _ _ _ (spatial_table e) (params_id req));
    try assumption; [reflexivity|lia|].
  apply one_request_audit_step.
  - reflexivity.
  - intros c. reflexivity.
  - intros t'. cbn [seqs set_table log_call]. lia.
  - intros t' k Hne. rewrite rows_written by reflexivity.
    destruct (decide (t' = spatial_table e /\ k = params_id req)) as [[? ?]|_];
      [|reflexivity].
    destruct Hne; contradiction.
  - right. right. left. exists old. eexists. split; [exact Hold|]. split.
    + rewrite rows_written by reflexivity.
      destruct (decide _) as [_|Hne]; [reflexivity|]. exfalso. apply Hne. split; reflexivity.
    + rewrite lookup_union, assignments_lookup, lookup_insert_ne by discriminate.
      rewrite lookup_singleton_ne by (destruct e; discriminate).
      destruct (find_column "id" (columns (spatial_table e))), (old !! "id"); reflexivity.
  - reflexivity.
  - reflexivity.
Qed.

Lemma served_listing l req w : served (Listed l) w (outcome status (listing l req w)).
Proof.
  assert (H200 : 200 ∈ answers (Listed l)) by decide_by_computing.
  assert (H500 : 500 ∈ answers (Listed l)) by decide_by_computing.
  destruct (listed_table l) as [t|] eqn:Ht.
  - rewrite (entity_listing_run _ _ _ _ Ht). unfold outcome. cbn [fst snd].
    destruct (_ || _); [|destruct (_ ≫= _)];
      (apply served_quiet; [assumption|apply untouched_log_call]).
  - assert (l = ListAuditLogs) as -> by (destruct l; try discriminate; reflexivity).
    rewrite audit_listing_run. unfold outcome. cbn [fst snd].
    destruct (fault w _); [|destruct (_ ≫= _)];
      (apply served_quiet; [assumption|apply untouched_log_call]).
Qed.

Lemma served_near e req w : served (Nearby e) w (outcome status (spatial e req w)).
Proof.
  assert (H200 : 200 ∈ answers (Nearby e)) by decide_by_computing.
  assert (H400 : 400 ∈ answers (Nearby e)) by decide_by_computing.
  assert (H500 : 500 ∈ answers (Nearby e)) by decide_by_computing.
  assert (spatial e req w
          = spatial_search (select_near (spatial_table e) (spatial_column e))
              match e with
              | SpatialAssets => "Failed to find nearby assets"
              | SpatialStaff => "Failed to find nearby staff"
              end req w) as -> by (destruct e; reflexivity).
  rewrite spatial_search_run.
  destruct (truthy_string (query req !! "lng")) as [slng|];
    [|apply served_quiet; [exact H400|apply untouched_refl]].
  destruct (truthy_string (query req !! "lat")) as [slat|];
    [|apply served_quiet; [exact H400|apply untouched_refl]].
  destruct (truthy_string (query req !! "radius")) as [sradius|];
    [|apply served_quiet; [exact H400|apply untouched_refl]].
  cbv zeta.
  destruct (_ || _ || _); [apply served_quiet; [exact H400|apply untouched_refl]|].
  destruct (_ || _); [apply served_quiet; [exact H400|apply untouched_refl]|].
  destruct (_ || _); [apply served_quiet; [exact H400|apply untouched_refl]|].
  destruct (_ || _); [apply served_quiet; [exact H400|apply untouched_refl]|].
  rewrite select_near_run. cbv zeta.
  destruct (fault w _); [apply served_quiet; [exact H500|apply untouched_log_call]|].
  destruct (parseFloat slng), (parseFloat slat), (parseFloat sradius);
    (apply served_quiet; [assumption|apply untouched_log_call]).
Qed.

Lemma served_single e req w : served (Single e) w (outcome status (single e req w)).
Proof.
  assert (H200 : 200 ∈ answers (Single e)) by decide_by_computing.
  assert (H404 : 404 ∈ answers (Single e)) by decide_by_computing.
  assert (H500 : 500 ∈ answers (Single e)) by decide_by_computing.
  rewrite single_run. cbv zeta. unfold outcome. cbn [fst snd].
  destruct (fault w _); [apply served_quiet; [exact H500|apply untouched_log_call]|].
  destruct (rows w _ !! params_id req);
    (apply served_quiet; [assumption|apply untouched_log_call]).
Qed.

Lemma served_dashboard req w :
  served Dashboard w (outcome reply_status (get_dashboard_stats refused req w)).
Proof.
  rewrite get_dashboard_stats_run. unfold outcome. cbn [fst snd].
  destruct (_ || _ || _ || _);
    (apply served_quiet; [decide_by_computing|apply untouched_refl]).
Qed.

Lemma served_search req w :
  served GlobalSearch w (outcome reply_status (get_search refused req w)).
Proof.
  unfold get_search, try_catch.
  destruct (truthy_string (query req !! "q")) as [q|];
    [|apply served_quiet; [decide_by_computing|apply untouched_refl]].
  unfold searchGlobal. cbv zeta. rewrite !bind_run, search_rows_run.
  destruct (refused (SearchRows assets _));
    [apply served_quiet; [decide_by_computing|apply untouched_refl]|].
  rewrite bind_run, search_rows_run.
  destruct (refused (SearchRows staff _));
    [apply served_quiet; [decide_by_computing|apply untouched_refl]|].
  rewrite bind_run, search_rows_run.
  destruct (refused (SearchRows documents _));
    (apply served_quiet; [decide_by_computing|apply untouched_refl]).
Qed.

(** Every endpoint, on every request and every store. *)
Lemma serve_served e req w : served e w (serve refused e req w).
Proof.
  destruct e as [m|e|l|e|e| |]; cbn [serve].
  - destruct (kind m) eqn:Hk.
    + apply served_create, Hk.
    + apply served_update, Hk.
    + apply served_delete, Hk.
  - apply served_locate.
  - apply served_listing.
  - apply served_near.
  - apply served_single.
  - apply served_dashboard.
  - apply served_search.
Qed.

End Endpoints.

(** ** What every endpoint keeps *)

Section Invariants.
Context `{Platform}.
Variable refused : ReadCall -> bool.

(** X22.  No handler lets an exception escape: every request is answered,
    with one of the status codes of its endpoint. *)
Theorem every_request_is_answered e req w :
  exists code, (serve refused e req w).1 = Some code /\ code ∈ answers e.
Proof.
  destruct (serve_served refused e req w) as (t & id & code & Hcode & Hin & _).
  exists code. split; [exact Hcode|exact Hin].
Qed.

(** X23.  A request that is answered with a 4xx code, or that is sent to
    an endpoint that only reads, leaves the tables, the sequences and the
    audit table as they were. *)
Theorem refused_requests_and_reads_write_nothing e req w code :
  (serve refused e req w).1 = Some code ->
  400 <= code < 500 \/ read_only e = true ->
  untouched w (serve refused e req w).2.
Proof.
  intros Hcode Hquiet.
  destruct (serve_served refused e req w) as (t & id & code' & Hcode' & _ & _ & Huntouched).
  rewrite Hcode in Hcode'. injection Hcode' as <-. apply Huntouched, Hquiet.
Qed.

(** X24.  A request writes at most one row of one table: every other row
    of every table is as it was, and no sequence goes back. *)
Theorem a_request_writes_at_most_one_row e req w :
  exists t id,
    (forall t' k, t' <> t \/ k <> id ->
       rows (serve refused e req w).2 t' !! k = rows w t' !! k)
    /\ (forall t', seqs w t' <= seqs (serve refused e req w).2 t').
Proof.
  destruct (serve_served refused e req w) as (t & id & code & _ & _ & Hone & _).
  destruct Hone as (_ & _ & Hseqs & Hframe & _).
  exists t, id. split; [exact Hframe|exact Hseqs].
Qed.

Lemma sorted_snoc (l : list Z) x :
  StronglySorted Z.lt l -> Forall (fun y => y < x) l -> StronglySorted Z.lt (l ++ [x]).
Proof.
  intros Hs. induction Hs as [|y l Hs IH Hy]; intros Hall; cbn.
  - constructor; [constructor|constructor].
  - apply Forall_cons_1 in Hall as [Hyx Hall]. constructor; [apply IH; exact Hall|].
    apply Forall_app. split; [exact Hy|]. constructor; [exact Hyx|constructor].
Qed.

(** X25.  The audit table only grows, by at most one record per request:
    no record is changed or removed, a new record carries the serial number
    that was next, and the serial numbers of the records stay increasing.
    The serial itself never goes back; a request that writes no record
    moves it on by one at most (an insert that was refused). *)
Theorem audit_table_only_grows e req w :
  appended w (serve refused e req w).2
  /\ (audit_ordered w -> audit_ordered (serve refused e req w).2).
Proof.
  destruct (serve_served refused e req w) as (t & id & code & _ & _ & Hone & _).
  destruct Hone as (_ & _ & _ & _ & _ & Happended).
  split; [exact Happended|]. intros [Hsorted Hbelow].
  destruct Happended as [[Hlogs Hserial]|(entry & Hlogs & Hserial)];
    unfold audit_ordered; rewrite Hlogs.
  - split; [exact Hsorted|]. eapply Forall_impl; [exact Hbelow|]. cbn. intros; lia.
  - rewrite Hserial. split.
    + rewrite fmap_app. cbn [fmap list_fmap log_id]. apply sorted_snoc; [exact Hsorted|].
      apply Forall_fmap. exact Hbelow.
    + apply Forall_app. split.
      * eapply Forall_impl; [exact Hbelow|]. cbn. intros; lia.
      * constructor; [cbn; lia|constructor].
Qed.

(** X26.  Every row stays stored under its own identifier: no endpoint
    stores a row under another key than its [id], and no update changes
    the [id] of a row. *)
Theorem rows_stay_under_their_identifier e req w :
  keyed w -> keyed (serve refused e req w).2.
Proof.
  intros Hkeyed.
  destruct (serve_served refused e req w) as (t & id & code & _ & _ & Hone & _).
  destruct Hone as (_ & _ & _ & Hframe & Hwritten & _).
  intros t' k r Hr. destruct (decide (t' = t /\ k = id)) as [[-> ->]|Hne].
  - destruct Hwritten as [Hsame|[(_ & (row & Hrow & Hid) & _)|
                                 [(old & new & Hold & Hnew & Hid)|[_ Hgone]]]].
    + rewrite Hsame in Hr. apply (Hkeyed _ _ _ Hr).
    + rewrite Hrow in Hr. injection Hr as <-. exact Hid.
    + rewrite Hnew in Hr. injection Hr as <-. rewrite Hid. apply (Hkeyed _ _ _ Hold).
    + rewrite Hgone in Hr. discriminate.
  - rewrite Hframe in Hr.
    + apply (Hkeyed _ _ _ Hr).
    + destruct (decide (t' = t)); [right|left]; naive_solver.
Qed.

(** X27.  The rows of a numbered table keep identifiers that its sequence
    has given out: no endpoint stores a row whose number the sequence has
    not passed. *)
Theorem identifiers_stay_numbered e req w :
  numbered w -> numbered (serve refused e req w).2.
Proof.
  intros [Hstart Hnumbered].
  destruct (serve_served refused e req w) as (t & id & code & _ & _ & Hone & _).
  destruct Hone as (_ & _ & Hseqs & Hframe & Hwritten & _).
  split; [intros t'; specialize (Hstart t'); specialize (Hseqs t'); lia|].
  intros t' prefix k Hp Hsome.
  assert (Hbefore : is_Some (rows w t' !! k) ->
            exists n, sequence_start <= n < seqs (serve refused e req w).2 t'
                      /\ k = prefix +:+ to_char_FM0000 n).
  { intros Hk. destruct (Hnumbered _ _ _ Hp Hk) as (n & Hn & ->).
    exists n. split; [specialize (Hseqs t'); lia|reflexivity]. }
  destruct (decide (t' = t /\ k = id)) as [[-> ->]|Hne].
  - destruct Hwritten as [Hsame|[(_ & _ & Hid)|
                                 [(old & new & Hold & _ & _)|[_ Hgone]]]].
    + apply Hbefore. rewrite <- Hsame. exact Hsome.
    + destruct (Hid _ Hp) as [-> Hnext]. exists (seqs w t).
      split; [specialize (Hstart t); lia|reflexivity].
    + apply Hbefore. eexists. exact Hold.
    + rewrite Hgone in Hsome. destruct Hsome as [? [=]].
  - apply Hbefore. rewrite <- Hframe; [exact Hsome|].
    destruct (decide (t' = t)); [right|left]; naive_solver.
Qed.

Lemma append_inj prefix a b : prefix +:+ a = prefix +:+ b -> a = b.
Proof.
  induction prefix as [|c prefix IH]; cbn; [trivial|]. intros [= E]. apply IH, E.
Qed.

(** X28.  While the sequence of a table is below 10000, a creation whose
    body passes the schema never fails for its identifier: on a store that
    answers, whose rows were numbered by the sequence, it is answered 201. *)
Theorem creation_does_not_collide_below_10000 m req w prefix input :
  kind m = Create ->
  id_prefix (table_of m) = Some prefix ->
  numbered w ->
  seqs w (table_of m) < 10000 ->
  healthy w ->
  input_of (owner_of m) req = Some input ->
  zod_issues (schema_of m) input = [] ->
  status <$> response_of (route m req w) = Some 201.
Proof.
  intros Hk Hp [Hstart Hnumbered] Hseq Hw Hin Hvalid.
  rewrite (create_shape _ _ _ Hk), create_route_run, Hin.
  assert (Hparse : zod_parse (schema_of m) input = inr (zod_output (schema_of m) input))
    by (unfold zod_parse; rewrite Hvalid; reflexivity).
  rewrite Hparse. cbv zeta. rewrite Hw.
  pose proof (parsed_omitted m input _ "id" Hparse (or_introl eq_refl)) as Hnone.
  rewrite (new_row_id _ _ _ _ Hp Hnone).
  destruct (rows w (table_of m) !! (prefix +:+ to_char_FM0000 (seqs w (table_of m))))
    eqn:Hstored.
  - exfalso. destruct (Hnumbered _ _ _ Hp (mk_is_Some _ _ Hstored)) as (n & Hn & Heq).
    apply append_inj in Heq. specialize (Hstart (table_of m)).
    unfold sequence_start in *. apply to_char_FM0000_inj in Heq; lia.
  - unfold audit_step. destruct (actor req) as [uid|]; [|reflexivity].
    cbn [fault set_table]. rewrite fault_draw_defaults. cbn [fault log_call].
    rewrite Hw. reflexivity.
Qed.

End Invariants.

(** ** The workflows page *)

Section WorkflowsPage.
Context `{Platform}.

Lemma approve_issues today :
  zod_issues (partial insertWorkflowSchema)
    {[ "status" := VStr "approved"; "completedDate" := VStr today ]} = ["completedDate"].
Proof. reflexivity. Qed.

Lemma reject_issues reason today :
  zod_issues (partial insertWorkflowSchema)
    {[ "status" := VStr "rejected"; "comments" := VStr reason;
       "completedDate" := VStr today ]} = ["completedDate"].
Proof. reflexivity. Qed.

Lemma page_update_refused browser id data w :
  stored w workflows id = true ->
  fault w (SelectById workflows id) = false ->
  zod_issues (partial insertWorkflowSchema) data = ["completedDate"] ->
  updateWorkflowMutation browser id data w
  = (Ok {| status := 400; payload := Invalid ["completedDate"] |},
     log_call (SelectById workflows id) w).
Proof.
  unfold stored, updateWorkflowMutation. intros Hstored Hfault Hissues.
  rewrite put_workflow_run, update_route_run. cbv zeta. cbn [params_id body apiRequest].
  rewrite Hfault. destruct (rows w workflows !! id); [|discriminate].
  unfold zod_parse. rewrite Hissues. reflexivity.
Qed.

(** X29.  The approve and reject actions of the workflows page send the
    completion date as a string, which the update schema does not accept
    for a timestamp: the server answers 400 naming [completedDate] and the
    workflow stays as it was.  A rejection without a reason sends
    nothing. *)
Theorem page_approval_and_rejection_are_refused browser today workflow w :
  stored w workflows (row_id workflow) = true ->
  fault w (SelectById workflows (row_id workflow)) = false ->
  handleApprove browser today workflow w
  = (Ok {| status := 400; payload := Invalid ["completedDate"] |},
     log_call (SelectById workflows (row_id workflow)) w)
  /\ (forall reason text,
        truthy_string reason = Some text ->
        exists run,
          handleReject browser today reason workflow = Some run
          /\ run w = (Ok {| status := 400; payload := Invalid ["completedDate"] |},
                      log_call (SelectById workflows (row_id workflow)) w))
  /\ (forall reason,
        truthy_string reason = None ->
        handleReject browser today reason workflow = None).
Proof.
  intros Hstored Hfault. split; [|split].
  - unfold handleApprove. apply page_update_refused; [exact Hstored|exact Hfault|].
    apply approve_issues.
  - intros reason text Htext. unfold handleReject. rewrite Htext. eexists.
    split; [reflexivity|].
    apply page_update_refused; [exact Hstored|exact Hfault|]. apply reject_issues.
  - intros reason Hnone. unfold handleReject. rewrite Hnone. reflexivity.
Qed.

(** X30.  The page sorts the workflows it lists into pending ones and
    completed ones.  A workflow whose status is a label of the status enum
    is in exactly one of the two lists; one whose status is null is in
    neither. *)
Theorem pending_and_completed_split_the_workflows filteredWorkflows :
  Forall (fun w => exists s, w !! "status" = Some (VStr s) /\ s ∈ workflowStatusEnum)
         filteredWorkflows ->
  (length (pendingWorkflows filteredWorkflows)
   + length (completedWorkflows filteredWorkflows) = length filteredWorkflows)%nat
  /\ (forall w, w ∈ pendingWorkflows filteredWorkflows ->
                w ∉ completedWorkflows filteredWorkflows)
  /\ (forall w, w !! "status" = Some VNull ->
                (w ∉ pendingWorkflows filteredWorkflows)
                /\ (w ∉ completedWorkflows filteredWorkflows)).
Proof.
  intros Hall. split; [|split].
  - unfold pendingWorkflows, completedWorkflows.
    induction Hall as [|w l (s & Hs & Hlabel) _ IH]; [reflexivity|].
    cbn [List.filter].
    set (pending := List.filter (status_is "pending") l) in *.
    set (completed := List.filter _ l) in *.
    unfold status_is. rewrite Hs.
    assert (s = "pending" \/ s = "approved" \/ s = "rejected" \/ s = "completed")
      as [->|[->|[->| ->]]].
    { unfold workflowStatusEnum in Hlabel. rewrite !elem_of_cons in Hlabel.
      destruct Hlabel as [?|[?|[?|[?|Hnil]]]]; try tauto.
      apply elem_of_nil in Hnil. contradiction. }
    all: repeat match goal with
                | |- context [bool_decide ?P] =>
                    let b := eval vm_compute in (bool_decide P) in
                    change (bool_decide P) with b
                end; cbn [length]; lia.
  - intros w Hp Hc. unfold pendingWorkflows in Hp. unfold completedWorkflows in Hc.
    apply elem_of_List_filter in Hp as [_ Hp]. apply elem_of_List_filter in Hc as [_ Hc].
    unfold status_is in Hp. destruct (w !! "status") as [[| | |s| | | | | |]|];
      try discriminate.
    apply bool_decide_eq_true_1 in Hp. subst s. discriminate.
  - intros w Hnull. unfold pendingWorkflows, completedWorkflows.
    split; intros Hin; apply elem_of_List_filter in Hin as [_ Hin];
      unfold status_is in Hin; rewrite Hnull in Hin; discriminate.
Qed.

End WorkflowsPage.

(** * The further properties on the sample runs *)

Lemma created_row_is_read_back_witness :
  exists row,
    (@create_in sample_platform assets (body generator_request) (empty_world 0)).1 = Ok row
    /\ row !! "id" = Some (VStr (row_id row))
    /\ rows (empty_world 0) assets !! row_id row = None
    /\ (getAsset (row_id row)
          (@create_in sample_platform assets (body generator_request) (empty_world 0)).2).1
       = Ok (Some row).
Proof.
  apply (@created_row_is_read_back sample_platform assets getAsset).
  - reflexivity.
  - intros c. reflexivity.
  - vm_compute. reflexivity.
Defined.

Lemma update_merges_the_patch_witness :
  exists old new,
    rows created.2 assets !! "AST-1000" = Some old
    /\ (@update_in sample_platform assets "AST-1000" (body revalue_request) created.2).1
       = Ok (Some new)
    /\ rows (@update_in sample_platform assets "AST-1000" (body revalue_request)
               created.2).2 assets
         !! "AST-1000" = Some new
    /\ new !! "updatedAt" = Some (VDate (clock created.2))
    /\ (forall k c v, find_column k (columns assets) = Some c ->
          body revalue_request !! k = Some v ->
          new !! k = Some (@column_holds sample_platform (col_type c) v))
    /\ (forall k, k <> "updatedAt" -> body revalue_request !! k = None ->
                  new !! k = old !! k)
    /\ (forall t' k, t' <> assets \/ k <> "AST-1000" ->
          rows (@update_in sample_platform assets "AST-1000" (body revalue_request)
                  created.2).2 t' !! k
          = rows created.2 t' !! k).
Proof.
  apply (@update_merges_the_patch sample_platform assets "AST-1000" (body revalue_request)
           created.2).
  - vm_compute. reflexivity.
  - vm_compute. reflexivity.
  - vm_compute. reflexivity.
Defined.

Lemma update_of_a_missing_row_returns_nothing_witness :
  (forall t' k,
     rows (@update_in sample_platform assets "AST-4040" (body rename_request)
             created.2).2 t' !! k
     = rows created.2 t' !! k)
  /\ auditLogs (@update_in sample_platform assets "AST-4040" (body rename_request)
                  created.2).2
     = auditLogs created.2
  /\ (fault created.2
        (UpdateRow assets "AST-4040"
           (<["updatedAt" := VDate (clock created.2)]> (body rename_request))) = false ->
      (@update_in sample_platform assets "AST-4040" (body rename_request) created.2).1
      = Ok None).
Proof.
  apply (@update_of_a_missing_row_returns_nothing sample_platform assets "AST-4040"
           (body rename_request) created.2).
  vm_compute. reflexivity.
Defined.

Lemma deleted_row_is_gone_witness :
  (deleteAsset "AST-1000" created.2).1 = Ok ()
  /\ (getAsset "AST-1000" (deleteAsset "AST-1000" created.2).2).1 = Ok None
  /\ (forall t' k, t' <> assets \/ k <> "AST-1000" ->
        rows (deleteAsset "AST-1000" created.2).2 t' !! k = rows created.2 t' !! k)
  /\ (rows created.2 assets !! "AST-1000" = None ->
      forall t' k, rows (deleteAsset "AST-1000" created.2).2 t' !! k = rows created.2 t' !! k).
Proof.
  apply (deleted_row_is_gone assets deleteAsset getAsset "AST-1000" created.2).
  - reflexivity.
  - reflexivity.
  - intros c. vm_compute. reflexivity.
Defined.

Lemma creator_is_the_session_subject_witness :
  exists u row,
    user generator_request = Some u
    /\ payload <$> response_of (@route sample_platform PostAssets generator_request
                                  (empty_world 0))
       = Some (Entity (Some row))
    /\ row !! "createdBy" = Some (VStr (sub (claims u)))
    /\ rows (@route sample_platform PostAssets generator_request (empty_world 0)).2
         (table_of PostAssets) !! row_id row = Some row.
Proof.
  apply (@creator_is_the_session_subject sample_platform PostAssets generator_request
           (empty_world 0) "createdBy").
  - reflexivity.
  - vm_compute. reflexivity.
Defined.

Lemma created_row_is_stamped_by_the_server_witness :
  exists row,
    payload <$> response_of (@route sample_platform PostAssets generator_request
                               (empty_world 0))
      = Some (Entity (Some row))
    /\ (forall k, is_Some (row !! k) <-> k ∈ col_name <$> columns (table_of PostAssets))
    /\ row !! creation_column (table_of PostAssets) = Some (VDate (clock (empty_world 0)))
    /\ row !! "updatedAt" = Some (VDate (clock (empty_world 0))).
Proof.
  apply (@created_row_is_stamped_by_the_server sample_platform PostAssets generator_request
           (empty_world 0)).
  - reflexivity.
  - vm_compute. reflexivity.
Defined.

Lemma identifier_is_drawn_by_the_store_witness :
  exists row,
    payload <$> response_of (@route sample_platform PostAssets generator_request
                               (empty_world 0))
      = Some (Entity (Some row))
    /\ rows (empty_world 0) (table_of PostAssets) !! row_id row = None
    /\ match id_prefix (table_of PostAssets) with
       | Some prefix =>
           row_id row = prefix +:+ to_char_FM0000 (seqs (empty_world 0) (table_of PostAssets))
           /\ seqs (@route sample_platform PostAssets generator_request (empty_world 0)).2
                (table_of PostAssets)
              = seqs (empty_world 0) (table_of PostAssets) + 1
           /\ uuid_next (@route sample_platform PostAssets generator_request
                           (empty_world 0)).2
              = uuid_next (empty_world 0)
       | None =>
           row_id row = @gen_random_uuid sample_platform (uuid_next (empty_world 0))
           /\ uuid_next (@route sample_platform PostAssets generator_request
                           (empty_world 0)).2
              = S (uuid_next (empty_world 0))
           /\ seqs (@route sample_platform PostAssets generator_request (empty_world 0)).2
                (table_of PostAssets)
              = seqs (empty_world 0) (table_of PostAssets)
       end
    /\ (forall t, t <> table_of PostAssets ->
          seqs (@route sample_platform PostAssets generator_request (empty_world 0)).2 t
          = seqs (empty_world 0) t).
Proof.
  apply (@identifier_is_drawn_by_the_store sample_platform PostAssets generator_request
           (empty_world 0)).
  - reflexivity.
  - vm_compute. reflexivity.
Defined.

Lemma invalid_body_is_refused_before_any_write_witness :
  exists errors,
    @route sample_platform PostAssets nameless_request (empty_world 0)
    = (Ok {| status := 400; payload := Invalid errors |}, empty_world 0)
    /\ f_name name_field ∈ errors.
Proof.
  apply (@invalid_body_is_refused_before_any_write sample_platform PostAssets
           nameless_request (empty_world 0) name_field
           (<["createdBy" := VStr "alice"]> (body nameless_request))).
  - reflexivity.
  - reflexivity.
  - vm_compute. constructor.
  - vm_compute. reflexivity.
Defined.

Lemma update_writes_what_the_body_carries_witness :
  exists old new,
    rows created.2 (table_of PutAsset) !! params_id revalue_request = Some old
    /\ payload <$> response_of (@route sample_platform PutAsset revalue_request created.2)
       = Some (Entity (Some new))
    /\ rows (@route sample_platform PutAsset revalue_request created.2).2
         (table_of PutAsset)
         !! params_id revalue_request = Some new
    /\ new !! "updatedAt" = Some (VDate (clock created.2))
    /\ (forall k c, k ∈ f_name <$> schema_of PutAsset ->
          find_column k (columns (table_of PutAsset)) = Some c ->
          new !! k = match body revalue_request !! k with
                     | Some v => Some (@column_holds sample_platform (col_type c) v)
                     | None => old !! k
                     end)
    /\ (forall k, k ∉ f_name <$> schema_of PutAsset -> k <> "updatedAt" ->
                  new !! k = old !! k)
    /\ new !! "id" = old !! "id"
    /\ new !! creation_column (table_of PutAsset)
       = old !! creation_column (table_of PutAsset).
Proof.
  apply (@update_writes_what_the_body_carries sample_platform PutAsset revalue_request
           created.2).
  - reflexivity.
  - vm_compute. reflexivity.
Defined.

Lemma delete_of_unknown_id_is_not_found_witness :
  exists r w',
    @route sample_platform DeleteAsset unknown_update_request created.2 = (Ok r, w')
    /\ rows w' = rows created.2
    /\ auditLogs w' = auditLogs created.2
    /\ trace w' =
       (trace created.2 ++
          [SelectById (table_of DeleteAsset) (params_id unknown_update_request)])%list
    /\ status r <> 204
    /\ (fault created.2
          (SelectById (table_of DeleteAsset) (params_id unknown_update_request)) = false ->
        r = {| status := 404; payload := Message (not_found_of DeleteAsset) |}).
Proof.
  apply (@delete_of_unknown_id_is_not_found sample_platform DeleteAsset
           unknown_update_request created.2).
  - reflexivity.
  - vm_compute. reflexivity.
Defined.

Lemma deleted_entity_is_not_found_afterwards_witness :
  response_of (single SpatialAssets remove_request
                 (@route sample_platform DeleteAsset remove_request created.2).2)
    = Some {| status := 404; payload := Message (missing SpatialAssets) |}
  /\ status <$> response_of
       (@route sample_platform DeleteAsset remove_request
          (@route sample_platform DeleteAsset remove_request created.2).2) = Some 404
  /\ (forall m', kind m' = Update -> table_of m' = table_of DeleteAsset ->
        status <$> response_of
          (@route sample_platform m' remove_request
             (@route sample_platform DeleteAsset remove_request created.2).2) = Some 404).
Proof.
  apply (@deleted_entity_is_not_found_afterwards sample_platform DeleteAsset SpatialAssets
           remove_request remove_request created.2).
  - reflexivity.
  - reflexivity.
  - reflexivity.
  - intros c. vm_compute. reflexivity.
  - vm_compute. reflexivity.
Defined.

Lemma coordinates_are_checked_before_the_lookup_witness :
  exists errors,
    @locate sample_platform SpatialAssets wrong_move_request created.2
    = (Ok {| status := 400; payload := Invalid errors |}, created.2)
    /\ ("longitude" ∈ errors
        <-> ~ coordinate (-180) 180 (body wrong_move_request !! "longitude"))
    /\ ("latitude" ∈ errors
        <-> ~ coordinate (-90) 90 (body wrong_move_request !! "latitude")).
Proof.
  apply (@coordinates_are_checked_before_the_lookup sample_platform SpatialAssets
           wrong_move_request created.2).
  intros [Hlng _]. vm_compute in Hlng. destruct Hlng as [_ Hlng]. apply Hlng. reflexivity.
Defined.

Lemma location_update_is_the_owners_witness :
  exists u old new,
    user move_request = Some u
    /\ rows created.2 (spatial_table SpatialAssets) !! params_id move_request = Some old
    /\ owns SpatialAssets old (sub (claims u))
    /\ payload <$> response_of (@locate sample_platform SpatialAssets move_request
                                  created.2)
       = Some (Entity (Some new))
    /\ rows (@locate sample_platform SpatialAssets move_request created.2).2
         (spatial_table SpatialAssets)
         !! params_id move_request = Some new
    /\ new !! "updatedAt" = Some (VDate (clock created.2))
    /\ (forall k, k <> spatial_column SpatialAssets -> k <> "updatedAt" ->
                  new !! k = old !! k)
    /\ (forall t k, t <> spatial_table SpatialAssets \/ k <> params_id move_request ->
          rows (@locate sample_platform SpatialAssets move_request created.2).2 t !! k
          = rows created.2 t !! k).
Proof.
  apply (@location_update_is_the_owners sample_platform SpatialAssets move_request
           created.2).
  vm_compute. reflexivity.
Defined.

Lemma location_update_by_a_stranger_is_forbidden_witness :
  @locate sample_platform SpatialAssets bobs_move_request created.2
  = (Ok {| status := 403; payload := Message (refusal SpatialAssets) |},
     log_call (SelectById (spatial_table SpatialAssets) (params_id bobs_move_request))
       created.2).
Proof.
  apply (@location_update_by_a_stranger_is_forbidden sample_platform SpatialAssets
           bobs_move_request created.2 bob).
  - vm_compute. split; discriminate.
  - vm_compute. split; discriminate.
  - vm_compute. reflexivity.
  - vm_compute. reflexivity.
  - reflexivity.
  - intros old Hold.
    assert (Hcustodian : rows created.2 (spatial_table SpatialAssets)
                           !! params_id bobs_move_request
                           ≫= (fun r => r !! "custodianId") = Some VNull)
      by (vm_compute; reflexivity).
    assert (Hcreator : rows created.2 (spatial_table SpatialAssets)
                         !! params_id bobs_move_request
                         ≫= (fun r => r !! "createdBy") = Some (VStr "alice"))
      by (vm_compute; reflexivity).
    rewrite Hold in Hcustodian, Hcreator. cbn [mbind option_bind] in Hcustodian, Hcreator.
    intros [Hc|Hc].
    + rewrite Hcustodian in Hc. discriminate.
    + rewrite Hcreator in Hc. discriminate.
Defined.



Lemma negative_offset_is_refused_negative_limit_is_ignored_witness :
  (response_of (@listing sample_platform ListAssets negative_offset_request created.2)
     = Some (failed (listing_failure ListAssets))
   /\ rows (@listing sample_platform ListAssets negative_offset_request created.2).2
      = rows created.2
   /\ auditLogs (@listing sample_platform ListAssets negative_offset_request created.2).2
      = auditLogs created.2)
  /\
  (exists items total,
     response_of (@listing sample_platform ListAssets negative_limit_request created.2)
     = Some {| status := 200; payload := Page items total |}
     /\ Z.of_nat (length items) = total
     /\ forall id r,
          rows created.2 assets !! id = Some r ->
          @listed_where sample_platform ListAssets negative_limit_request r = true ->
          r ∈ items).
Proof.
  split.
  - apply (proj1 (@negative_offset_is_refused_negative_limit_is_ignored sample_platform
                    ListAssets negative_offset_request created.2)).
    vm_compute. reflexivity.
  - apply (proj2 (@negative_offset_is_refused_negative_limit_is_ignored sample_platform
                    ListAssets negative_limit_request created.2) assets).
    + reflexivity.
    + vm_compute. reflexivity.
    + vm_compute. reflexivity.
    + vm_compute. reflexivity.
    + vm_compute. reflexivity.
Defined.

Lemma near_finds_every_entity_within_the_radius_witness :
  exists lng lat radius items,
    @valid_query sample_platform (near_request "100") (Fin lng) (Fin lat) (Fin radius)
    /\ payload <$> response_of (@spatial sample_platform SpatialAssets (near_request "100")
                                  moved.2)
       = Some (Entities items)
    /\ (forall id src x y,
          rows moved.2 (spatial_table SpatialAssets) !! id = Some src ->
          src !! spatial_column SpatialAssets = Some (VGeom x y) ->
          @ST_DWithin sample_platform (x, y) (lng, lat) radius = true ->
          <["distance" := VNum (Fin (@ST_Distance sample_platform (x, y) (lng, lat)))]>
            (<[spatial_column SpatialAssets := VGeoJSON x y]> src) ∈ items)
    /\ (length items <= size (rows moved.2 (spatial_table SpatialAssets)))%nat.
Proof.
  apply (@near_finds_every_entity_within_the_radius sample_platform SpatialAssets
           (near_request "100") moved.2).
  vm_compute. reflexivity.
Defined.

Lemma dashboard_totals_follow_the_mutations_witness :
  exists before after,
    (get_dashboard_stats no_outage generator_request (empty_world 0)).1
      = Ok {| reply_status := 200; reply_json := inr before |}
    /\ (get_dashboard_stats no_outage generator_request
          (@route sample_platform PostAssets generator_request (empty_world 0)).2).1
       = Ok {| reply_status := 200; reply_json := inr after |}
    /\ totalAssets after = totalAssets before + change PostAssets assets
    /\ totalDocuments after = totalDocuments before + change PostAssets documents
    /\ (table_of PostAssets <> staff -> activeStaff after = activeStaff before)
    /\ (table_of PostAssets <> workflows -> pendingApprovals after = pendingApprovals before)
    /\ (PostAssets = PostWorkflows -> body generator_request !! "status" = None ->
        pendingApprovals after = pendingApprovals before + 1)
    /\ (PostAssets = PostStaff -> body generator_request !! "status" = None ->
        activeStaff after = activeStaff before + 1).
Proof.
  apply (@dashboard_totals_follow_the_mutations sample_platform no_outage PostAssets
           generator_request (empty_world 0)).
  - intros c. reflexivity.
  - vm_compute. reflexivity.
Defined.


Lemma refused_requests_and_reads_write_nothing_witness :
  untouched created.2
    (@serve sample_platform no_outage (Mutating PutAsset) unknown_update_request created.2).2.
Proof.
  apply (@refused_requests_and_reads_write_nothing sample_platform no_outage
           (Mutating PutAsset) unknown_update_request created.2 404).
  - vm_compute. reflexivity.
  - left. lia.
Defined.

Lemma keyed_empty_world now : keyed (empty_world now).
Proof. intros t k r Hr. cbn in Hr. rewrite lookup_empty in Hr. discriminate. Qed.

Lemma numbered_empty_world now : numbered (empty_world now).
Proof.
  split; [intros t; cbn; lia|]. intros t prefix k _ [r Hr]. cbn in Hr.
  rewrite lookup_empty in Hr. discriminate.
Qed.

Lemma rows_stay_under_their_identifier_witness :
  keyed (@serve sample_platform no_outage (Mutating PostAssets) generator_request
           (empty_world 0)).2.
Proof.
  apply (@rows_stay_under_their_identifier sample_platform no_outage (Mutating PostAssets)
           generator_request (empty_world 0)).
  apply keyed_empty_world.
Defined.

Lemma identifiers_stay_numbered_witness :
  numbered (@serve sample_platform no_outage (Mutating PostAssets) generator_request
              (empty_world 0)).2.
Proof.
  apply (@identifiers_stay_numbered sample_platform no_outage (Mutating PostAssets)
           generator_request (empty_world 0)).
  apply numbered_empty_world.
Defined.

Lemma creation_does_not_collide_below_10000_witness :
  status <$> response_of (@route sample_platform PostAssets generator_request (empty_world 0))
  = Some 201.
Proof.
  apply (@creation_does_not_collide_below_10000 sample_platform PostAssets generator_request
           (empty_world 0) "AST-"
           (<["createdBy" := VStr "alice"]> (body generator_request))).
  - reflexivity.
  - reflexivity.
  - apply numbered_empty_world.
  - vm_compute. reflexivity.
  - intros c. reflexivity.
  - reflexivity.
  - vm_compute. reflexivity.
Defined.

Lemma page_approval_and_rejection_are_refused_witness :
  @handleApprove sample_platform page_request "2024-05-01T09:00:00.000Z" (answer_row filed)
    filed.2
  = (Ok {| status := 400; payload := Invalid ["completedDate"] |},
     log_call (SelectById workflows (row_id (answer_row filed))) filed.2)
  /\ (forall reason text,
        truthy_string reason = Some text ->
        exists run,
          @handleReject sample_platform page_request "2024-05-01T09:00:00.000Z" reason
            (answer_row filed)
          = Some run
          /\ run filed.2
             = (Ok {| status := 400; payload := Invalid ["completedDate"] |},
                log_call (SelectById workflows (row_id (answer_row filed))) filed.2))
  /\ (forall reason,
        truthy_string reason = None ->
        @handleReject sample_platform page_request "2024-05-01T09:00:00.000Z" reason
          (answer_row filed)
        = None).
Proof.
  apply (@page_approval_and_rejection_are_refused sample_platform page_request
           "2024-05-01T09:00:00.000Z" (answer_row filed) filed.2).
  - vm_compute. reflexivity.
  - vm_compute. reflexivity.
Defined.

Lemma pending_and_completed_split_the_workflows_witness :
  (length (pendingWorkflows listed_workflows)
   + length (completedWorkflows listed_workflows) = length listed_workflows)%nat
  /\ (forall w, w ∈ pendingWorkflows listed_workflows ->
                w ∉ completedWorkflows listed_workflows)
  /\ (forall w, w !! "status" = Some VNull ->
                (w ∉ pendingWorkflows listed_workflows)
                /\ (w ∉ completedWorkflows listed_workflows)).
Proof.
  apply (pending_and_completed_split_the_workflows listed_workflows).
  constructor; [exists "pending"; split; [reflexivity|vm_compute; constructor]|].
  constructor; [exists "approved"; split; [reflexivity|vm_compute; do 1 constructor;
                                                       constructor]|].
  constructor.
Defined.

(** ** The store at work *)

(** What a numeric(12,2) column holds for what is written to it, and the
    asset once its purchase value is written as 12.5. *)
Lemma decimal_columns_keep_two_decimals :
  @numeric sample_platform "7" = "7.00"
  /\ @numeric sample_platform "12.5" = "12.50"
  /\ @numeric sample_platform "0.125" = "0.13"
  /\ @numeric sample_platform "-0.125" = "-0.13"
  /\ @numeric sample_platform "0.124" = "0.12"
  /\ answer_row (@route sample_platform PutAsset revalue_request created.2)
       !! "purchaseValue" = Some (VStr "12.50")
  /\ (rows (@route sample_platform PutAsset revalue_request created.2).2 assets
        !! "AST-1000") ≫= (fun r => r !! "purchaseValue") = Some (VStr "12.50").
Proof. vm_compute. repeat split. Qed.

(** An audit insert that the store refuses has drawn its serial number. *)
Lemma refused_audit_insert_draws_the_serial :
  audit_serial (@post_assets sample_platform generator_request
                  (refuse_audit (empty_world 0))).2
  = audit_serial (empty_world 0) + 1
  /\ auditLogs (@post_assets sample_platform generator_request
                  (refuse_audit (empty_world 0))).2 = [].
Proof. vm_compute. split; reflexivity. Qed.

(** The workflows of a status that is no label of the enum: the store
    refuses the comparison, and the listing is answered 500. *)
Lemma unknown_workflow_status_is_refused :
  response_of (@listing sample_platform ListWorkflows bogus_status_request filed.2)
  = Some (failed (listing_failure ListWorkflows)).
Proof. vm_compute. reflexivity. Qed.

(** A condition score of 2^31 does not pass the insert schema. *)
Lemma oversized_integer_is_refused :
  @route sample_platform PostAssets oversized_score_request (empty_world 0)
  = (Ok {| status := 400; payload := Invalid ["conditionScore"] |}, empty_world 0).
Proof. vm_compute. reflexivity. Qed.
